(** * LST_Calculator: a shallow embedding of [lst_plugin.py]

    The plugin computes a land surface temperature raster from Landsat
    band 10 by two raster-calculator evaluations (TOA radiance, then
    brightness temperature), styles the result and registers it with the
    host project.  This development embeds

    - the text handling of the plugin (f-strings, [os.path.join],
      [str.replace], [str.strip]);
    - the fragment of the raster calculator's expression language that the
      two formulas use, with a lexer, a parser and an evaluator that is
      generic in the arithmetic (real numbers, binary64 floats);
    - the methods of [LSTCalculator] as computations in a state and
      exception monad over an explicit world (file system, calculator
      engine, project layers, message log, message bar);
    - the calculator engine as the plugin reads it: the evaluator applied
      to every cell of the bands its entries name, with the result codes
      of the plugin's table.  *)

From Stdlib Require Import String Ascii List ZArith Reals Lra Lia.
From Stdlib Require Import Floats Uint63.
From Stdlib Require Import DecimalString DecimalN DecimalPos DecimalZ.
From stdpp Require Import gmap strings.

Set Warnings "-inexact-float".

Local Open Scope string_scope.

(* Text is computed with: let [simpl] unfold concatenation again. *)
Arguments String.append !s1 s2 : simpl nomatch.

(** ** Python text primitives *)

(** The double quote character, written by its code. *)
Definition dquote : ascii := "034"%char.

Definition quoted (s : string) : string :=
  String dquote (s ++ String dquote "").

(** [str(n)] for a Python [int]. *)
Definition str_int (n : Z) : string :=
  NilZero.string_of_int (Z.to_int n).

(** ** Float constants

    A Python [float] constant of the plugin is kept as the decimal literal
    that denotes it, [mantissa / 10 ^ decimals]: [0.0003342] is
    [PyFloat 3342 7].  Constants are not negative, and a literal stands
    for a float only up to 15 significant digits: a longer one need not
    be the shortest that reads back as the float. *)
Record pyfloat : Type := PyFloat {
  mantissa : N;
  decimals : nat
}.

(** The literal without the zeros that end its fraction. *)
Fixpoint normalize (m : N) (k : nat) : N * nat :=
  match k with
  | O => (m, O)
  | S k' => if (m mod 10 =? 0)%N then normalize (m / 10) k' else (m, k)
  end.

(** [str(n)] for a natural number. *)
Definition str_N (n : N) : string := NilEmpty.string_of_uint (N.to_uint n).

Definition digit_char (d : N) : ascii := ascii_of_N (48 + d).

(** The last [w] digits of [f], zeros in front included. *)
Fixpoint frac_digits (w : nat) (f : N) : string :=
  match w with
  | O => ""
  | S w' => frac_digits w' (f / 10) ++ String (digit_char (f mod 10)) ""
  end.

Fixpoint rstrip_zeros (s : string) : string :=
  match s with
  | EmptyString => EmptyString
  | String c r =>
      match rstrip_zeros r with
      | EmptyString => if Ascii.eqb c "0" then EmptyString else String c EmptyString
      | r' => String c r'
      end
  end.

(** The exponent of the scientific notation: a sign and two digits at
    least. *)
Definition exponent_text (e : Z) : string :=
  (if (e <? 0)%Z then "-" else "+")
    ++ (if (Z.abs e <? 10)%Z then "0" else "") ++ str_N (Z.to_N (Z.abs e)).

(** Scientific notation, [d.ddde-XX]. *)
Definition str_float_exp (m : N) (k : nat) : string :=
  let s := str_N m in
  let e := (Z.of_nat (String.length s) - Z.of_nat k - 1)%Z in
  match rstrip_zeros s with
  | String d EmptyString => String d ("e" ++ exponent_text e)
  | String d rest => String d ("." ++ rest ++ "e" ++ exponent_text e)
  | EmptyString => EmptyString
  end.

(** [repr] writes a float in positional notation when it is zero or
    [1e-4 <= x < 1e16]. *)
Definition positional (m : N) (k : nat) : bool :=
  (m =? 0)%N
  || (10 ^ N.of_nat k <=? m * 10000)%N && (m <? 10 ^ (16 + N.of_nat k))%N.

(** [str(x)] for a float, which is [repr(x)]: the shortest digits that
    read back as [x], with [.0] after a whole number, in scientific
    notation outside the positional range.  For a literal of at most 15
    significant digits these digits are the literal's own. *)
Definition str_float (x : pyfloat) : string :=
  let '(m, k) := normalize (mantissa x) (decimals x) in
  if positional m k then
    match k with
    | O => str_N m ++ ".0"
    | _ => str_N (m / 10 ^ N.of_nat k) ++ "."
             ++ frac_digits k (m mod 10 ^ N.of_nat k)
    end
  else str_float_exp m k.

(** The digits [str_float] prints in positional notation, read as one
    number, and how many of them follow the point. *)
Definition printed (x : pyfloat) : N * nat :=
  let '(m, k) := normalize (mantissa x) (decimals x) in
  match k with
  | O => ((10 * m)%N, 1%nat)
  | _ => (m, k)
  end.

(** The constants the properties below are stated for: zero or at least
    [0.0001], with at most 15 digits printed.  [str_float] prints them in
    positional notation, and the quotient of the printed digits by the
    power of ten, both exact in binary64, is the float itself. *)
Definition py_plain (x : pyfloat) : bool :=
  let '(m, k) := normalize (mantissa x) (decimals x) in
  ((m =? 0)%N || (10 ^ N.of_nat k <=? m * 10000)%N)
  && (fst (printed x) <? 10 ^ 15)%N.

(** All the digits of a numeral read as one number, most significant
    digit first, continuing from [acc]. *)
Fixpoint uint_val (acc : N) (d : Decimal.uint) : N :=
  match d with
  | Decimal.Nil => acc
  | Decimal.D0 r => uint_val (10 * acc) r
  | Decimal.D1 r => uint_val (10 * acc + 1) r
  | Decimal.D2 r => uint_val (10 * acc + 2) r
  | Decimal.D3 r => uint_val (10 * acc + 3) r
  | Decimal.D4 r => uint_val (10 * acc + 4) r
  | Decimal.D5 r => uint_val (10 * acc + 5) r
  | Decimal.D6 r => uint_val (10 * acc + 6) r
  | Decimal.D7 r => uint_val (10 * acc + 7) r
  | Decimal.D8 r => uint_val (10 * acc + 8) r
  | Decimal.D9 r => uint_val (10 * acc + 9) r
  end.

(** [s.replace('  ', ' ')]: left to right, occurrences do not overlap. *)
Fixpoint replace_double_space (s : string) : string :=
  match s with
  | String " " (String " " r) => String " " (replace_double_space r)
  | String c r => String c (replace_double_space r)
  | EmptyString => EmptyString
  end.

(** [c.isspace()] on the ASCII range. *)
Definition is_space (c : ascii) : bool :=
  let n := N_of_ascii c in
  ((9 <=? n) && (n <=? 13) || (28 <=? n) && (n <=? 32))%N.

Fixpoint lstrip (s : string) : string :=
  match s with
  | String c r => if is_space c then lstrip r else s
  | EmptyString => EmptyString
  end.

Fixpoint rstrip (s : string) : string :=
  match s with
  | String c r =>
      match rstrip r with
      | EmptyString => if is_space c then EmptyString else String c EmptyString
      | r' => String c r'
      end
  | EmptyString => EmptyString
  end.

(** [s.strip()] *)
Definition strip (s : string) : string := rstrip (lstrip s).

Definition ends_with_slash (s : string) : bool :=
  match String.get (String.length s - 1) s with
  | Some "/"%char => true
  | _ => false
  end.

(** [os.path.join(a, b)] for two components (POSIX flavour): an absolute
    [b] discards [a]; the separator is added unless [a] is empty or ends
    with one. *)
Definition path_join (a b : string) : string :=
  match b with
  | String "/" _ => b
  | _ => if (String.length a =? 0)%nat || ends_with_slash a
         then a ++ b else a ++ "/" ++ b
  end.

(** ** The raster calculator's expression language

    The formulas the plugin builds are programs of the calculator engine,
    a collaborator outside the plugin.  This is the reading of its formula
    language that the plugin relies on, for the fragment the two formulas
    use: decimal literals, quoted band references (["name@band"]), the
    four arithmetic operators, parentheses and the natural logarithm
    [ln( )]. *)

Inductive token : Type :=
  | TNum (mant : N) (decs : nat)
  | TRef (ref : string)
  | TIdent (name : string)
  | TLParen | TRParen
  | TPlus | TMinus | TStar | TSlash.

(** The lexer is a state machine over the characters. *)
Inductive lex_state : Type :=
  | LIdle
  | LInt (n : N)
  | LFrac (n : N) (k : nat)
  | LRef (acc : string)
  | LIdent (acc : string).

(** Blanks between lexemes: space, tab, line feed, carriage return. *)
Definition is_blank (c : ascii) : bool :=
  let n := N_of_ascii c in
  ((n =? 32) || (n =? 9) || (n =? 10) || (n =? 13))%N.

Definition digit_of (c : ascii) : option N :=
  let n := N_of_ascii c in
  if ((48 <=? n) && (n <=? 57))%N then Some (n - 48)%N else None.

Definition is_digit (c : ascii) : bool :=
  match digit_of c with Some _ => true | None => false end.

Definition is_alpha (c : ascii) : bool :=
  let n := N_of_ascii c in
  ((65 <=? n) && (n <=? 90) || (97 <=? n) && (n <=? 122))%N.

(** First character of a lexeme. *)
Definition lex_start (c : ascii) : option (list token * lex_state) :=
  if is_blank c then Some ([], LIdle)
  else match digit_of c with
  | Some d => Some ([], LInt d)
  | None =>
      if is_alpha c then Some ([], LIdent (String c ""))
      else if Ascii.eqb c dquote then Some ([], LRef "")
      else match c with
      | "("%char => Some ([TLParen], LIdle)
      | ")"%char => Some ([TRParen], LIdle)
      | "+"%char => Some ([TPlus], LIdle)
      | "-"%char => Some ([TMinus], LIdle)
      | "*"%char => Some ([TStar], LIdle)
      | "/"%char => Some ([TSlash], LIdle)
      | _ => None
      end
  end.

Definition emit_then (t : token) (r : option (list token * lex_state))
  : option (list token * lex_state) :=
  match r with
  | Some (ts, st) => Some (t :: ts, st)
  | None => None
  end.

Definition lex_step (st : lex_state) (c : ascii)
  : option (list token * lex_state) :=
  match st with
  | LIdle => lex_start c
  | LInt n =>
      match digit_of c with
      | Some d => Some ([], LInt (10 * n + d))
      | None =>
          if Ascii.eqb c "."%char then Some ([], LFrac n 0)
          else emit_then (TNum n 0) (lex_start c)
      end
  | LFrac n k =>
      match digit_of c with
      | Some d => Some ([], LFrac (10 * n + d) (S k))
      | None => emit_then (TNum n k) (lex_start c)
      end
  | LRef acc =>
      if Ascii.eqb c dquote then Some ([TRef acc], LIdle)
      else Some ([], LRef (acc ++ String c ""))
  | LIdent acc =>
      if is_alpha c || is_digit c
      then Some ([], LIdent (acc ++ String c ""))
      else emit_then (TIdent acc) (lex_start c)
  end.

(** End of input: an open band reference is an error. *)
Definition lex_flush (st : lex_state) : option (list token) :=
  match st with
  | LIdle => Some []
  | LInt n => Some [TNum n 0]
  | LFrac n k => Some [TNum n k]
  | LRef _ => None
  | LIdent acc => Some [TIdent acc]
  end.

Fixpoint lex_from (st : lex_state) (s : string) : option (list token) :=
  match s with
  | EmptyString => lex_flush st
  | String c r =>
      match lex_step st c with
      | Some (ts, st') =>
          match lex_from st' r with
          | Some ts' => Some (ts ++ ts')%list
          | None => None
          end
      | None => None
      end
  end.

Definition lex (s : string) : option (list token) := lex_from LIdle s.

Inductive expr : Type :=
  | ENum (mant : N) (decs : nat)
  | ERef (ref : string)
  | EAdd (a b : expr)
  | ESub (a b : expr)
  | EMul (a b : expr)
  | EDiv (a b : expr)
  | ELn (a : expr).

(** Recursive descent with the usual precedences, left associative; the
    fuel bounds the number of calls. *)
Fixpoint parse_expr (fuel : nat) (ts : list token) : option (expr * list token) :=
  match fuel with
  | O => None
  | S f =>
      match parse_term f ts with
      | Some (lhs, rest) => parse_expr_tail f lhs rest
      | None => None
      end
  end
with parse_expr_tail (fuel : nat) (lhs : expr) (ts : list token)
  : option (expr * list token) :=
  match fuel with
  | O => None
  | S f =>
      match ts with
      | TPlus :: ts' =>
          match parse_term f ts' with
          | Some (rhs, rest) => parse_expr_tail f (EAdd lhs rhs) rest
          | None => None
          end
      | TMinus :: ts' =>
          match parse_term f ts' with
          | Some (rhs, rest) => parse_expr_tail f (ESub lhs rhs) rest
          | None => None
          end
      | _ => Some (lhs, ts)
      end
  end
with parse_term (fuel : nat) (ts : list token) : option (expr * list token) :=
  match fuel with
  | O => None
  | S f =>
      match parse_factor f ts with
      | Some (lhs, rest) => parse_term_tail f lhs rest
      | None => None
      end
  end
with parse_term_tail (fuel : nat) (lhs : expr) (ts : list token)
  : option (expr * list token) :=
  match fuel with
  | O => None
  | S f =>
      match ts with
      | TStar :: ts' =>
          match parse_factor f ts' with
          | Some (rhs, rest) => parse_term_tail f (EMul lhs rhs) rest
          | None => None
          end
      | TSlash :: ts' =>
          match parse_factor f ts' with
          | Some (rhs, rest) => parse_term_tail f (EDiv lhs rhs) rest
          | None => None
          end
      | _ => Some (lhs, ts)
      end
  end
with parse_factor (fuel : nat) (ts : list token) : option (expr * list token) :=
  match fuel with
  | O => None
  | S f =>
      match ts with
      | TNum m k :: rest => Some (ENum m k, rest)
      | TRef r :: rest => Some (ERef r, rest)
      | TIdent fn :: TLParen :: rest =>
          if String.eqb fn "ln" then
            match parse_expr f rest with
            | Some (e, TRParen :: rest') => Some (ELn e, rest')
            | _ => None
            end
          else None
      | TLParen :: rest =>
          match parse_expr f rest with
          | Some (e, TRParen :: rest') => Some (e, rest')
          | _ => None
          end
      | _ => None
      end
  end.

(** A formula is accepted when all of its tokens form one expression. *)
Definition parse (formula : string) : option expr :=
  match lex formula with
  | Some ts =>
      match parse_expr (4 * List.length ts + 4) ts with
      | Some (e, []) => Some e
      | _ => None
      end
  | None => None
  end.

(** *** Evaluation, generic in the arithmetic

    [a_div] and [a_ln] are partial: a zero divisor and a logarithm outside
    its domain are the two evaluation errors. *)
Record arith (A : Type) : Type := Arith {
  a_lit : N -> nat -> A;          (* mantissa, number of decimals *)
  a_of_int : Z -> A;              (* an integer-typed pixel *)
  a_add : A -> A -> A;
  a_sub : A -> A -> A;
  a_mul : A -> A -> A;
  a_div : A -> A -> option A;
  a_ln : A -> option A
}.
Arguments Arith {A}.
Arguments a_lit {A}.
Arguments a_of_int {A}.
Arguments a_add {A}.
Arguments a_sub {A}.
Arguments a_mul {A}.
Arguments a_div {A}.
Arguments a_ln {A}.

(** A pixel of the input band: rasters come integer-typed (digital
    numbers) or float-typed. *)
Inductive pixel (A : Type) : Type :=
  | IntPixel (n : Z)
  | FloatPixel (x : A).
Arguments IntPixel {A}.
Arguments FloatPixel {A}.

Definition pixel_value {A} (ar : arith A) (p : pixel A) : A :=
  match p with
  | IntPixel n => a_of_int ar n
  | FloatPixel x => x
  end.

(** The bands an evaluation can name: reference text and pixel. *)
Definition pixel_env (A : Type) : Type := list (string * pixel A).

Fixpoint env_lookup {A} (env : pixel_env A) (ref : string) : option (pixel A) :=
  match env with
  | [] => None
  | (r, p) :: env' => if String.eqb r ref then Some p else env_lookup env' ref
  end.

Definition bind2 {A B} (x y : option A) (f : A -> A -> option B) : option B :=
  match x, y with
  | Some a, Some b => f a b
  | _, _ => None
  end.

Fixpoint eval {A} (ar : arith A) (env : pixel_env A) (e : expr) : option A :=
  match e with
  | ENum m k => Some (a_lit ar m k)
  | ERef r => option_map (pixel_value ar) (env_lookup env r)
  | EAdd a b => bind2 (eval ar env a) (eval ar env b) (fun x y => Some (a_add ar x y))
  | ESub a b => bind2 (eval ar env a) (eval ar env b) (fun x y => Some (a_sub ar x y))
  | EMul a b => bind2 (eval ar env a) (eval ar env b) (fun x y => Some (a_mul ar x y))
  | EDiv a b => bind2 (eval ar env a) (eval ar env b) (a_div ar)
  | ELn a => match eval ar env a with Some x => a_ln ar x | None => None end
  end.

(** Evaluate the text of a formula at one pixel position. *)
Definition eval_formula {A} (ar : arith A) (env : pixel_env A) (formula : string)
  : option A :=
  match parse formula with
  | Some e => eval ar env e
  | None => None
  end.

(** Real-number arithmetic. *)
Definition real_lit (m : N) (k : nat) : R := (IZR (Z.of_N m) / 10 ^ k)%R.

Definition real_div (x y : R) : option R :=
  if Req_dec_T y 0 then None else Some (x / y)%R.

Definition real_ln (x : R) : option R :=
  if Rlt_dec 0 x then Some (ln x) else None.

Definition real_arith : arith R :=
  Arith real_lit IZR Rplus Rminus Rmult real_div real_ln.

(** Binary64 arithmetic, round to nearest.  A literal is the correctly
    rounded quotient of its mantissa by the power of ten (both exact for
    the literals of this plugin).  An integer pixel converts exactly: the
    integer types of rasters have at most 32 bits.  The kernel's floats
    have no logarithm: it is a parameter of the instance. *)
Definition float_of_Z (z : Z) : float :=
  if (z <? 0)%Z then PrimFloat.opp (PrimFloat.of_uint63 (Uint63.of_Z (- z)))
  else PrimFloat.of_uint63 (Uint63.of_Z z).

Definition float_lit (m : N) (k : nat) : float :=
  PrimFloat.div (float_of_Z (Z.of_N m)) (float_of_Z (10 ^ Z.of_nat k)).

Definition float_div (x y : float) : option float :=
  if PrimFloat.eqb y PrimFloat.zero then None else Some (PrimFloat.div x y).

Definition float_arith (fln : float -> option float) : arith float :=
  Arith float_lit float_of_Z PrimFloat.add PrimFloat.sub PrimFloat.mul
        float_div fln.

(** ** Python exceptions

    The classes below all derive from [Exception].  [KeyboardInterrupt]
    and [SystemExit], which [except Exception] lets through, are not
    raised by the collaborators modelled here and are left out. *)

Inductive exn_class : Type :=
  | ExceptionC
  | IndexErrorC
  | AttributeErrorC
  | RuntimeErrorC
  | OSErrorC
  | FileNotFoundErrorC
  | IsADirectoryErrorC
  | PermissionErrorC.

Record exn : Type := Exn {
  exn_class_of : exn_class;
  exn_msg : string        (* what [str(e)] returns *)
}.

(** [Exception(msg)] *)
Definition Exception (msg : string) : exn := Exn ExceptionC msg.

(** [issubclass(c, parent)]: every class derives from [Exception]; the
    three file errors derive from [OSError]. *)
Definition subclass (c parent : exn_class) : bool :=
  match parent, c with
  | ExceptionC, _ => true
  | OSErrorC, (OSErrorC | FileNotFoundErrorC | IsADirectoryErrorC | PermissionErrorC) => true
  | IndexErrorC, IndexErrorC => true
  | AttributeErrorC, AttributeErrorC => true
  | RuntimeErrorC, RuntimeErrorC => true
  | FileNotFoundErrorC, FileNotFoundErrorC => true
  | IsADirectoryErrorC, IsADirectoryErrorC => true
  | PermissionErrorC, PermissionErrorC => true
  | _, _ => false
  end.

Definition isinstance (e : exn) (c : exn_class) : bool :=
  subclass (exn_class_of e) c.

(** ** Rasters, layers and the host's objects *)

(** One band holds pixels of a single type. *)
Inductive band : Type :=
  | IntBand (cells : list Z)
  | FloatBand (cells : list float).

Record raster : Type := Raster {
  r_extent : Z * Z * Z * Z;
  r_width : N;
  r_height : N;
  r_bands : list band
}.

Record QColor : Type := mkQColor { red : N; green : N; blue : N }.

Record ColorRampItem : Type := mkColorRampItem {
  item_value : Z;
  item_color : QColor;
  item_label : string
}.

Inductive ramp_type : Type := Interpolated | Discrete | Exact.

Record QgsColorRampShader : Type := mkShader {
  colorRampType : ramp_type;
  colorRampItemList : list ColorRampItem
}.

Record QgsSingleBandPseudoColorRenderer : Type := mkRenderer {
  rd_band : N;
  rd_shader : QgsColorRampShader
}.

(** A [QgsRasterLayer]: where it was loaded from, its display name, the
    dataset it opened (none when the file is missing or unreadable) and the
    renderer attached to it. *)
Record layer : Type := mkLayer {
  l_source : string;
  l_name : string;
  l_data : option raster;
  l_renderer : option QgsSingleBandPseudoColorRenderer
}.

Definition isValid (l : layer) : bool :=
  match l_data l with Some _ => true | None => false end.

Definition layer_extent (l : layer) : Z * Z * Z * Z :=
  match l_data l with Some r => r_extent r | None => (0, 0, 0, 0)%Z end.

Definition layer_width (l : layer) : N :=
  match l_data l with Some r => r_width r | None => 0%N end.

Definition layer_height (l : layer) : N :=
  match l_data l with Some r => r_height r | None => 0%N end.

Record QgsRasterCalculatorEntry : Type := mkEntry {
  e_ref : string;
  e_raster : layer;
  e_bandNumber : N
}.

(** The arguments of the [QgsRasterCalculator] constructor. *)
Record QgsRasterCalculator : Type := mkCalculator {
  c_formula : string;
  c_output : string;
  c_format : string;
  c_extent : Z * Z * Z * Z;
  c_width : N;
  c_height : N;
  c_entries : list QgsRasterCalculatorEntry
}.

(** Band statistics; the plugin only prints the two bounds, which are kept
    as the text [str()] gives for them. *)
Record QgsRasterBandStats : Type := mkStats {
  minimumValue : string;
  maximumValue : string
}.

(** ** The world *)

(** What [os.remove] does with a file. *)
Inductive removal : Type :=
  | Removable
  | Refuses (e : exn).

(** A directory entry: the raster it can be opened as (none for anything
    else: a corrupt file, a directory) and how it reacts to deletion. *)
Record node : Type := mkNode {
  n_raster : option raster;
  n_removal : removal
}.

(** What the engine left at the output path. *)
Inductive written : Type :=
  | NoFile
  | Unreadable
  | Dataset (r : raster).

Inductive level : Type := Info | Success | Critical.

(** Calls to the collaborators, in the order they are made. *)
Inductive call : Type :=
  | CallExists (path : string)
  | CallRemove (path : string)
  | CallOpen (path name : string)
  | CallStatistics (source : string)
  | CallProcess (c : QgsRasterCalculator)
  | CallRepaint (source : string)
  | CallAddMapLayer (source : string).

Inductive result (A : Type) : Type :=
  | Ok (a : A)
  | Raise (e : exn).
Arguments Ok {A}.
Arguments Raise {A}.

(** The state the plugin runs in.  What the engine and the statistics
    provider answer is not decided by the plugin: they are fields of the
    world.  A file the engine has written is closed when
    [processCalculation] returns: at that moment it can be deleted.
    Whether it still can be later, when a layer loaded from it is part of
    the project, is the host's (see [lock_loaded]). *)
Record world : Type := mkWorld {
  w_fs : gmap string node;
  w_home : string;                            (* QgsProject.instance().homePath() *)
  w_engine : QgsRasterCalculator -> Z * written;
  w_stats : raster -> result QgsRasterBandStats;
  w_layers : list layer;                      (* the project's map layers *)
  w_log : list (level * string);              (* QgsMessageLog, tag LST Plugin *)
  w_bar : list (level * string * string);     (* iface.messageBar() *)
  w_trace : list call
}.

Definition set_fs (f : gmap string node -> gmap string node) (w : world) : world :=
  mkWorld (f (w_fs w)) (w_home w) (w_engine w) (w_stats w) (w_layers w)
          (w_log w) (w_bar w) (w_trace w).

Definition add_layer (l : layer) (w : world) : world :=
  mkWorld (w_fs w) (w_home w) (w_engine w) (w_stats w) (w_layers w ++ [l])
          (w_log w) (w_bar w) (w_trace w).

Definition add_log (lvl : level) (msg : string) (w : world) : world :=
  mkWorld (w_fs w) (w_home w) (w_engine w) (w_stats w) (w_layers w)
          (w_log w ++ [(lvl, msg)]) (w_bar w) (w_trace w).

Definition add_bar (lvl : level) (title text : string) (w : world) : world :=
  mkWorld (w_fs w) (w_home w) (w_engine w) (w_stats w) (w_layers w)
          (w_log w) (w_bar w ++ [(lvl, title, text)]) (w_trace w).

Definition record (c : call) (w : world) : world :=
  mkWorld (w_fs w) (w_home w) (w_engine w) (w_stats w) (w_layers w)
          (w_log w) (w_bar w) (w_trace w ++ [c]).

(** ** Computations: state and exceptions *)

Definition M (A : Type) : Type := world -> result A * world.

Definition ret {A} (a : A) : M A := fun w => (Ok a, w).

Definition raise {A} (e : exn) : M A := fun w => (Raise e, w).

Definition bind {A B} (m : M A) (k : A -> M B) : M B :=
  fun w =>
    match m w with
    | (Ok a, w') => k a w'
    | (Raise e, w') => (Raise e, w')
    end.

Notation "'do' x <- m ; k" := (bind m (fun x => k))
  (at level 10, x name, m at level 100, k at level 200).

(** [try: m except C as e: h e] *)
Definition try_except {A} (m : M A) (C : exn_class) (h : exn -> M A) : M A :=
  fun w =>
    match m w with
    | (Raise e, w') => if isinstance e C then h e w' else (Raise e, w')
    | r => r
    end.

(** [for x in xs: body x] *)
Fixpoint for_each {A} (xs : list A) (body : A -> M unit) : M unit :=
  match xs with
  | [] => ret tt
  | x :: xs' => do _ <- body x ; for_each xs' body
  end.

(** *** The collaborators *)

Definition homePath : M string := fun w => (Ok (w_home w), w).

Definition os_path_exists (path : string) : M bool :=
  fun w =>
    (Ok (match w_fs w !! path with Some _ => true | None => false end),
     record (CallExists path) w).

Definition os_remove (path : string) : M unit :=
  fun w =>
    let w := record (CallRemove path) w in
    match w_fs w !! path with
    | None =>
        (Raise (Exn FileNotFoundErrorC
                  ("[Errno 2] No such file or directory: '" ++ path ++ "'")), w)
    | Some n =>
        match n_removal n with
        | Removable => (Ok tt, set_fs (delete path) w)
        | Refuses e => (Raise e, w)
        end
    end.

(** [QgsRasterLayer(path, name)] *)
Definition QgsRasterLayer (path name : string) : M layer :=
  fun w =>
    (Ok (mkLayer path name (w_fs w !! path ≫= n_raster) None),
     record (CallOpen path name) w).

(** [layer.dataProvider().bandStatistics(1, QgsRasterBandStats.All)]; a
    layer without a dataset has no provider. *)
Definition bandStatistics (l : layer) : M QgsRasterBandStats :=
  fun w =>
    let w := record (CallStatistics (l_source l)) w in
    match l_data l with
    | Some r => (w_stats w r, w)
    | None => (Raise (Exn AttributeErrorC "'NoneType' object has no attribute 'bandStatistics'"), w)
    end.

Definition logMessage (msg : string) (lvl : level) : M unit :=
  fun w => (Ok tt, add_log lvl msg w).

Definition pushSuccess (title text : string) : M unit :=
  fun w => (Ok tt, add_bar Success title text w).

Definition pushCritical (title text : string) : M unit :=
  fun w => (Ok tt, add_bar Critical title text w).

Definition addMapLayer (l : layer) : M unit :=
  fun w => (Ok tt, add_layer l (record (CallAddMapLayer (l_source l)) w)).

(** The file system once the engine has left [out] at [path]: a file just
    written and closed, which nothing holds open yet. *)
Definition file_of (out : written) (fs : gmap string node) (path : string)
  : gmap string node :=
  match out with
  | NoFile => fs
  | Unreadable => <[path := mkNode None Removable]> fs
  | Dataset r => <[path := mkNode (Some r) Removable]> fs
  end.

(** [calc.processCalculation()] *)
Definition processCalculation (c : QgsRasterCalculator) : M Z :=
  fun w =>
    let '(code, out) := w_engine w c in
    (Ok code,
     set_fs (fun fs => file_of out fs (c_output c)) (record (CallProcess c) w)).

(** ** The methods of [LSTCalculator] *)

Definition create_raster_entry (l : layer) (prefix : string)
  : QgsRasterCalculatorEntry :=
  mkEntry (prefix ++ "@1") l 1.

(** The exception raised for an output file that may not be deleted. *)
Definition file_in_use (output_path : string) : exn :=
  Exception ("File in use: " ++ output_path ++ ". Close other programs.").

(** The deletion block of [raster_calculation] ("Cleanup existing file"). *)
Definition cleanup_existing (output_path : string) : M unit :=
  do ex <- os_path_exists output_path ;
  if ex then
    try_except (os_remove output_path) PermissionErrorC
      (fun _ => raise (file_in_use output_path))
  else ret tt.

(** The body of the loop over the entries ("Validate input layers"). *)
Definition validate_entry (entry : QgsRasterCalculatorEntry) : M unit :=
  if negb (isValid (e_raster entry)) then
    raise (Exception ("Invalid input layer: " ++ l_source (e_raster entry)))
  else
    do stats <- bandStatistics (e_raster entry) ;
    logMessage ("Input " ++ e_ref entry ++ " - Min: " ++ minimumValue stats
                  ++ ", Max: " ++ maximumValue stats) Info.

(** [entries[0]] *)
Definition first_entry (entries : list QgsRasterCalculatorEntry)
  : M QgsRasterCalculatorEntry :=
  match entries with
  | e :: _ => ret e
  | [] => raise (Exn IndexErrorC "list index out of range")
  end.

Definition error_map : gmap Z string :=
  <[1%Z := "Missing input layers"]>
  (<[2%Z := "Invalid formula syntax"]>
  (<[3%Z := "Calculation error (e.g., division by zero)"]>
  (<[4%Z := "GDAL internal error"]> ∅))).

(** [error_map.get(result, 'Unknown error')] *)
Definition error_text (code : Z) : string :=
  default "Unknown error" (error_map !! code).

(** The exception raised for a result code other than 0. *)
Definition gdal_error (code : Z) : exn :=
  Exception ("GDAL Error " ++ str_int code ++ ": " ++ error_text code).

(** The exception raised when the written file does not open as a
    raster. *)
Definition output_not_created (output_path : string) : exn :=
  Exception ("Failed to create output layer: " ++ output_path).

(** The reload of the written file ("Validate output"). *)
Definition validate_output (output_path output_name : string) : M layer :=
  do result_layer <- QgsRasterLayer output_path output_name ;
  if negb (isValid result_layer) then
    raise (output_not_created output_path)
  else
    do stats <- bandStatistics result_layer ;
    do _ <- logMessage ("Output " ++ output_name ++ " - Min: " ++ minimumValue stats
                          ++ ", Max: " ++ maximumValue stats) Info ;
    ret result_layer.

Definition output_path_of (output_dir output_name : string) : string :=
  path_join output_dir (output_name ++ ".tif").

(** The calculator [raster_calculation] constructs: the extent and the
    size are those of the first entry's raster. *)
Definition calculator_of (formula output_path : string)
    (entries : list QgsRasterCalculatorEntry) (e0 : QgsRasterCalculatorEntry)
  : QgsRasterCalculator :=
  mkCalculator formula output_path "GTiff"
    (layer_extent (e_raster e0)) (layer_width (e_raster e0))
    (layer_height (e_raster e0)) entries.

(** What follows the deletion block in [raster_calculation]: the
    validation of the entries, the calculator, its run and the reload of
    the written file. *)
Definition after_cleanup (formula : string)
    (entries : list QgsRasterCalculatorEntry) (output_path output_name : string)
  : M layer :=
  do _ <- for_each entries validate_entry ;
  do e0 <- first_entry entries ;
  let calc := calculator_of formula output_path entries e0 in
  do _ <- logMessage ("Executing formula: " ++ formula) Info ;
  do result <- processCalculation calc ;
  if negb (result =? 0)%Z then raise (gdal_error result)
  else validate_output output_path output_name.

Definition raster_calculation (formula : string)
    (entries : list QgsRasterCalculatorEntry) (output_name : string) : M layer :=
  do output_dir <- homePath ;
  let output_path := output_path_of output_dir output_name in
  do _ <- cleanup_existing output_path ;
  after_cleanup formula entries output_path output_name.

(** The text of the TOA formula (the f-string of [calculate_toa]). *)
Definition toa_formula (ml al : pyfloat) : string :=
  "(" ++ str_float ml ++ " * 1.0 * " ++ quoted "b10@1" ++ ") + " ++ str_float al.

Definition calculate_toa (band_layer : layer) (ml al : pyfloat) : M layer :=
  let entry := create_raster_entry band_layer "b10" in
  raster_calculation (toa_formula ml al) [entry] "TOA_Radiance".

Definition k1 : pyfloat := PyFloat 77489 2.
Definition k2 : pyfloat := PyFloat 132108 2.

(** The text of the BT formula, after [replace] and [strip]. *)
Definition bt_formula : string :=
  strip (replace_double_space
    ("(" ++ str_float k2 ++ " / ln( (" ++ str_float k1 ++ " / ("
       ++ quoted "toa@1" ++ " + 0.000001) + 1 )) ) - 273.15")).

Definition calculate_bt (toa_layer : layer) : M layer :=
  let formula := bt_formula in
  do _ <- logMessage ("BT Formula: " ++ formula) Info ;
  let entry := create_raster_entry toa_layer "toa" in
  raster_calculation formula [entry] "BrightnessTemp".

(** The six items of the thermal ramp, in the order of the source. *)
Definition thermal_items : list ColorRampItem :=
  [ mkColorRampItem 20 (mkQColor 0 0 255) "20°C";
    mkColorRampItem 30 (mkQColor 0 255 255) "30°C";
    mkColorRampItem 40 (mkQColor 0 255 0) "40°C";
    mkColorRampItem 50 (mkQColor 255 255 0) "50°C";
    mkColorRampItem 60 (mkQColor 255 165 0) "60°C";
    mkColorRampItem 70 (mkQColor 255 0 0) "70°C" ].

(** What [style_thermal_layer] does with the list [items] it has built
    (lines 150-151 and 162-175): the ramp of type [Interpolated] receives
    the list, the renderer for band 1 receives the ramp, and the layer
    receives the renderer and is repainted.  Nothing reads the values of
    the items on the way.  The layer object is changed in place: the
    changed layer is returned. *)
Definition style_with (items : list ColorRampItem) (l : layer) : M layer :=
  let color_ramp := mkShader Interpolated items in
  let renderer := mkRenderer 1 color_ramp in
  fun w =>
    (Ok (mkLayer (l_source l) (l_name l) (l_data l) (Some renderer)),
     record (CallRepaint (l_source l)) w).

Definition style_thermal_layer (l : layer) : M layer :=
  style_with thermal_items l.

Definition ml_default : pyfloat := PyFloat 3342 7.
Definition al_default : pyfloat := PyFloat 1 1.

(** The [try] block of [calculate_lst]. *)
Definition calculate_lst_body (band10_path : string) : M unit :=
  do band10_layer <- QgsRasterLayer band10_path "B10_RAW" ;
  if negb (isValid band10_layer) then
    raise (Exception "Invalid Band 10 file. Check file format and path.")
  else
    let ml := ml_default in
    let al := al_default in
    do _ <- logMessage "Calculating TOA..." Info ;
    do toa_layer <- calculate_toa band10_layer ml al ;
    do _ <- logMessage "Calculating BT..." Info ;
    do bt_layer <- calculate_bt toa_layer ;
    do bt_layer <- style_thermal_layer bt_layer ;
    do _ <- addMapLayer bt_layer ;
    pushSuccess "Success" "LST calculation completed!".

Definition calculate_lst (band10_path : string) : M unit :=
  try_except (calculate_lst_body band10_path) ExceptionC
    (fun e =>
       do _ <- pushCritical "Error" (exn_msg e) ;
       logMessage ("Error: " ++ exn_msg e) Critical).

(** [run], given what the file dialog returned (empty when cancelled). *)
Definition run (band_path : string) : M unit :=
  match band_path with
  | EmptyString => ret tt
  | _ => calculate_lst band_path
  end.

(** ** Reading the constants as numbers *)

(** The real number a float constant denotes. *)
Definition value_of (x : pyfloat) : R := real_lit (mantissa x) (decimals x).

(** The entries of the two stages. *)
Definition toa_entry (band_layer : layer) : QgsRasterCalculatorEntry :=
  create_raster_entry band_layer "b10".
Definition bt_entry (toa_layer : layer) : QgsRasterCalculatorEntry :=
  create_raster_entry toa_layer "toa".

(** The two files the pipeline writes. *)
Definition toa_path (w : world) : string :=
  output_path_of (w_home w) "TOA_Radiance".
Definition bt_path (w : world) : string :=
  output_path_of (w_home w) "BrightnessTemp".

(** The pipeline up to the styling of the result: what [calculate_lst]
    runs before it touches the project and the message bar. *)
Definition compute_styled (band10_path : string) : M layer :=
  do band10_layer <- QgsRasterLayer band10_path "B10_RAW" ;
  if negb (isValid band10_layer) then
    raise (Exception "Invalid Band 10 file. Check file format and path.")
  else
    do _ <- logMessage "Calculating TOA..." Info ;
    do toa_layer <- calculate_toa band10_layer ml_default al_default ;
    do _ <- logMessage "Calculating BT..." Info ;
    do bt_layer <- calculate_bt toa_layer ;
    style_thermal_layer bt_layer.

(** ** The thermal ramp *)


(** The renderer [style_thermal_layer] builds. *)
Definition thermal_renderer : QgsSingleBandPseudoColorRenderer :=
  mkRenderer 1 (mkShader Interpolated thermal_items).



(** ** What a computation leaves alone *)

(** The parts of the world that only the top level of the plugin touches
    (project layers, message bar) or that nothing touches (home path,
    engine, statistics provider). *)
Definition same_host (w w' : world) : Prop :=
  w_home w' = w_home w /\ w_engine w' = w_engine w /\ w_stats w' = w_stats w
  /\ w_layers w' = w_layers w /\ w_bar w' = w_bar w.

(** The trace only grows. *)
Definition trace_prefix (w w' : world) : Prop :=
  exists t, w_trace w' = (w_trace w ++ t)%list.

(** [m] relates every world it starts in to the world it ends in. *)
Definition respects {A} (R : world -> world -> Prop) (m : M A) : Prop :=
  forall w, R w (snd (m w)).

Definition framed {A} (m : M A) : Prop := respects same_host m.

Definition extends_trace {A} (m : M A) : Prop := respects trace_prefix m.

(** ** A small world to run the plugin in

    A project in [/proj], a two-pixel band 10 in [/data/B10.tif], and an
    engine that knows the two formulas of the plugin on that band. *)

Definition demo_band10 : raster :=
  Raster (0, 0, 60, 30)%Z 2 1 [IntBand [120; 130]%Z].

Definition demo_toa : raster :=
  Raster (0, 0, 60, 30)%Z 2 1
    [FloatBand [0.14010400000000001; 0.14344600000000002]%float].

Definition demo_bt : raster :=
  Raster (0, 0, 60, 30)%Z 2 1
    [FloatBand [(-119.86160630629718); (-119.44124459607136)]%float].

Definition demo_engine (c : QgsRasterCalculator) : Z * written :=
  if String.eqb (c_formula c) (toa_formula ml_default al_default)
  then (0%Z, Dataset demo_toa)
  else if String.eqb (c_formula c) bt_formula
  then (0%Z, Dataset demo_bt)
  else (2%Z, NoFile).

Definition demo_stats (r : raster) : result QgsRasterBandStats :=
  Ok (mkStats "0.0" "255.0").

Definition demo_world : world :=
  mkWorld (<["/data/B10.tif" := mkNode (Some demo_band10) Removable]> ∅)
          "/proj" demo_engine demo_stats [] [] [] [].

(** Its band 10 layer, as [QgsRasterLayer] opens it. *)
Definition demo_layer : layer :=
  mkLayer "/data/B10.tif" "B10_RAW" (Some demo_band10) None.

(** The same world with a file at the TOA output path that reacts to
    deletion with [rm]. *)
Definition demo_world_with_stale (rm : removal) : world :=
  set_fs (insert "/proj/TOA_Radiance.tif" (mkNode (Some demo_toa) rm)) demo_world.

Definition permission_denied : exn :=
  Exn PermissionErrorC
    "[WinError 32] The process cannot access the file because it is being used by another process: '/proj/TOA_Radiance.tif'".

Definition is_a_directory : exn :=
  Exn IsADirectoryErrorC "[Errno 21] Is a directory: '/proj/TOA_Radiance.tif'".

(** The same world with an engine that answers [code] and writes
    nothing. *)
Definition demo_world_failing (code : Z) : world :=
  mkWorld (w_fs demo_world) "/proj" (fun _ => (code, NoFile)) demo_stats
          [] [] [] [].

(** The same world with another statistics provider. *)
Definition demo_world_with_stats (stats : raster -> result QgsRasterBandStats)
  : world :=
  mkWorld (w_fs demo_world) "/proj" demo_engine stats [] [] [] [].

Definition statistics_failed : exn :=
  Exn RuntimeErrorC "Cannot compute statistics".

(** The demo world after one run of the pipeline on its band 10. *)
Definition demo_world_after_run : world :=
  snd (calculate_lst_body "/data/B10.tif" demo_world).

(** ** Observations on a run *)

(** The engine runs recorded in a trace, oldest first. *)
Fixpoint engine_calls (t : list call) : list QgsRasterCalculator :=
  match t with
  | [] => []
  | CallProcess c :: t' => c :: engine_calls t'
  | _ :: t' => engine_calls t'
  end.

(** No engine run between the two worlds. *)
Definition same_engine_calls (w w' : world) : Prop :=
  engine_calls (w_trace w') = engine_calls (w_trace w).

(** The file at [q] is the same in the two worlds. *)
Definition same_file_at (q : string) (w w' : world) : Prop :=
  w_fs w' !! q = w_fs w !! q.

(** The line [raster_calculation] logs for a validated entry. *)
Definition input_line (e : QgsRasterCalculatorEntry) (st : QgsRasterBandStats)
  : string :=
  "Input " ++ e_ref e ++ " - Min: " ++ minimumValue st
    ++ ", Max: " ++ maximumValue st.

(** The entry is valid and the provider returns [st] for its raster. *)
Definition stats_known (stats : raster -> result QgsRasterBandStats)
    (e : QgsRasterCalculatorEntry) (st : QgsRasterBandStats) : Prop :=
  exists r, l_data (e_raster e) = Some r /\ stats r = Ok st.

(** The two entries the message bar can receive. *)
Definition success_entry : level * string * string :=
  (Success, "Success", "LST calculation completed!").
Definition error_entry (e : exn) : level * string * string :=
  (Critical, "Error", exn_msg e).

Definition invalid_band10 : exn :=
  Exception "Invalid Band 10 file. Check file format and path.".

(** The demo world with an engine that computes the TOA raster and fails
    on the BT formula. *)
Definition demo_engine_bt_fails (c : QgsRasterCalculator) : Z * written :=
  if String.eqb (c_formula c) (toa_formula ml_default al_default)
  then (0%Z, Dataset demo_toa)
  else (3%Z, NoFile).

Definition demo_world_bt_fails : world :=
  mkWorld (w_fs demo_world) "/proj" demo_engine_bt_fails demo_stats [] [] [] [].

(** ** The two formulas as functions on the reals *)

(** [ML * x + AL] *)
Definition toa_of (ml al : pyfloat) (x : R) : R :=
  (value_of ml * x + value_of al)%R.

(** [K2 / ln (K1 / (toa + 0.000001) + 1) - 273.15] with the constants of
    [calculate_bt]. *)
Definition bt_of (toa : R) : R :=
  (132108 / 100 / ln (77489 / 100 / (toa + 1 / 1000000) + 1) - 27315 / 100)%R.

(** ** The calculator engine, as the plugin reads it

    [processCalculation] is the host's.  What the plugin relies on is in
    its formulas and in its table of result codes ([error_map]): the
    formula is evaluated at every cell of the output grid on the bands its
    entries name, in double precision whatever the type of the band; 0 is
    success, 2 a formula that does not parse, 1 a band that is missing, 3
    an error of the evaluation (a zero divisor, a logarithm outside its
    domain).  Nothing is written unless the result is 0.  The logarithm of
    binary64 is not among the kernel's operations: it is a parameter. *)

Definition band_cells (b : band) : list (pixel float) :=
  match b with
  | IntBand cells => map IntPixel cells
  | FloatBand cells => map FloatPixel cells
  end.

(** The value of a pixel as a double. *)
Definition pixel_float (p : pixel float) : float :=
  match p with
  | IntPixel n => float_of_Z n
  | FloatPixel x => x
  end.

(** Band [n] of a layer, counted from 1. *)
Definition layer_band (l : layer) (n : N) : option band :=
  match l_data l, n with
  | Some r, Npos p => nth_error (r_bands r) (Pos.to_nat p - 1)
  | _, _ => None
  end.

(** The pixels the entries give at each of the [n] cells of the grid. *)
Fixpoint cell_envs (entries : list QgsRasterCalculatorEntry) (n : nat)
  : option (list (pixel_env float)) :=
  match entries with
  | [] => Some (repeat [] n)
  | e :: es =>
      match layer_band (e_raster e) (e_bandNumber e), cell_envs es n with
      | Some b, Some envs =>
          if (List.length (band_cells b) =? n)%nat
          then Some (map (fun '(p, env) => (e_ref e, p) :: env)
                         (combine (band_cells b) envs))
          else None
      | _, _ => None
      end
  end.

(** The band references of a formula. *)
Fixpoint refs (e : expr) : list string :=
  match e with
  | ENum _ _ => []
  | ERef r => [r]
  | EAdd a b | ESub a b | EMul a b | EDiv a b => (refs a ++ refs b)%list
  | ELn a => refs a
  end.

(** All the results, or none. *)
Fixpoint all_some {A B} (f : A -> option B) (xs : list A) : option (list B) :=
  match xs with
  | [] => Some []
  | x :: xs' =>
      match f x, all_some f xs' with
      | Some y, Some ys => Some (y :: ys)
      | _, _ => None
      end
  end.

Definition raster_engine (fln : float -> option float)
    (c : QgsRasterCalculator) : Z * written :=
  match parse (c_formula c) with
  | None => (2%Z, NoFile)
  | Some e =>
      if negb (forallb (fun r => existsb (String.eqb r) (map e_ref (c_entries c)))
                 (refs e))
      then (1%Z, NoFile)
      else
        match cell_envs (c_entries c) (N.to_nat (c_width c * c_height c)) with
        | None => (1%Z, NoFile)
        | Some envs =>
            match all_some (fun env => eval (float_arith fln) env e) envs with
            | None => (3%Z, NoFile)
            | Some cells =>
                (0%Z,
                 Dataset (Raster (c_extent c) (c_width c) (c_height c)
                            [FloatBand cells]))
            end
        end
  end.

(** The double a constant is: the printed digits over the power of ten. *)
Definition float_of (x : pyfloat) : float :=
  float_lit (fst (printed x)) (snd (printed x)).

(** [ML * B10 + AL] in binary64, cell by cell, on the grid of [r]. *)
Definition toa_raster (ml al : pyfloat) (r : raster) (b : band) : raster :=
  Raster (r_extent r) (r_width r) (r_height r)
    [FloatBand (map (fun p => (float_of ml * pixel_float p + float_of al)%float)
                    (band_cells b))].

(** The file at [p], if there is one, can be deleted. *)
Definition deletable (p : string) (w : world) : Prop :=
  forall n, w_fs w !! p = Some n -> n_removal n = Removable.


(** ** The BT formula in binary64 *)

(** The argument of the logarithm, as binary64 computes it. *)
Definition bt_log_argument (toa : float) : float :=
  (774.89 / (toa + 0.000001) + 1)%float.

(** The guard of the formula, computed: the inner divisor is not zero and
    the argument of the logarithm is above 1. *)
Definition bt_guard_float (toa : float) : bool :=
  negb (toa + 0.000001 =? 0)%float && (1 <? bt_log_argument toa)%float.

(** The formula at one cell, for a logarithm [fln]. *)
Definition bt_cell (fln : float -> option float) (toa : float) : option float :=
  if (toa + 0.000001 =? 0)%float then None
  else
    match fln (bt_log_argument toa) with
    | Some lg =>
        if (lg =? 0)%float then None else Some (1321.08 / lg - 273.15)%float
    | None => None
    end.

(** What is used of the logarithm of binary64: it is zero at 1, and
    defined and positive above 1. *)
Definition ln_sound (fln : float -> option float) : Prop :=
  fln 1%float = Some 0%float
  /\ forall x, (1 <? x)%float = true ->
       exists y, fln x = Some y /\ (0 <? y)%float = true.

(** The sign of the logarithm: a function with these two properties, to
    run the BT stage with. *)
Definition ln_sign (x : float) : option float :=
  if (1 <? x)%float then Some 1%float
  else if (x =? 1)%float then Some 0%float
  else if (0 <? x)%float then Some (-1)%float
  else None.

(** The statistics provider answers for every raster. *)
Definition stats_total (w : world) : Prop :=
  forall r, exists st, w_stats w r = Ok st.



(** The line [raster_calculation] logs for the reloaded output. *)
Definition output_line (name : string) (st : QgsRasterBandStats) : string :=
  "Output " ++ name ++ " - Min: " ++ minimumValue st
    ++ ", Max: " ++ maximumValue st.

(** ** Between two runs

    What [os.remove] answers for a file is the host's: a raster layer of
    the project keeps its file open, and where an open file cannot be
    deleted (Windows) the deletion fails with a [PermissionError].
    [lock_loaded w] is the world [w] on such a host: every file that a
    layer of the project was loaded from refuses deletion. *)

Definition in_use (p : string) : exn :=
  Exn PermissionErrorC
    ("[WinError 32] The process cannot access the file because it is being used by another process: '"
       ++ p ++ "'").

Definition loaded (ls : list layer) (p : string) : bool :=
  existsb (fun l => String.eqb (l_source l) p) ls.

Definition lock_loaded (w : world) : world :=
  set_fs (map_imap (fun p n =>
            Some (if loaded (w_layers w) p
                  then mkNode (n_raster n) (Refuses (in_use p))
                  else n)))
         w.

(** ** Sixteen-bit digital numbers

    Band 10 of Landsat 8 holds unsigned 16-bit digital numbers. *)

(** The radiance the TOA formula gives for the digital number [n], with
    the constants of the plugin, in binary64. *)
Definition toa_of_dn (n : Z) : float :=
  (0.0003342 * float_of_Z n + 0.1)%float.

(** The guard of the BT formula holds at the radiance of each of the
    [2 ^ k] digital numbers from [base] on. *)
Fixpoint guard_from (k : nat) (base : Z) : bool :=
  match k with
  | O => bt_guard_float (toa_of_dn base)
  | S k' => guard_from k' base && guard_from k' (base + 2 ^ Z.of_nat k')
  end.

(** * Properties *)

(** ** Reading a printed literal back *)

Lemma append_assoc (a b c : string) : (a ++ b) ++ c = a ++ (b ++ c).
Proof. induction a as [|x a IH]; simpl; [reflexivity | now rewrite IH]. Qed.

Lemma append_empty_r (a : string) : a ++ "" = a.
Proof. induction a as [|x a IH]; simpl; [reflexivity | now rewrite IH]. Qed.

Lemma append_inj_l (a x y : string) : a ++ x = a ++ y -> x = y.
Proof.
  induction a as [|c a IH]; simpl; intros H; [exact H |].
  injection H as H. now apply IH.
Qed.

Lemma uint_val_pos (d : Decimal.uint) (p : positive) :
  uint_val (Npos p) d = Npos (Pos.of_uint_acc d p).
Proof.
  revert p. induction d; intros p; simpl; try reflexivity;
    rewrite <- IHd; f_equal; lia.
Qed.

Lemma uint_val_zero (d : Decimal.uint) : uint_val 0 d = N.of_uint d.
Proof.
  induction d; simpl; try reflexivity; try exact IHd;
    apply (uint_val_pos d).
Qed.

Lemma uint_val_to_uint (n : N) : uint_val 0 (N.to_uint n) = n.
Proof. rewrite uint_val_zero. apply DecimalN.Unsigned.of_to. Qed.

Lemma to_uint_nonnil (n : N) : N.to_uint n <> Decimal.Nil.
Proof.
  destruct n as [|p]; simpl; [discriminate |].
  apply DecimalPos.Unsigned.to_uint_nonnil.
Qed.

Lemma lex_from_silent (st : lex_state) (s : string) :
  match lex_from st s with
  | Some ts' => Some ([] ++ ts')%list
  | None => None
  end = lex_from st s.
Proof. destruct (lex_from st s); reflexivity. Qed.

Lemma lex_int_digits (d : Decimal.uint) (n : N) (s : string) :
  lex_from (LInt n) (NilEmpty.string_of_uint d ++ s)
  = lex_from (LInt (uint_val n d)) s.
Proof.
  revert n. induction d; intros n; simpl; try reflexivity;
    rewrite lex_from_silent, IHd; do 3 f_equal; lia.
Qed.

Lemma lex_frac_digits (d : Decimal.uint) (n : N) (k : nat) (s : string) :
  lex_from (LFrac n k) (NilEmpty.string_of_uint d ++ s)
  = lex_from (LFrac (uint_val n d) (k + Decimal.nb_digits d)) s.
Proof.
  revert n k. induction d; intros n k; simpl;
    try (now rewrite Nat.add_0_r);
    rewrite lex_from_silent, IHd, <- Nat.add_succ_comm; do 3 f_equal; lia.
Qed.

Lemma lex_idle_digits (d : Decimal.uint) (s : string) :
  d <> Decimal.Nil ->
  lex_from LIdle (NilEmpty.string_of_uint d ++ s)
  = lex_from (LInt (uint_val 0 d)) s.
Proof.
  intros Hd. destruct d; try congruence; simpl;
    rewrite lex_from_silent; apply lex_int_digits.
Qed.

Lemma digit_of_digit_char (d : N) :
  (d < 10)%N -> digit_of (digit_char d) = Some d.
Proof.
  intros H.
  assert (Hd : d = 0%N \/ d = 1%N \/ d = 2%N \/ d = 3%N \/ d = 4%N \/ d = 5%N
               \/ d = 6%N \/ d = 7%N \/ d = 8%N \/ d = 9%N) by lia.
  repeat (destruct Hd as [-> | Hd]; [reflexivity |]). now subst.
Qed.

Lemma lex_frac_padded (w : nat) (f a : N) (c : nat) (s : string) :
  lex_from (LFrac a c) (frac_digits w f ++ s)
  = lex_from (LFrac (a * 10 ^ N.of_nat w + f mod 10 ^ N.of_nat w) (c + w)) s.
Proof.
  revert f s. induction w as [|w IH]; intros f s.
  - simpl. rewrite N.mod_1_r, N.mul_1_r, N.add_0_r, Nat.add_0_r. reflexivity.
  - cbn [frac_digits]. rewrite append_assoc, IH. cbn [String.append lex_from lex_step].
    rewrite digit_of_digit_char by (apply N.mod_lt; discriminate).
    rewrite lex_from_silent. rewrite <- Nat.add_succ_comm. cbn [Nat.add].
    do 2 f_equal.
    rewrite Nat2N.inj_succ, N.pow_succ_r'.
    rewrite (N.Div0.mod_mul_r f 10 (10 ^ N.of_nat w)). lia.
Qed.

Lemma lex_int_point (n : N) (s : string) :
  lex_from (LInt n) (String "." s) = lex_from (LFrac n 0) s.
Proof. cbn [lex_from]. change (lex_step (LInt n) ".") with (Some (@nil token, LFrac n 0)). apply lex_from_silent. Qed.

Lemma lex_frac_zero (n : N) (k : nat) (s : string) :
  lex_from (LFrac n k) (String "0" s) = lex_from (LFrac (10 * n) (S k)) s.
Proof.
  cbn [lex_from].
  change (lex_step (LFrac n k) "0") with (Some (@nil token, LFrac (10 * n + 0) (S k))).
  cbv beta iota. rewrite lex_from_silent, N.add_0_r. reflexivity.
Qed.

Lemma py_plain_positional (x : pyfloat) :
  py_plain x = true ->
  positional (fst (normalize (mantissa x) (decimals x)))
             (snd (normalize (mantissa x) (decimals x))) = true.
Proof.
  unfold py_plain, printed, positional.
  destruct (normalize (mantissa x) (decimals x)) as [m k]. cbn [fst snd].
  intros H. apply andb_true_iff in H as [H1 H2].
  apply orb_true_iff in H1 as [H1 | H1]; [now rewrite H1 |].
  rewrite H1. cbn [andb]. apply orb_true_iff. right.
  apply N.ltb_lt. apply N.ltb_lt in H2.
  assert (10 ^ 15 <= 10 ^ (16 + N.of_nat k))%N
    by (apply N.pow_le_mono_r; lia).
  destruct k; cbn [fst] in H2; lia.
Qed.

(** Lexing the text of a float constant leaves the lexer inside the
    number it denotes. *)
Lemma lex_str_float (x : pyfloat) (s : string) :
  py_plain x = true ->
  lex_from LIdle (str_float x ++ s)
  = lex_from (LFrac (fst (printed x)) (snd (printed x))) s.
Proof.
  intros H. apply py_plain_positional in H.
  unfold str_float, printed.
  destruct (normalize (mantissa x) (decimals x)) as [m k]. cbn [fst snd] in *.
  rewrite H. unfold str_N. destruct k as [|k].
  - rewrite !append_assoc, lex_idle_digits by apply to_uint_nonnil.
    rewrite uint_val_to_uint. cbn [String.append].
    rewrite lex_int_point, lex_frac_zero. reflexivity.
  - rewrite !append_assoc, lex_idle_digits by apply to_uint_nonnil.
    rewrite uint_val_to_uint. cbn [String.append].
    rewrite lex_int_point, lex_frac_padded. cbn [Nat.add].
    cbn [fst snd]. do 2 f_equal.
    rewrite N.Div0.mod_mod, N.mul_comm. symmetry. apply N.div_mod.
    apply N.pow_nonzero. discriminate.
Qed.

(** What [str] gives for some floats: [1e-05], [1e+16], [1.50], [5.],
    [0.0], [1.5e-07], [100.5]. *)
Example str_float_examples :
  map str_float [PyFloat 1 5; PyFloat 10000000000000000 0; PyFloat 150 2;
                 PyFloat 5 0; PyFloat 0 3; PyFloat 15 8; PyFloat 1005 1;
                 ml_default; al_default; k1; k2]
  = ["1e-05"; "1e+16"; "1.5"; "5.0"; "0.0"; "1.5e-07"; "100.5";
     "0.0003342"; "0.1"; "774.89"; "1321.08"].
Proof. vm_compute. reflexivity. Qed.

(** The two formulas of the plugin, as texts. *)
Example formula_texts :
  toa_formula ml_default al_default
  = "(0.0003342 * 1.0 * " ++ quoted "b10@1" ++ ") + 0.1"
  /\ bt_formula
     = "(1321.08 / ln( (774.89 / (" ++ quoted "toa@1"
         ++ " + 0.000001) + 1 )) ) - 273.15".
Proof. split; vm_compute; reflexivity. Qed.

Lemma lex_toa_formula (ml al : pyfloat) :
  py_plain ml = true -> py_plain al = true ->
  lex (toa_formula ml al)
  = Some [TLParen; TNum (fst (printed ml)) (snd (printed ml)); TStar; TNum 10 1;
          TStar; TRef "b10@1"; TRParen; TPlus;
          TNum (fst (printed al)) (snd (printed al))].
Proof.
  intros Hml Hal. unfold lex, toa_formula. simpl.
  rewrite lex_str_float by exact Hml. simpl.
  rewrite <- (append_empty_r (str_float al)), lex_str_float by exact Hal.
  reflexivity.
Qed.

Lemma parse_toa_formula (ml al : pyfloat) :
  py_plain ml = true -> py_plain al = true ->
  parse (toa_formula ml al)
  = Some (EAdd (EMul (EMul (ENum (fst (printed ml)) (snd (printed ml)))
                           (ENum 10 1))
                     (ERef "b10@1"))
               (ENum (fst (printed al)) (snd (printed al)))).
Proof. intros Hml Hal. unfold parse. rewrite lex_toa_formula by assumption. reflexivity. Qed.

(** The printed digits denote the number the constant denotes. *)
Lemma normalize_value (m : N) (k : nat) :
  real_lit (fst (normalize m k)) (snd (normalize m k)) = real_lit m k.
Proof.
  revert m. induction k as [|k IH]; intros m; [reflexivity |].
  cbn [normalize]. destruct (N.eqb_spec (m mod 10) 0) as [H | H]; [| reflexivity].
  rewrite IH. unfold real_lit.
  assert (Hm : m = (10 * (m / 10))%N).
  { rewrite (N.div_mod m 10) at 1 by discriminate. lia. }
  rewrite Hm at 2. rewrite N2Z.inj_mul, mult_IZR. cbn [pow].
  assert (10 ^ k <> 0)%R by (apply pow_nonzero; lra).
  change (IZR (Z.of_N 10)) with 10%R. field. exact H0.
Qed.

Lemma printed_value (x : pyfloat) :
  real_lit (fst (printed x)) (snd (printed x)) = value_of x.
Proof.
  unfold value_of. rewrite <- (normalize_value (mantissa x) (decimals x)).
  unfold printed. destruct (normalize (mantissa x) (decimals x)) as [m k].
  destruct k; [| reflexivity]. cbn [fst snd]. unfold real_lit.
  rewrite N2Z.inj_mul, mult_IZR. change (IZR (Z.of_N 10)) with 10%R.
  simpl. field.
Qed.

(** ** The two formulas in exact arithmetic *)

Lemma real_lit_one : real_lit 10 1 = 1%R.
Proof. unfold real_lit. simpl. lra. Qed.

Lemma eval_toa_real (ml al : pyfloat) (p : pixel R) :
  py_plain ml = true -> py_plain al = true ->
  eval_formula real_arith [("b10@1", p)] (toa_formula ml al)
  = Some (toa_of ml al (pixel_value real_arith p)).
Proof.
  intros Hml Hal. unfold eval_formula, toa_of.
  rewrite parse_toa_formula by assumption.
  cbn [eval bind2 option_map env_lookup real_arith a_lit a_add a_mul
       String.eqb Ascii.eqb Bool.eqb].
  rewrite !printed_value, real_lit_one. f_equal. ring.
Qed.

Example value_of_ml_default : value_of ml_default = (3342 / 10000000)%R.
Proof. unfold value_of, real_lit. simpl. lra. Qed.

Example value_of_al_default : value_of al_default = (1 / 10)%R.
Proof. unfold value_of, real_lit. simpl. lra. Qed.

Lemma parse_bt_formula :
  parse bt_formula
  = Some (ESub (EDiv (ENum 132108 2)
                  (ELn (EAdd (EDiv (ENum 77489 2)
                                (EAdd (ERef "toa@1") (ENum 1 6)))
                          (ENum 1 0))))
            (ENum 27315 2)).
Proof. vm_compute. reflexivity. Qed.

Lemma real_div_defined (x y : R) : (0 < y)%R -> real_div x y = Some (x / y)%R.
Proof.
  intros Hy. unfold real_div. destruct (Req_dec_T y 0); [lra | reflexivity].
Qed.

Lemma real_ln_defined (x : R) : (0 < x)%R -> real_ln x = Some (ln x).
Proof.
  intros Hx. unfold real_ln. destruct (Rlt_dec 0 x); [reflexivity | contradiction].
Qed.

Lemma ln_pos (x : R) : (1 < x)%R -> (0 < ln x)%R.
Proof. intros Hx. rewrite <- ln_1. apply ln_increasing; lra. Qed.

(** What the added epsilon gives for a radiance that is not negative. *)
Lemma bt_guard (toa : R) :
  (0 <= toa)%R ->
  (0 < toa + 1 / 1000000)%R
  /\ (1 < 77489 / 100 / (toa + 1 / 1000000) + 1)%R
  /\ (0 < ln (77489 / 100 / (toa + 1 / 1000000) + 1))%R.
Proof.
  intros H.
  assert (Hden : (0 < toa + 1 / 1000000)%R) by lra.
  assert (Harg : (1 < 77489 / 100 / (toa + 1 / 1000000) + 1)%R).
  { assert (0 < 77489 / 100 / (toa + 1 / 1000000))%R
      by (apply Rdiv_lt_0_compat; lra). lra. }
  repeat split; try assumption. now apply ln_pos.
Qed.

Lemma eval_bt_real (p : pixel R) :
  (0 <= pixel_value real_arith p)%R ->
  eval_formula real_arith [("toa@1", p)] bt_formula
  = Some (bt_of (pixel_value real_arith p)).
Proof.
  intros Hp. destruct (bt_guard _ Hp) as (Hden & Harg & Hln).
  set (toa := pixel_value real_arith p) in *.
  assert (Heps : real_lit 1 6 = (1 / 1000000)%R) by (unfold real_lit; simpl; lra).
  assert (Hk1 : real_lit 77489 2 = (77489 / 100)%R) by (unfold real_lit; simpl; lra).
  assert (Hk2 : real_lit 132108 2 = (132108 / 100)%R) by (unfold real_lit; simpl; lra).
  assert (Hc : real_lit 27315 2 = (27315 / 100)%R) by (unfold real_lit; simpl; lra).
  assert (H1 : real_lit 1 0 = 1%R) by (unfold real_lit; simpl; lra).
  unfold eval_formula, bt_of. rewrite parse_bt_formula.
  cbn [eval bind2 option_map env_lookup real_arith a_lit a_add a_sub a_div
       a_ln String.eqb Ascii.eqb Bool.eqb].
  fold toa. rewrite Heps, Hk1, Hk2, Hc, H1.
  rewrite (real_div_defined _ _ Hden). cbn [bind2 a_add real_arith].
  rewrite real_ln_defined by lra.
  rewrite (real_div_defined _ _ Hln). reflexivity.
Qed.

(** ** Frame properties

    A relation between worlds that is a preorder and holds across the
    three ways the collaborators below the top level change the world
    (a call recorded, the file system changed, a line logged) holds across
    [raster_calculation] and the two stages. *)

Section Respects.

Variable R : world -> world -> Prop.
Hypothesis R_refl : forall w, R w w.
Hypothesis R_trans : forall w1 w2 w3, R w1 w2 -> R w2 w3 -> R w1 w3.
Hypothesis R_record : forall c w, R w (record c w).
Hypothesis R_set_fs : forall f w, R w (set_fs f w).
Hypothesis R_add_log : forall lvl msg w, R w (add_log lvl msg w).

Lemma respects_ret {A} (a : A) : respects R (ret a).
Proof. intros w. apply R_refl. Qed.

Lemma respects_raise {A} (e : exn) : respects R (@raise A e).
Proof. intros w. apply R_refl. Qed.

Lemma respects_bind {A B} (m : M A) (k : A -> M B) :
  respects R m -> (forall a, respects R (k a)) -> respects R (bind m k).
Proof.
  intros Hm Hk w. unfold bind. specialize (Hm w).
  destruct (m w) as [[a|e] w1]; simpl in *; [| exact Hm].
  eapply R_trans; [exact Hm | apply Hk].
Qed.

Lemma respects_try_except {A} (m : M A) (C : exn_class) (h : exn -> M A) :
  respects R m -> (forall e, respects R (h e)) -> respects R (try_except m C h).
Proof.
  intros Hm Hh w. unfold try_except. specialize (Hm w).
  destruct (m w) as [[a|e] w1]; simpl in *; [exact Hm |].
  destruct (isinstance e C); [| exact Hm].
  eapply R_trans; [exact Hm | apply Hh].
Qed.

Lemma respects_for_each {A} (xs : list A) (body : A -> M unit) :
  (forall x, respects R (body x)) -> respects R (for_each xs body).
Proof.
  intros Hb. induction xs as [|x xs IH]; simpl.
  - apply respects_ret.
  - apply respects_bind; [apply Hb | intros _; exact IH].
Qed.

Lemma respects_homePath : respects R homePath.
Proof. intros w. apply R_refl. Qed.

Lemma respects_os_path_exists (p : string) : respects R (os_path_exists p).
Proof. intros w. apply R_record. Qed.

Lemma respects_os_remove (p : string) : respects R (os_remove p).
Proof.
  intros w. unfold os_remove. simpl.
  destruct (w_fs w !! p) as [n|]; [destruct (n_removal n) |]; simpl;
    try apply R_record.
  eapply R_trans; [apply R_record | apply R_set_fs].
Qed.

Lemma respects_QgsRasterLayer (p name : string) :
  respects R (QgsRasterLayer p name).
Proof. intros w. apply R_record. Qed.

Lemma respects_bandStatistics (l : layer) : respects R (bandStatistics l).
Proof. intros w. unfold bandStatistics. destruct (l_data l); apply R_record. Qed.

Lemma respects_logMessage (msg : string) (lvl : level) :
  respects R (logMessage msg lvl).
Proof. intros w. apply R_add_log. Qed.

Lemma respects_processCalculation (c : QgsRasterCalculator) :
  respects R (processCalculation c).
Proof.
  intros w. unfold processCalculation.
  destruct (w_engine w c) as [code out]. simpl.
  eapply R_trans; [apply R_record | apply R_set_fs].
Qed.

Lemma respects_first_entry (es : list QgsRasterCalculatorEntry) :
  respects R (first_entry es).
Proof. destruct es; intros w; apply R_refl. Qed.

Lemma respects_style_thermal_layer (l : layer) :
  respects R (style_thermal_layer l).
Proof. intros w. apply R_record. Qed.

Ltac respects_step :=
  first
    [ solve [auto 2]
    | apply respects_ret | apply respects_raise | apply respects_homePath
    | apply respects_os_path_exists | apply respects_os_remove
    | apply respects_QgsRasterLayer | apply respects_bandStatistics
    | apply respects_logMessage | apply respects_processCalculation
    | apply respects_first_entry | apply respects_style_thermal_layer
    | apply respects_bind; [| intros ?]
    | apply respects_try_except; [| intros ?]
    | apply respects_for_each; intros ?
    | match goal with |- respects _ (if ?b then _ else _) => destruct b end ].

Lemma respects_cleanup_existing (p : string) : respects R (cleanup_existing p).
Proof. unfold cleanup_existing. repeat respects_step. Qed.

Lemma respects_validate_entry (e : QgsRasterCalculatorEntry) :
  respects R (validate_entry e).
Proof. unfold validate_entry. repeat respects_step. Qed.

Lemma respects_validate_output (p name : string) :
  respects R (validate_output p name).
Proof. unfold validate_output. repeat respects_step. Qed.

(** What [raster_calculation] does once the stale file is out of the way. *)
Lemma respects_after_cleanup (f p name : string)
    (es : list QgsRasterCalculatorEntry) :
  respects R (after_cleanup f es p name).
Proof.
  unfold after_cleanup.
  pose proof respects_validate_entry. pose proof respects_validate_output.
  repeat respects_step.
Qed.

Lemma respects_raster_calculation (f : string)
    (es : list QgsRasterCalculatorEntry) (name : string) :
  respects R (raster_calculation f es name).
Proof.
  unfold raster_calculation.
  pose proof respects_cleanup_existing. pose proof respects_after_cleanup.
  repeat respects_step.
Qed.

Lemma respects_calculate_toa (l : layer) (ml al : pyfloat) :
  respects R (calculate_toa l ml al).
Proof. unfold calculate_toa. apply respects_raster_calculation. Qed.

Lemma respects_calculate_bt (l : layer) : respects R (calculate_bt l).
Proof.
  unfold calculate_bt. pose proof respects_raster_calculation.
  repeat respects_step.
Qed.

Lemma respects_compute_styled (path : string) :
  respects R (compute_styled path).
Proof.
  unfold compute_styled.
  pose proof respects_calculate_toa. pose proof respects_calculate_bt.
  repeat respects_step.
Qed.

End Respects.

Lemma same_host_refl (w : world) : same_host w w.
Proof. repeat split. Qed.

Lemma same_host_trans (w1 w2 w3 : world) :
  same_host w1 w2 -> same_host w2 w3 -> same_host w1 w3.
Proof. unfold same_host. intuition congruence. Qed.

Lemma trace_prefix_refl (w : world) : trace_prefix w w.
Proof. exists []. now rewrite app_nil_r. Qed.

Lemma trace_prefix_trans (w1 w2 w3 : world) :
  trace_prefix w1 w2 -> trace_prefix w2 w3 -> trace_prefix w1 w3.
Proof.
  intros [t1 H1] [t2 H2]. exists (t1 ++ t2)%list.
  now rewrite H2, H1, app_assoc.
Qed.

Lemma trace_prefix_record (c : call) (w : world) : trace_prefix w (record c w).
Proof. exists [c]. reflexivity. Qed.

Lemma trace_prefix_set_fs (f : gmap string node -> gmap string node) (w : world) :
  trace_prefix w (set_fs f w).
Proof. exists []. simpl. now rewrite app_nil_r. Qed.

Lemma trace_prefix_add_log (lvl : level) (msg : string) (w : world) :
  trace_prefix w (add_log lvl msg w).
Proof. exists []. simpl. now rewrite app_nil_r. Qed.

(** The two instances: the host is left alone, the trace only grows. *)
Ltac host_frame lem :=
  apply lem;
  first [ apply same_host_refl | apply same_host_trans
        | intros; repeat split ].

Ltac trace_frame lem :=
  apply lem;
  first [ apply trace_prefix_refl | apply trace_prefix_trans
        | apply trace_prefix_record | apply trace_prefix_set_fs
        | apply trace_prefix_add_log ].

Lemma framed_cleanup_existing (p : string) : framed (cleanup_existing p).
Proof. host_frame respects_cleanup_existing. Qed.

Lemma framed_validate_entry (e : QgsRasterCalculatorEntry) :
  framed (validate_entry e).
Proof. host_frame respects_validate_entry. Qed.

Lemma framed_raster_calculation (f : string)
    (es : list QgsRasterCalculatorEntry) (name : string) :
  framed (raster_calculation f es name).
Proof. host_frame respects_raster_calculation. Qed.

Lemma framed_compute_styled (path : string) : framed (compute_styled path).
Proof. host_frame respects_compute_styled. Qed.

Lemma extends_trace_after_cleanup (f p name : string)
    (es : list QgsRasterCalculatorEntry) :
  extends_trace (after_cleanup f es p name).
Proof. trace_frame respects_after_cleanup. Qed.

(** ** Inversion of sequenced computations *)

Lemma bind_ok_inv {A B} (m : M A) (k : A -> M B) (w w' : world) (b : B) :
  bind m k w = (Ok b, w') ->
  exists a w1, m w = (Ok a, w1) /\ k a w1 = (Ok b, w').
Proof.
  unfold bind. destruct (m w) as [[a|e] w1]; intros H; [eauto | discriminate].
Qed.

Lemma bind_raise_inv {A B} (m : M A) (k : A -> M B) (w w' : world) (e : exn) :
  bind m k w = (Raise e, w') ->
  m w = (Raise e, w') \/ exists a w1, m w = (Ok a, w1) /\ k a w1 = (Raise e, w').
Proof.
  unfold bind. destruct (m w) as [[a|e1] w1]; intros H; [right; eauto | left; injection H as -> ->; reflexivity].
Qed.

Lemma respects_run {A} (R : world -> world -> Prop) (m : M A)
    (w w' : world) (r : result A) :
  respects R m -> m w = (r, w') -> R w w'.
Proof. intros Hm E. specialize (Hm w). now rewrite E in Hm. Qed.

(** ** The top-level handler *)

Lemma calculate_lst_body_split (path : string) (w : world) :
  calculate_lst_body path w
  = bind (compute_styled path)
      (fun bt_layer =>
         do _ <- addMapLayer bt_layer ;
         pushSuccess "Success" "LST calculation completed!") w.
Proof.
  unfold calculate_lst_body, compute_styled, bind. simpl.
  destruct (negb _); [reflexivity |].
  destruct (calculate_toa _ _ _ _) as [[toa|e] w1]; [| reflexivity].
  simpl. destruct (calculate_bt _ _) as [[bt|e] w2]; reflexivity.
Qed.

Lemma calculate_lst_body_raise (path : string) (w w' : world) (e : exn) :
  calculate_lst_body path w = (Raise e, w') ->
  compute_styled path w = (Raise e, w').
Proof.
  rewrite calculate_lst_body_split. intros H.
  apply bind_raise_inv in H as [H | (l & w1 & _ & H)]; [exact H |].
  discriminate H.
Qed.

(** The two ways [calculate_lst] ends. *)
Lemma calculate_lst_outcome (path : string) (w : world) :
  calculate_lst path w
  = match compute_styled path w with
    | (Ok l, w1) =>
        (Ok tt,
         add_bar Success "Success" "LST calculation completed!"
           (add_layer l (record (CallAddMapLayer (l_source l)) w1)))
    | (Raise e, w1) =>
        (Ok tt,
         add_log Critical ("Error: " ++ exn_msg e)
           (add_bar Critical "Error" (exn_msg e) w1))
    end.
Proof.
  unfold calculate_lst, try_except. rewrite calculate_lst_body_split.
  unfold bind. destruct (compute_styled path w) as [[l|e] w1]; reflexivity.
Qed.

(** C3. When any step of the pipeline raises, [calculate_lst] catches the
    exception in its single handler and returns normally: the message bar
    receives exactly one entry, critical, with the text of the exception;
    the log receives the same text at critical level; and the project has
    the layers it had before the run. *)
Theorem calculate_lst_reports_error (path : string) (w w' : world) (e : exn) :
  calculate_lst_body path w = (Raise e, w') ->
  let w'' := snd (calculate_lst path w) in
  fst (calculate_lst path w) = Ok tt
  /\ w_bar w'' = (w_bar w ++ [(Critical, "Error", exn_msg e)])%list
  /\ w_log w'' = (w_log w' ++ [(Critical, ("Error: " ++ exn_msg e)%string)])%list
  /\ w_layers w'' = w_layers w.
Proof.
  intros H.
  pose proof (calculate_lst_body_raise _ _ _ _ H) as Hc.
  apply (respects_run _ _ _ _ _ (framed_compute_styled path)) in Hc
    as (_ & _ & _ & Hl & Hb).
  unfold calculate_lst, try_except. rewrite H. simpl.
  rewrite Hl, Hb. repeat split.
Qed.

Lemma calculate_lst_reports_error_witness :
  let w'' := snd (calculate_lst "/data/missing.tif" demo_world) in
  fst (calculate_lst "/data/missing.tif" demo_world) = Ok tt
  /\ w_bar w''
     = [(Critical, "Error", "Invalid Band 10 file. Check file format and path.")]
  /\ w_log w''
     = [(Critical, "Error: Invalid Band 10 file. Check file format and path.")]
  /\ w_layers w'' = [].
Proof.
  apply (calculate_lst_reports_error "/data/missing.tif" demo_world
           (record (CallOpen "/data/missing.tif" "B10_RAW") demo_world)
           (Exception "Invalid Band 10 file. Check file format and path.")).
  reflexivity.
Defined.

(** ** Deleting a stale output file *)

Lemma cleanup_absent (p : string) (w : world) :
  w_fs w !! p = None ->
  cleanup_existing p w = (Ok tt, record (CallExists p) w).
Proof. intros H. unfold cleanup_existing, bind, os_path_exists. now rewrite H. Qed.

Lemma cleanup_removable (p : string) (w : world) (n : node) :
  w_fs w !! p = Some n -> n_removal n = Removable ->
  cleanup_existing p w
  = (Ok tt, set_fs (delete p) (record (CallRemove p) (record (CallExists p) w))).
Proof.
  intros H Hr.
  unfold cleanup_existing, bind, os_path_exists, try_except, os_remove.
  rewrite H. simpl. now rewrite H, Hr.
Qed.

Lemma cleanup_refused (p : string) (w : world) (n : node) (e : exn) :
  w_fs w !! p = Some n -> n_removal n = Refuses e ->
  cleanup_existing p w
  = (Raise (if isinstance e PermissionErrorC then file_in_use p else e),
     record (CallRemove p) (record (CallExists p) w)).
Proof.
  intros H Hr.
  unfold cleanup_existing, bind, os_path_exists, try_except, os_remove.
  rewrite H. simpl. rewrite H, Hr. destruct (exn_class_of e); reflexivity.
Qed.

(** What [cleanup_existing] returning normally says about the file. *)
Lemma cleanup_ok_inv (p : string) (w w1 : world) :
  cleanup_existing p w = (Ok tt, w1) ->
  (w_fs w !! p = None /\ w1 = record (CallExists p) w)
  \/ (exists n, w_fs w !! p = Some n /\ n_removal n = Removable
        /\ w1 = set_fs (delete p) (record (CallRemove p) (record (CallExists p) w))).
Proof.
  destruct (w_fs w !! p) as [n|] eqn:H.
  - destruct (n_removal n) as [|e] eqn:Hr.
    + rewrite (cleanup_removable p w n H Hr). intros [= <-]. right. eauto.
    + rewrite (cleanup_refused p w n e H Hr). discriminate.
  - rewrite (cleanup_absent p w H). intros [= <-]. left. eauto.
Qed.

(** C10. In the deletion block only a [PermissionError] of [os.remove]
    becomes the "file in use" exception that names the path; any other
    failure of the deletion leaves the block as it is; and with no file at
    the path [os.remove] is not called at all and the block returns
    normally. *)
Theorem cleanup_classifies_permission_only (p : string) (w : world) :
  (forall n e, w_fs w !! p = Some n -> n_removal n = Refuses e ->
     isinstance e PermissionErrorC = true ->
     fst (cleanup_existing p w) = Raise (file_in_use p)
     /\ exn_msg (file_in_use p) = "File in use: " ++ p ++ ". Close other programs.")
  /\ (forall n e, w_fs w !! p = Some n -> n_removal n = Refuses e ->
        isinstance e PermissionErrorC = false ->
        fst (cleanup_existing p w) = Raise e)
  /\ (w_fs w !! p = None ->
        cleanup_existing p w = (Ok tt, record (CallExists p) w)
        /\ w_trace (snd (cleanup_existing p w)) = (w_trace w ++ [CallExists p])%list).
Proof.
  split; [| split].
  - intros n e H Hr He. rewrite (cleanup_refused p w n e H Hr), He.
    split; reflexivity.
  - intros n e H Hr He. rewrite (cleanup_refused p w n e H Hr), He. reflexivity.
  - intros H. rewrite (cleanup_absent p w H). split; reflexivity.
Qed.

Lemma cleanup_classifies_permission_only_witness :
  fst (cleanup_existing "/proj/TOA_Radiance.tif"
         (demo_world_with_stale (Refuses permission_denied)))
  = Raise (file_in_use "/proj/TOA_Radiance.tif")
  /\ fst (cleanup_existing "/proj/TOA_Radiance.tif"
            (demo_world_with_stale (Refuses is_a_directory)))
     = Raise is_a_directory
  /\ cleanup_existing "/proj/TOA_Radiance.tif" demo_world
     = (Ok tt, record (CallExists "/proj/TOA_Radiance.tif") demo_world).
Proof.
  split; [| split].
  - eapply (proj1 (cleanup_classifies_permission_only "/proj/TOA_Radiance.tif"
                     (demo_world_with_stale (Refuses permission_denied))));
      reflexivity.
  - eapply (proj1 (proj2 (cleanup_classifies_permission_only
                     "/proj/TOA_Radiance.tif"
                     (demo_world_with_stale (Refuses is_a_directory)))));
      reflexivity.
  - apply (proj2 (proj2 (cleanup_classifies_permission_only
                     "/proj/TOA_Radiance.tif" demo_world))).
    reflexivity.
Defined.

Lemma raster_calculation_unfold (f : string)
    (es : list QgsRasterCalculatorEntry) (name : string) (w : world) :
  raster_calculation f es name w
  = bind (cleanup_existing (output_path_of (w_home w) name))
         (fun _ => after_cleanup f es (output_path_of (w_home w) name) name) w.
Proof. reflexivity. Qed.

(** C4. When a file exists at the output path, [raster_calculation] first
    asks for it and deletes it: these are the first two calls it makes, the
    file is gone when the rest (the engine included) runs.  When the
    deletion fails with a [PermissionError], the "file in use" exception
    naming the path is raised at once: no further call is made, so the
    engine is never invoked, and the file system is as it was. *)
Theorem stale_output_deleted_before_engine (f : string)
    (es : list QgsRasterCalculatorEntry) (name : string) (w : world) (n : node) :
  let p := output_path_of (w_home w) name in
  w_fs w !! p = Some n ->
  (n_removal n = Removable ->
     w_fs (snd (cleanup_existing p w)) !! p = None
     /\ exists t,
         w_trace (snd (raster_calculation f es name w))
         = (w_trace w ++ CallExists p :: CallRemove p :: t)%list)
  /\ (forall e, n_removal n = Refuses e -> isinstance e PermissionErrorC = true ->
        let w' := snd (raster_calculation f es name w) in
        fst (raster_calculation f es name w) = Raise (file_in_use p)
        /\ w_trace w' = (w_trace w ++ [CallExists p; CallRemove p])%list
        /\ w_fs w' = w_fs w).
Proof.
  intros p H. split.
  - intros Hr. rewrite raster_calculation_unfold. fold p. unfold bind.
    rewrite (cleanup_removable p w n H Hr). split.
    + simpl. apply lookup_delete_eq.
    + match goal with |- context [after_cleanup f es p name ?w1] =>
        destruct (extends_trace_after_cleanup f p name es w1) as [t Ht]
      end.
      exists t. rewrite Ht. simpl. now rewrite <- !app_assoc.
  - intros e Hr He. rewrite raster_calculation_unfold. fold p. unfold bind.
    rewrite (cleanup_refused p w n e H Hr), He. simpl.
    now rewrite <- !app_assoc.
Qed.

Lemma stale_output_deleted_before_engine_witness :
  let w := demo_world_with_stale (Refuses permission_denied) in
  let r := raster_calculation (toa_formula ml_default al_default)
             [toa_entry demo_layer] "TOA_Radiance" w in
  fst r = Raise (file_in_use "/proj/TOA_Radiance.tif")
  /\ w_trace (snd r)
     = [CallExists "/proj/TOA_Radiance.tif"; CallRemove "/proj/TOA_Radiance.tif"]
  /\ w_fs (snd r) = w_fs w.
Proof.
  apply (proj2 (stale_output_deleted_before_engine
                  (toa_formula ml_default al_default) [toa_entry demo_layer]
                  "TOA_Radiance"
                  (demo_world_with_stale (Refuses permission_denied))
                  (mkNode (Some demo_toa) (Refuses permission_denied))
                  eq_refl)
          permission_denied eq_refl eq_refl).
Defined.

(** ** The result code of the engine *)

Lemma negb_eqb_nonzero (code : Z) : code <> 0%Z -> negb (code =? 0)%Z = true.
Proof. intros H. now apply negb_true_iff, Z.eqb_neq. Qed.

Lemma error_text_unknown (code : Z) :
  code <> 1%Z -> code <> 2%Z -> code <> 3%Z -> code <> 4%Z ->
  error_text code = "Unknown error".
Proof.
  intros H1 H2 H3 H4. unfold error_text, error_map.
  now rewrite !lookup_insert_ne, lookup_empty by congruence.
Qed.

(** Once the entries are validated, the outcome is the engine's. *)
Lemma after_cleanup_engine (f p name : string)
    (es rest : list QgsRasterCalculatorEntry) (e0 : QgsRasterCalculatorEntry)
    (w w1 : world) :
  es = e0 :: rest ->
  for_each es validate_entry w = (Ok tt, w1) ->
  after_cleanup f es p name w
  = bind (processCalculation (calculator_of f p es e0))
      (fun result =>
         if negb (result =? 0)%Z then raise (gdal_error result)
         else validate_output p name)
      (add_log Info ("Executing formula: " ++ f) w1).
Proof.
  intros -> Hv. unfold after_cleanup, bind at 1. rewrite Hv. reflexivity.
Qed.

Lemma for_each_validate_host (es : list QgsRasterCalculatorEntry)
    (w w1 : world) (r : result unit) :
  for_each es validate_entry w = (r, w1) -> same_host w w1.
Proof.
  intros H. eapply respects_run; [| exact H].
  apply respects_for_each;
    [apply same_host_refl | apply same_host_trans | apply framed_validate_entry].
Qed.

(** C5, as the code has it.  A result code other than 0 makes
    [raster_calculation] raise, so no layer is returned; the exception
    carries the code in its text; the codes 1 to 4 have a text of their
    own, and every other code is reported as "Unknown error". *)
Theorem engine_failure_is_fatal (f name : string)
    (es rest : list QgsRasterCalculatorEntry) (e0 : QgsRasterCalculatorEntry)
    (w w0 w1 : world) (code : Z) (out : written) :
  let p := output_path_of (w_home w) name in
  es = e0 :: rest ->
  cleanup_existing p w = (Ok tt, w0) ->
  for_each es validate_entry w0 = (Ok tt, w1) ->
  w_engine w (calculator_of f p es e0) = (code, out) ->
  code <> 0%Z ->
  fst (raster_calculation f es name w) = Raise (gdal_error code)
  /\ exn_msg (gdal_error code)
     = "GDAL Error " ++ str_int code ++ ": " ++ error_text code
  /\ error_text 1 = "Missing input layers"
  /\ error_text 2 = "Invalid formula syntax"
  /\ error_text 3 = "Calculation error (e.g., division by zero)"
  /\ error_text 4 = "GDAL internal error"
  /\ (code <> 1%Z -> code <> 2%Z -> code <> 3%Z -> code <> 4%Z ->
      error_text code = "Unknown error").
Proof.
  intros p Hes Hc Hv He Hcode.
  split; [| repeat split; try reflexivity; apply error_text_unknown].
  rewrite raster_calculation_unfold. fold p. unfold bind at 1. rewrite Hc.
  rewrite (after_cleanup_engine f p name es rest e0 w0 w1 Hes Hv).
  unfold bind, processCalculation.
  assert (Hw : w_engine (add_log Info ("Executing formula: " ++ f) w1)
               = w_engine w).
  { simpl.
    pose proof (respects_run _ _ _ _ _ (framed_cleanup_existing p) Hc)
      as (_ & E0 & _).
    pose proof (for_each_validate_host _ _ _ _ Hv) as (_ & E1 & _).
    congruence. }
  rewrite Hw, He. now rewrite (negb_eqb_nonzero code Hcode).
Qed.

Lemma engine_failure_is_fatal_witness :
  fst (raster_calculation (toa_formula ml_default al_default)
         [toa_entry demo_layer] "TOA_Radiance" (demo_world_failing 3))
  = Raise (Exception "GDAL Error 3: Calculation error (e.g., division by zero)").
Proof.
  apply (engine_failure_is_fatal (toa_formula ml_default al_default)
           "TOA_Radiance" [toa_entry demo_layer] [] (toa_entry demo_layer)
           (demo_world_failing 3)
           (snd (cleanup_existing "/proj/TOA_Radiance.tif" (demo_world_failing 3)))
           (snd (for_each [toa_entry demo_layer] validate_entry
                   (snd (cleanup_existing "/proj/TOA_Radiance.tif"
                           (demo_world_failing 3)))))
           3%Z NoFile eq_refl eq_refl eq_refl eq_refl).
  discriminate.
Defined.

(** The claim as the specification states it fails at the result code 5:
    it is not among the four listed codes, and the evaluation is reported
    as an unknown error. *)
Lemma engine_code_5_is_unknown :
  fst (raster_calculation (toa_formula ml_default al_default)
         [toa_entry demo_layer] "TOA_Radiance" (demo_world_failing 5))
  = Raise (Exception "GDAL Error 5: Unknown error")
  /\ error_map !! 5%Z = None.
Proof. split; reflexivity. Qed.

(** ** The reload of the written file *)

Lemma validate_output_invalid (p name : string) (w : world) :
  w_fs w !! p ≫= n_raster = None ->
  validate_output p name w
  = (Raise (output_not_created p), record (CallOpen p name) w).
Proof.
  intros H. unfold validate_output, bind, QgsRasterLayer, isValid. simpl.
  now rewrite H.
Qed.

Lemma validate_output_ok_inv (p name : string) (w w' : world) (l : layer) :
  validate_output p name w = (Ok l, w') ->
  exists r st,
    w_fs w !! p ≫= n_raster = Some r /\ w_stats w r = Ok st
    /\ l = mkLayer p name (Some r) None
    /\ w' = add_log Info ("Output " ++ name ++ " - Min: " ++ minimumValue st
                            ++ ", Max: " ++ maximumValue st)
              (record (CallStatistics p) (record (CallOpen p name) w)).
Proof.
  unfold validate_output, bind, QgsRasterLayer, isValid, bandStatistics. simpl.
  destruct (w_fs w !! p ≫= n_raster) as [r|]; simpl; [| discriminate].
  destruct (w_stats w r) as [st|e] eqn:Hs; simpl; [| discriminate].
  intros [= <- <-]. exists r, st. repeat split. exact Hs.
Qed.

Lemma validate_output_valid (p name : string) (w : world) (r : raster)
    (st : QgsRasterBandStats) :
  w_fs w !! p ≫= n_raster = Some r -> w_stats w r = Ok st ->
  validate_output p name w
  = (Ok (mkLayer p name (Some r) None),
     add_log Info ("Output " ++ name ++ " - Min: " ++ minimumValue st
                     ++ ", Max: " ++ maximumValue st)
       (record (CallStatistics p) (record (CallOpen p name) w))).
Proof.
  intros H Hs.
  unfold validate_output, bind, QgsRasterLayer, isValid, bandStatistics. simpl.
  rewrite H. simpl. now rewrite Hs.
Qed.

(** A normal return of [raster_calculation] ends in [validate_output]. *)
Lemma raster_calculation_ok_inv (f name : string)
    (es : list QgsRasterCalculatorEntry) (w w' : world) (l : layer) :
  raster_calculation f es name w = (Ok l, w') ->
  exists w0 w1 e0 w2,
    cleanup_existing (output_path_of (w_home w) name) w = (Ok tt, w0)
    /\ for_each es validate_entry w0 = (Ok tt, w1)
    /\ first_entry es w1 = (Ok e0, w1)
    /\ processCalculation
         (calculator_of f (output_path_of (w_home w) name) es e0)
         (add_log Info ("Executing formula: " ++ f) w1) = (Ok 0%Z, w2)
    /\ validate_output (output_path_of (w_home w) name) name w2 = (Ok l, w').
Proof.
  rewrite raster_calculation_unfold. set (p := output_path_of (w_home w) name).
  intros H.
  apply bind_ok_inv in H as ([] & w0 & Hc & H).
  unfold after_cleanup in H.
  apply bind_ok_inv in H as ([] & w1 & Hv & H).
  apply bind_ok_inv in H as (e0 & w1' & He0 & H).
  assert (w1' = w1) as ->
    by (unfold first_entry, ret, raise in He0; destruct es; congruence).
  apply bind_ok_inv in H as ([] & wl & Hl & H).
  injection Hl as <-.
  apply bind_ok_inv in H as (code & w2 & Hp & H).
  destruct (Z.eqb_spec code 0) as [-> | Hne]; simpl in H; [| discriminate].
  exists w0, w1, e0, w2. auto.
Qed.



(** ** Band statistics *)

Lemma validate_entry_stats (entry : QgsRasterCalculatorEntry) (w : world)
    (r : raster) :
  l_data (e_raster entry) = Some r ->
  validate_entry entry w
  = match w_stats w r with
    | Ok st =>
        (Ok tt,
         add_log Info ("Input " ++ e_ref entry ++ " - Min: " ++ minimumValue st
                         ++ ", Max: " ++ maximumValue st)
           (record (CallStatistics (l_source (e_raster entry))) w))
    | Raise e =>
        (Raise e, record (CallStatistics (l_source (e_raster entry))) w)
    end.
Proof.
  intros H. unfold validate_entry, isValid, bind, bandStatistics.
  rewrite H. simpl. destruct (w_stats w r); reflexivity.
Qed.

(** The claim as the specification states it fails where the statistics
    provider raises: the same evaluation that succeeds in the demo world
    is aborted, and the pipeline ends in the error handler with no layer
    added. *)
Lemma statistics_failure_aborts :
  let w := demo_world_with_stats (fun _ => Raise statistics_failed) in
  fst (raster_calculation (toa_formula ml_default al_default)
         [toa_entry demo_layer] "TOA_Radiance" demo_world)
  = Ok (mkLayer "/proj/TOA_Radiance.tif" "TOA_Radiance" (Some demo_toa) None)
  /\ fst (raster_calculation (toa_formula ml_default al_default)
            [toa_entry demo_layer] "TOA_Radiance" w)
     = Raise statistics_failed
  /\ w_bar (snd (calculate_lst "/data/B10.tif" w))
     = [(Critical, "Error", "Cannot compute statistics")]
  /\ w_layers (snd (calculate_lst "/data/B10.tif" w)) = [].
Proof. repeat split; vm_compute; reflexivity. Qed.

(** ** The thermal ramp *)




(** ** One entry: when [raster_calculation] returns normally *)

Lemma processCalculation_run (c : QgsRasterCalculator) (w : world) :
  processCalculation c w
  = (Ok (fst (w_engine w c)),
     set_fs (fun fs => file_of (snd (w_engine w c)) fs (c_output c))
       (record (CallProcess c) w)).
Proof. unfold processCalculation. destruct (w_engine w c); reflexivity. Qed.

Lemma cleanup_ok_files (p : string) (w w0 : world) :
  cleanup_existing p w = (Ok tt, w0) ->
  w_fs w0 = delete p (w_fs w)
  /\ (w_fs w !! p = None
      \/ exists n, w_fs w !! p = Some n /\ n_removal n = Removable).
Proof.
  intros H. apply cleanup_ok_inv in H as [[H ->] | (n & H & Hr & ->)]; simpl.
  - split; [now rewrite delete_id | now left].
  - split; [reflexivity | right; eauto].
Qed.

Lemma file_of_lookup (out : written) (fs : gmap string node) (p : string)
    (r : raster) :
  fs !! p = None ->
  file_of out fs p !! p ≫= n_raster = Some r ->
  out = Dataset r.
Proof.
  intros Hp. destruct out as [| |r']; simpl.
  - rewrite Hp. discriminate.
  - rewrite lookup_insert_eq. discriminate.
  - rewrite lookup_insert_eq. simpl. congruence.
Qed.

Lemma raster_calculation_single_ok_inv (f name : string)
    (en : QgsRasterCalculatorEntry) (w w' : world) (l : layer) :
  raster_calculation f [en] name w = (Ok l, w') ->
  exists rin stin r st,
    l_data (e_raster en) = Some rin /\ w_stats w rin = Ok stin
    /\ (w_fs w !! output_path_of (w_home w) name = None
        \/ exists n, w_fs w !! output_path_of (w_home w) name = Some n
                     /\ n_removal n = Removable)
    /\ w_engine w (calculator_of f (output_path_of (w_home w) name) [en] en)
       = (0%Z, Dataset r)
    /\ w_stats w r = Ok st
    /\ l = mkLayer (output_path_of (w_home w) name) name (Some r) None
    /\ w_fs w' = <[output_path_of (w_home w) name := mkNode (Some r) Removable]>
                   (delete (output_path_of (w_home w) name) (w_fs w)).
Proof.
  intros H. pose proof (respects_run _ _ _ _ _ (framed_raster_calculation _ _ _) H)
    as Hhost.
  apply raster_calculation_ok_inv in H as (w0 & w1 & e0 & w2 & Hc & Hv & He0 & Hp & Ho).
  set (p := output_path_of (w_home w) name) in *.
  pose proof (respects_run _ _ _ _ _ (framed_cleanup_existing p) Hc)
    as (_ & Eng0 & Sta0 & _).
  apply cleanup_ok_files in Hc as [Hfs0 Hcase].
  injection He0 as <-.
  (* the entry is valid and its statistics are returned *)
  simpl in Hv. unfold bind in Hv.
  destruct (l_data (e_raster en)) as [rin|] eqn:Hin;
    [| unfold validate_entry, isValid in Hv; rewrite Hin in Hv; discriminate].
  rewrite (validate_entry_stats en w0 rin Hin) in Hv.
  destruct (w_stats w0 rin) as [stin|e] eqn:Hsin; [| discriminate].
  injection Hv as <-.
  (* the engine *)
  rewrite processCalculation_run in Hp. simpl in Hp.
  injection Hp as Hcode <-.
  apply validate_output_ok_inv in Ho as (r & st & Hr & Hst & -> & ->).
  simpl in Hr, Hst.
  destruct (w_engine w0 (calculator_of f p [en] en)) as [code out] eqn:He.
  simpl in Hcode, Hr. subst code.
  apply file_of_lookup in Hr; [| rewrite Hfs0; apply lookup_delete_eq].
  subst out.
  exists rin, stin, r, st. simpl. rewrite Hfs0.
  repeat split; congruence.
Qed.

(** A run over a removable stale file. *)
Lemma raster_calculation_single_rerun (f name : string)
    (en : QgsRasterCalculatorEntry) (w : world) (n : node)
    (rin r : raster) (stin st : QgsRasterBandStats) :
  let p := output_path_of (w_home w) name in
  l_data (e_raster en) = Some rin -> w_stats w rin = Ok stin ->
  w_fs w !! p = Some n -> n_removal n = Removable ->
  w_engine w (calculator_of f p [en] en) = (0%Z, Dataset r) ->
  w_stats w r = Ok st ->
  exists w',
    raster_calculation f [en] name w = (Ok (mkLayer p name (Some r) None), w')
    /\ w_fs w' = <[p := mkNode (Some r) Removable]> (delete p (w_fs w))
    /\ same_host w w'
    /\ exists t, w_trace w' = (w_trace w ++ CallExists p :: CallRemove p :: t)%list.
Proof.
  intros p Hin Hsin Hp Hrm He Hst.
  rewrite raster_calculation_unfold. fold p. unfold bind at 1.
  rewrite (cleanup_removable p w n Hp Hrm).
  unfold after_cleanup. simpl for_each. unfold bind.
  rewrite (validate_entry_stats en _ rin Hin).
  cbn [w_stats set_fs record]. rewrite Hsin.
  cbn [first_entry ret]. unfold logMessage.
  rewrite processCalculation_run.
  cbn [w_engine set_fs record add_log]. rewrite He.
  cbn [fst snd negb Z.eqb].
  erewrite validate_output_valid;
    [| cbn; rewrite lookup_insert_eq; reflexivity | cbn; exact Hst].
  eexists. split; [reflexivity |].
  cbn. repeat split.
  eexists. rewrite <- !app_assoc. reflexivity.
Qed.

(** ** Multiplying by [1.0]

    The factor [1.0] of the TOA formula changes nothing in binary64. *)

Lemma digits2_pos_shift (m : positive) :
  Z.pos (digits2_pos (4503599627370496 * m)) = (Z.pos (digits2_pos m) + 52)%Z.
Proof.
  change (4503599627370496 * m)%positive
    with (m~0~0~0~0~0~0~0~0~0~0~0~0~0~0~0~0~0~0~0~0~0~0~0~0~0~0~0~0~0~0~0~0~0~0~0~0~0~0~0~0~0~0~0~0~0~0~0~0~0~0~0~0)%positive.
  cbn [digits2_pos]. lia.
Qed.

Lemma shr_52 (m : positive) :
  SpecFloat.iter_pos shr_1 52
    {| shr_m := Z.pos (4503599627370496 * m); shr_r := false; shr_s := false |}
  = {| shr_m := Z.pos m; shr_r := false; shr_s := false |}.
Proof. reflexivity. Qed.

Lemma SF64mul_one (s : bool) (m : positive) (e : Z) :
  bounded prec emax m e = true ->
  SF64mul (S754_finite s m e) (S754_finite false 4503599627370496 (-52))
  = S754_finite s m e.
Proof.
  intros Hb. apply andb_true_iff in Hb as [Hc He].
  unfold canonical_mantissa in Hc. apply Z.eqb_eq in Hc.
  unfold SF64mul, SFmul, binary_round_aux.
  assert (H1 : shr_fexp prec emax (Z.pos (m * 4503599627370496)) (e + -52) loc_Exact
               = ({| shr_m := Z.pos m; shr_r := false; shr_s := false |}, e)).
  { unfold shr_fexp. rewrite Pos.mul_comm. unfold Zdigits2.
    rewrite digits2_pos_shift.
    replace (Z.pos (digits2_pos m) + 52 + (e + -52))%Z
      with (Z.pos (digits2_pos m) + e)%Z by lia.
    rewrite Hc. replace (e - (e + -52))%Z with 52%Z by lia.
    unfold shr. cbn [shr_record_of_loc]. rewrite shr_52. f_equal. lia. }
  rewrite H1. cbn [shr_m loc_of_shr_record round_nearest_even].
  assert (H2 : shr_fexp prec emax (Z.pos m) e loc_Exact
               = ({| shr_m := Z.pos m; shr_r := false; shr_s := false |}, e)).
  { unfold shr_fexp, Zdigits2. rewrite Hc, Z.sub_diag. reflexivity. }
  rewrite H2. cbn [shr_m]. rewrite He. now rewrite xorb_false_r.
Qed.

Lemma float_mul_one (x : float) : (x * 1)%float = x.
Proof.
  rewrite <- (FloatAxioms.SF2Prim_Prim2SF (x * 1)), FloatAxioms.mul_spec.
  rewrite <- (FloatAxioms.SF2Prim_Prim2SF x) at 2. f_equal.
  pose proof (FloatAxioms.Prim2SF_valid x) as Hv.
  change (Prim2SF 1) with (S754_finite false 4503599627370496 (-52)).
  destruct (Prim2SF x) as [s|s| |s m e].
  - cbn. now rewrite xorb_false_r.
  - cbn. now rewrite xorb_false_r.
  - reflexivity.
  - now apply SF64mul_one.
Qed.

(** ** The stages on the calculator *)

Lemma all_some_map {A B} (f : A -> option B) (g : A -> B) (xs : list A) :
  (forall x, In x xs -> f x = Some (g x)) ->
  all_some f xs = Some (map g xs).
Proof.
  induction xs as [|x xs IH]; intros H; [reflexivity |].
  cbn [all_some map]. rewrite (H x (or_introl eq_refl)), IH; [reflexivity |].
  intros y Hy. apply H. now right.
Qed.

Lemma combine_repeat_nil {A B} (f : A -> B) (g : A * list B -> list B)
    (xs : list A) :
  (forall x, g (x, []) = [f x]) ->
  map g (combine xs (repeat [] (List.length xs))) = map (fun x => [f x]) xs.
Proof.
  intros Hg. induction xs as [|x xs IH]; [reflexivity |].
  cbn [List.length repeat combine map]. now rewrite Hg, IH.
Qed.

Lemma cell_envs_single (e : QgsRasterCalculatorEntry) (b : band) (n : nat) :
  layer_band (e_raster e) (e_bandNumber e) = Some b ->
  List.length (band_cells b) = n ->
  cell_envs [e] n = Some (map (fun p => [(e_ref e, p)]) (band_cells b)).
Proof.
  intros Hb Hn. cbn [cell_envs]. rewrite Hb, Hn, Nat.eqb_refl. f_equal.
  rewrite <- Hn.
  apply (combine_repeat_nil (fun p => (e_ref e, p))
           (fun '(p, env) => (e_ref e, p) :: env)).
  reflexivity.
Qed.

(** The layer opened from a single-band raster has that band as band 1. *)
Lemma layer_band_single (l : layer) (r : raster) (b : band) :
  l_data l = Some r -> r_bands r = [b] -> layer_band l 1 = Some b.
Proof. intros Hl Hb. unfold layer_band. now rewrite Hl, Hb. Qed.

Lemma eval_toa_float (fln : float -> option float) (ml al : pyfloat)
    (p : pixel float) :
  eval (float_arith fln) [("b10@1", p)]
    (EAdd (EMul (EMul (ENum (fst (printed ml)) (snd (printed ml))) (ENum 10 1))
                (ERef "b10@1"))
          (ENum (fst (printed al)) (snd (printed al))))
  = Some (float_of ml * pixel_float p + float_of al)%float.
Proof.
  cbn [eval bind2 option_map env_lookup float_arith a_lit a_add a_mul
       String.eqb Ascii.eqb Bool.eqb].
  change (float_lit 10 1) with 1%float. fold (float_of ml) (float_of al).
  rewrite float_mul_one. destruct p; reflexivity.
Qed.

(** What the calculator answers to the calculator object of the TOA
    stage. *)
Lemma raster_engine_toa (fln : float -> option float) (band_layer : layer)
    (ml al : pyfloat) (r : raster) (b : band) (p : string) :
  py_plain ml = true -> py_plain al = true ->
  l_data band_layer = Some r -> r_bands r = [b] ->
  List.length (band_cells b) = N.to_nat (r_width r * r_height r) ->
  raster_engine fln
    (calculator_of (toa_formula ml al) p [toa_entry band_layer]
       (toa_entry band_layer))
  = (0%Z, Dataset (toa_raster ml al r b)).
Proof.
  intros Hml Hal Hl Hb Hn. unfold raster_engine, toa_entry, create_raster_entry.
  cbn [c_formula c_entries c_width c_height c_extent calculator_of].
  rewrite parse_toa_formula by assumption.
  cbn [refs app forallb map existsb e_ref e_raster String.append].
  change (String.eqb "b10@1" "b10@1") with true. cbn [orb andb negb].
  unfold layer_extent, layer_width, layer_height. rewrite Hl.
  rewrite (cell_envs_single _ b);
    [| now apply (layer_band_single band_layer r) | exact Hn].
  cbn [e_ref].
  match goal with |- context [all_some ?f ?xs] =>
    rewrite (all_some_map f
               (fun env => match env with
                           | (_, px) :: _ =>
                               (float_of ml * pixel_float px + float_of al)%float
                           | [] => 0%float
                           end) xs)
  end.
  - rewrite map_map. reflexivity.
  - intros env Hin. apply in_map_iff in Hin as (px & <- & _).
    apply eval_toa_float.
Qed.

(** One entry, an output path that is free or can be freed, statistics
    that are returned and an engine that answers 0 with a raster:
    [raster_calculation] returns the layer of that raster. *)
Lemma raster_calculation_single_run (f name : string)
    (en : QgsRasterCalculatorEntry) (w : world)
    (rin r : raster) (stin st : QgsRasterBandStats) :
  let p := output_path_of (w_home w) name in
  l_data (e_raster en) = Some rin -> w_stats w rin = Ok stin ->
  deletable p w ->
  w_engine w (calculator_of f p [en] en) = (0%Z, Dataset r) ->
  w_stats w r = Ok st ->
  exists w',
    raster_calculation f [en] name w = (Ok (mkLayer p name (Some r) None), w')
    /\ w_fs w' = <[p := mkNode (Some r) Removable]> (w_fs w)
    /\ same_host w w'
    /\ exists t, w_trace w' = (w_trace w ++ CallExists p :: t)%list.
Proof.
  intros p Hin Hsin Hdel He Hst.
  destruct (w_fs w !! p) as [n|] eqn:Hp.
  - destruct (raster_calculation_single_rerun f name en w n rin r stin st
                Hin Hsin Hp (Hdel n Hp) He Hst)
      as (w' & Hrun & Hfs & Hh & t & Ht).
    exists w'. split; [exact Hrun |]. split; [| split; [exact Hh | eauto]].
    fold p in Hfs. now rewrite Hfs, insert_delete_eq.
  - rewrite raster_calculation_unfold. fold p. unfold bind at 1.
    rewrite (cleanup_absent p w Hp).
    unfold after_cleanup. simpl for_each. unfold bind.
    rewrite (validate_entry_stats en _ rin Hin).
    cbn [w_stats set_fs record]. rewrite Hsin.
    cbn [first_entry ret]. unfold logMessage.
    rewrite processCalculation_run.
    cbn [w_engine set_fs record add_log]. rewrite He.
    cbn [fst snd negb Z.eqb].
    erewrite validate_output_valid;
      [| cbn; rewrite lookup_insert_eq; reflexivity | cbn; exact Hst].
    eexists. split; [reflexivity |].
    cbn. repeat split.
    eexists. rewrite <- !app_assoc. reflexivity.
Qed.




(** ** The BT stage on the calculator *)

Lemma float_pos_nonzero (y : float) :
  (0 <? y)%float = true -> (y =? 0)%float = false.
Proof.
  rewrite FloatAxioms.ltb_spec, FloatAxioms.eqb_spec.
  change (Prim2SF 0) with (S754_zero false).
  destruct (Prim2SF y) as [s|[]| |[] m e]; cbn; congruence.
Qed.

Lemma ln_sign_sound : ln_sound ln_sign.
Proof.
  split; [reflexivity |]. intros x Hx. exists 1%float.
  unfold ln_sign. now rewrite Hx.
Qed.

Lemma eval_bt_float (fln : float -> option float) (p : pixel float) :
  eval (float_arith fln) [("toa@1", p)]
    (ESub (EDiv (ENum 132108 2)
             (ELn (EAdd (EDiv (ENum 77489 2)
                           (EAdd (ERef "toa@1") (ENum 1 6)))
                     (ENum 1 0))))
       (ENum 27315 2))
  = bt_cell fln (pixel_float p).
Proof.
  cbn [eval bind2 option_map env_lookup float_arith a_lit a_add a_sub a_div
       a_ln String.eqb Ascii.eqb Bool.eqb].
  change (float_lit 132108 2) with 1321.08%float.
  change (float_lit 77489 2) with 774.89%float.
  change (float_lit 1 6) with 0.000001%float.
  change (float_lit 1 0) with 1%float.
  change (float_lit 27315 2) with 273.15%float.
  replace (pixel_value (float_arith fln) p) with (pixel_float p)
    by (destruct p; reflexivity).
  unfold bt_cell, float_div, bt_log_argument.
  change PrimFloat.zero with 0%float.
  destruct (pixel_float p + 0.000001 =? 0)%float; [reflexivity |].
  cbn [bind2 a_add float_arith].
  destruct (fln _) as [lg|]; [| reflexivity].
  cbn [bind2]. destruct (lg =? 0)%float; reflexivity.
Qed.

(** Under the computed guard the formula has a value at the cell. *)
Lemma bt_cell_defined (fln : float -> option float) (toa : float) :
  ln_sound fln -> bt_guard_float toa = true ->
  exists y, bt_cell fln toa = Some y.
Proof.
  intros [_ Hln] Hg. apply andb_true_iff in Hg as [Hd Ha].
  apply negb_true_iff in Hd. destruct (Hln _ Ha) as (lg & Hlg & Hpos).
  unfold bt_cell. rewrite Hd, Hlg, (float_pos_nonzero lg Hpos). eauto.
Qed.

Lemma all_some_defined {A B} (f : A -> option B) (xs : list A) :
  Forall (fun x => exists y, f x = Some y) xs ->
  exists ys, all_some f xs = Some ys /\ Forall2 (fun x y => f x = Some y) xs ys.
Proof.
  induction 1 as [|x xs [y Hy] _ (ys & Hys & Hall)].
  - exists []. split; [reflexivity | constructor].
  - exists (y :: ys). cbn [all_some]. rewrite Hy, Hys.
    split; [reflexivity | now constructor].
Qed.

Lemma all_some_undefined {A B} (f : A -> option B) (xs : list A) (x : A) :
  In x xs -> f x = None -> all_some f xs = None.
Proof.
  induction xs as [|a xs IH]; intros Hin Hx; [contradiction |].
  cbn [all_some]. destruct Hin as [-> | Hin]; [now rewrite Hx |].
  rewrite (IH Hin Hx). now destruct (f a).
Qed.

(** What the calculator answers to the calculator object of the BT stage
    when the formula has a value at every cell. *)
Lemma raster_engine_bt (fln : float -> option float) (toa_layer : layer)
    (r : raster) (b : band) (p : string) :
  l_data toa_layer = Some r -> r_bands r = [b] ->
  List.length (band_cells b) = N.to_nat (r_width r * r_height r) ->
  Forall (fun px => exists y, bt_cell fln (pixel_float px) = Some y)
    (band_cells b) ->
  exists ys,
    raster_engine fln
      (calculator_of bt_formula p [bt_entry toa_layer] (bt_entry toa_layer))
    = (0%Z, Dataset (Raster (r_extent r) (r_width r) (r_height r) [FloatBand ys]))
    /\ Forall2 (fun px y => bt_cell fln (pixel_float px) = Some y)
         (band_cells b) ys.
Proof.
  intros Hl Hb Hn Hall. unfold raster_engine, bt_entry, create_raster_entry.
  cbn [c_formula c_entries c_width c_height c_extent calculator_of].
  rewrite parse_bt_formula.
  cbn [refs app forallb map existsb e_ref e_raster String.append].
  change (String.eqb "toa@1" "toa@1") with true. cbn [orb andb negb].
  unfold layer_extent, layer_width, layer_height. rewrite Hl.
  rewrite (cell_envs_single _ b);
    [| now apply (layer_band_single toa_layer r) | exact Hn].
  cbn [e_ref].
  destruct (all_some_defined (fun px => bt_cell fln (pixel_float px))
              (band_cells b) Hall) as (ys & Hys & H2).
  exists ys. split; [| exact H2].
  assert (E : all_some
                (fun env : pixel_env float =>
                   eval (float_arith fln) env
                     (ESub (EDiv (ENum 132108 2)
                              (ELn (EAdd (EDiv (ENum 77489 2)
                                            (EAdd (ERef "toa@1") (ENum 1 6)))
                                      (ENum 1 0))))
                        (ENum 27315 2)))
                (map (fun px => [("toa@1", px)]) (band_cells b))
              = Some ys).
  { rewrite <- Hys. clear. induction (band_cells b) as [|px l IH]; [reflexivity |].
    cbn [map all_some]. now rewrite eval_bt_float, IH. }
  now rewrite E.
Qed.

Lemma guard_from_spec (k : nat) (base n : Z) :
  guard_from k base = true ->
  (base <= n < base + 2 ^ Z.of_nat k)%Z ->
  bt_guard_float (toa_of_dn n) = true.
Proof.
  revert base. induction k as [|k IH]; intros base Hg Hn.
  - cbn [guard_from] in Hg. change (2 ^ Z.of_nat 0)%Z with 1%Z in Hn.
    now replace n with base by lia.
  - cbn [guard_from] in Hg. apply andb_true_iff in Hg as [H1 H2].
    rewrite Nat2Z.inj_succ, Z.pow_succ_r in Hn by lia.
    destruct (Z_lt_ge_dec n (base + 2 ^ Z.of_nat k)).
    + apply (IH base H1). lia.
    + apply (IH _ H2). lia.
Qed.

(** Checked by computation on all 65536 digital numbers. *)
Lemma guard_on_16_bits (n : Z) :
  (0 <= n < 65536)%Z -> bt_guard_float (toa_of_dn n) = true.
Proof.
  intros Hn. apply (guard_from_spec 16 0); [vm_compute; reflexivity | exact Hn].
Qed.






(** ** The two stages in a run *)

Lemma output_paths_differ (w : world) : toa_path w <> bt_path w.
Proof.
  unfold toa_path, bt_path, output_path_of, path_join. simpl.
  destruct (_ || _); intros H; apply append_inj_l in H; discriminate.
Qed.

Lemma compute_styled_unfold (path : string) (w : world) :
  compute_styled path w
  = match w_fs w !! path ≫= n_raster with
    | None =>
        (Raise (Exception "Invalid Band 10 file. Check file format and path."),
         record (CallOpen path "B10_RAW") w)
    | Some rin =>
        match raster_calculation (toa_formula ml_default al_default)
                [toa_entry (mkLayer path "B10_RAW" (Some rin) None)]
                "TOA_Radiance"
                (add_log Info "Calculating TOA..."
                   (record (CallOpen path "B10_RAW") w)) with
        | (Raise e, wb) => (Raise e, wb)
        | (Ok toa_l, wb) =>
            match raster_calculation bt_formula [bt_entry toa_l]
                    "BrightnessTemp"
                    (add_log Info ("BT Formula: " ++ bt_formula)
                       (add_log Info "Calculating BT..." wb)) with
            | (Raise e, wc) => (Raise e, wc)
            | (Ok bt_l, wc) =>
                (Ok (mkLayer (l_source bt_l) (l_name bt_l) (l_data bt_l)
                       (Some thermal_renderer)),
                 record (CallRepaint (l_source bt_l)) wc)
            end
        end
    end.
Proof.
  unfold compute_styled, bind, QgsRasterLayer, isValid. cbn [l_data negb].
  destruct (w_fs w !! path ≫= n_raster) as [rin|]; [| reflexivity].
  cbn [negb logMessage]. unfold calculate_toa, toa_entry.
  destruct (raster_calculation _ _ _ _) as [[toa_l|e] wb]; [| reflexivity].
  unfold calculate_bt, bind, logMessage, bt_entry.
  destruct (raster_calculation _ _ _ _) as [[bt_l|e] wc]; reflexivity.
Qed.

(** The second run in the demo world, computed: both files are deleted
    and written again, and the project holds the same layer twice. *)
Example demo_second_run :
  let w2 := snd (calculate_lst "/data/B10.tif" demo_world_after_run) in
  w_fs w2 = w_fs demo_world_after_run
  /\ w_bar w2 = [(Success, "Success", "LST calculation completed!");
                 (Success, "Success", "LST calculation completed!")]
  /\ map l_data (w_layers w2) = [Some demo_bt; Some demo_bt]
  /\ List.filter (fun c => match c with CallRemove _ => true | _ => false end)
       (w_trace w2)
     = [CallRemove "/proj/TOA_Radiance.tif";
        CallRemove "/proj/BrightnessTemp.tif"].
Proof. repeat split; vm_compute; reflexivity. Qed.

(** * Further properties of the plugin *)

(** ** The band 10 file *)

(** X2. A band 10 path that does not open as a raster (no file, or a file
    that is no raster) ends the run at once: the only call made is the
    attempt to open it, nothing is deleted or written, the engine is not
    run, and the error is reported. *)
Theorem invalid_band10_aborts_early (path : string) (w : world) :
  w_fs w !! path ≫= n_raster = None ->
  calculate_lst path w
  = (Ok tt,
     add_log Critical ("Error: " ++ exn_msg invalid_band10)
       (add_bar Critical "Error" (exn_msg invalid_band10)
          (record (CallOpen path "B10_RAW") w))).
Proof.
  intros H. rewrite calculate_lst_outcome, compute_styled_unfold, H.
  reflexivity.
Qed.

Lemma invalid_band10_aborts_early_witness :
  let w' := snd (calculate_lst "/data/missing.tif" demo_world) in
  w_fs w' = w_fs demo_world
  /\ w_trace w' = [CallOpen "/data/missing.tif" "B10_RAW"]
  /\ w_layers w' = [].
Proof.
  rewrite (invalid_band10_aborts_early "/data/missing.tif" demo_world eq_refl).
  repeat split.
Defined.

(** ** The validation loop *)

Lemma engine_calls_app (t1 t2 : list call) :
  engine_calls (t1 ++ t2) = (engine_calls t1 ++ engine_calls t2)%list.
Proof.
  induction t1 as [|c t1 IH]; [reflexivity |].
  destruct c; simpl; now rewrite IH.
Qed.

Lemma engine_calls_statistics (es : list QgsRasterCalculatorEntry) :
  engine_calls (map (fun e => CallStatistics (l_source (e_raster e))) es) = [].
Proof. induction es; [reflexivity | exact IHes]. Qed.

Lemma for_each_app {A} (xs ys : list A) (body : A -> M unit) (w : world) :
  for_each (xs ++ ys) body w
  = bind (for_each xs body) (fun _ => for_each ys body) w.
Proof.
  revert w. induction xs as [|x xs IH]; intros w; [reflexivity |].
  simpl. unfold bind in *.
  destruct (body x w) as [[[]|e] w1]; [apply IH | reflexivity].
Qed.

Lemma for_each_validate_valid (es : list QgsRasterCalculatorEntry)
    (sts : list QgsRasterBandStats) (w : world) :
  Forall2 (stats_known (w_stats w)) es sts ->
  exists w',
    for_each es validate_entry w = (Ok tt, w')
    /\ w_log w' = (w_log w ++ map (fun '(e, st) => (Info, input_line e st))
                                 (combine es sts))%list
    /\ w_trace w' = (w_trace w
                     ++ map (fun e => CallStatistics (l_source (e_raster e))) es)%list
    /\ w_fs w' = w_fs w
    /\ same_host w w'.
Proof.
  intros H. revert w H. induction es as [|e es IH] in sts |- *; intros w H.
  - inversion H; subst. exists w. simpl. rewrite !app_nil_r.
    repeat split.
  - inversion H as [|e' st es' sts' (r & Hr & Hs) Hrest]; subst.
    simpl for_each. unfold bind.
    rewrite (validate_entry_stats e w r Hr), Hs.
    destruct (IH sts'
                (add_log Info (input_line e st)
                   (record (CallStatistics (l_source (e_raster e))) w)) Hrest)
      as (w' & Hrun & Hlog & Htr & Hfs & Hh).
    exists w'. split; [exact Hrun |].
    cbn [w_log w_trace w_fs add_log record] in Hlog, Htr, Hfs.
    rewrite Hlog, Htr, Hfs, <- !app_assoc. repeat split; apply Hh.
Qed.

(** X3. The entries are validated in list order, and each valid entry
    whose statistics are returned adds one statistics call and one log
    line, in that order; the files are not touched. *)
Theorem validation_logs_each_entry (es : list QgsRasterCalculatorEntry)
    (sts : list QgsRasterBandStats) (w : world) :
  Forall2 (stats_known (w_stats w)) es sts ->
  let w' := snd (for_each es validate_entry w) in
  fst (for_each es validate_entry w) = Ok tt
  /\ w_log w' = (w_log w ++ map (fun '(e, st) => (Info, input_line e st))
                               (combine es sts))%list
  /\ w_trace w' = (w_trace w
                   ++ map (fun e => CallStatistics (l_source (e_raster e))) es)%list
  /\ w_fs w' = w_fs w.
Proof.
  intros H. destruct (for_each_validate_valid es sts w H)
    as (w1 & Hrun & Hlog & Htr & Hfs & _).
  rewrite Hrun. repeat split; assumption.
Qed.

Lemma validation_logs_each_entry_witness :
  w_log (snd (for_each [toa_entry demo_layer; bt_entry demo_layer]
                validate_entry demo_world))
  = [(Info, "Input b10@1 - Min: 0.0, Max: 255.0");
     (Info, "Input toa@1 - Min: 0.0, Max: 255.0")].
Proof.
  apply (validation_logs_each_entry
           [toa_entry demo_layer; bt_entry demo_layer]
           [mkStats "0.0" "255.0"; mkStats "0.0" "255.0"] demo_world).
  repeat constructor; exists demo_band10; split; reflexivity.
Defined.

Lemma validate_entry_invalid (e : QgsRasterCalculatorEntry) (w : world) :
  isValid (e_raster e) = false ->
  validate_entry e w
  = (Raise (Exception ("Invalid input layer: " ++ l_source (e_raster e))), w).
Proof. intros H. unfold validate_entry. now rewrite H. Qed.

(** X4. An invalid entry stops [raster_calculation] with the "invalid
    input layer" exception naming the layer's source, whatever follows it
    in the list: the engine is not run.  The deletion block has already
    run by then, so a stale output file is gone although nothing will
    replace it. *)
Theorem invalid_entry_stops_before_engine (f name : string)
    (pre post : list QgsRasterCalculatorEntry) (e : QgsRasterCalculatorEntry)
    (sts : list QgsRasterBandStats) (w w0 : world) :
  let p := output_path_of (w_home w) name in
  cleanup_existing p w = (Ok tt, w0) ->
  Forall2 (stats_known (w_stats w)) pre sts ->
  isValid (e_raster e) = false ->
  let w' := snd (raster_calculation f (pre ++ e :: post) name w) in
  fst (raster_calculation f (pre ++ e :: post) name w)
  = Raise (Exception ("Invalid input layer: " ++ l_source (e_raster e)))
  /\ engine_calls (w_trace w') = engine_calls (w_trace w)
  /\ w_fs w' = delete p (w_fs w).
Proof.
  intros p Hc Hpre He.
  pose proof (respects_run _ _ _ _ _ (framed_cleanup_existing p) Hc)
    as (_ & _ & Hst & _).
  rewrite <- Hst in Hpre.
  destruct (for_each_validate_valid pre sts w0 Hpre)
    as (w1 & Hrun & _ & Htr & Hfs & _).
  assert (Hrc : raster_calculation f (pre ++ e :: post) name w
                = (Raise (Exception ("Invalid input layer: "
                                       ++ l_source (e_raster e))), w1)).
  { rewrite raster_calculation_unfold. fold p. unfold bind at 1. rewrite Hc.
    unfold after_cleanup. unfold bind at 1. rewrite for_each_app.
    unfold bind at 1. rewrite Hrun. simpl for_each. unfold bind at 1.
    now rewrite (validate_entry_invalid e w1 He). }
  rewrite Hrc. cbn [fst snd].
  split; [reflexivity |]. rewrite Htr, Hfs, engine_calls_app.
  rewrite engine_calls_statistics, app_nil_r.
  apply cleanup_ok_inv in Hc as [[Ha ->] | (n & Hn & Hr & ->)];
    cbn [w_trace w_fs record set_fs]; rewrite !engine_calls_app;
    cbn [engine_calls]; rewrite !app_nil_r; split; try reflexivity.
  now rewrite delete_id.
Qed.

Lemma invalid_entry_stops_before_engine_witness :
  let w := demo_world_with_stale Removable in
  let bad := mkLayer "/data/none.tif" "B10_RAW" None None in
  let r := raster_calculation (toa_formula ml_default al_default)
             [toa_entry bad] "TOA_Radiance" w in
  fst r = Raise (Exception "Invalid input layer: /data/none.tif")
  /\ engine_calls (w_trace (snd r)) = []
  /\ w_fs (snd r) = delete "/proj/TOA_Radiance.tif" (w_fs w).
Proof.
  apply (invalid_entry_stops_before_engine
           (toa_formula ml_default al_default) "TOA_Radiance" [] []
           (toa_entry (mkLayer "/data/none.tif" "B10_RAW" None None)) []
           (demo_world_with_stale Removable)
           (snd (cleanup_existing "/proj/TOA_Radiance.tif"
                   (demo_world_with_stale Removable)))).
  - reflexivity.
  - constructor.
  - reflexivity.
Defined.

(** X5. With no entry at all, [raster_calculation] still deletes a stale
    output file and then stops at [entries[0]] with an [IndexError]: the
    engine is not run. *)
Theorem empty_entries_raise_index_error (f name : string) (w w0 : world) :
  cleanup_existing (output_path_of (w_home w) name) w = (Ok tt, w0) ->
  raster_calculation f [] name w
  = (Raise (Exn IndexErrorC "list index out of range"), w0)
  /\ engine_calls (w_trace w0) = engine_calls (w_trace w)
  /\ w_fs w0 = delete (output_path_of (w_home w) name) (w_fs w).
Proof.
  intros Hc. rewrite raster_calculation_unfold. unfold bind at 1. rewrite Hc.
  split; [reflexivity |].
  apply cleanup_ok_inv in Hc as [[Ha ->] | (n & Hn & Hr & ->)];
    cbn [w_trace w_fs record set_fs]; rewrite !engine_calls_app;
    cbn [engine_calls]; rewrite !app_nil_r; split; try reflexivity.
  now rewrite delete_id.
Qed.

Lemma empty_entries_raise_index_error_witness :
  fst (raster_calculation bt_formula [] "BrightnessTemp" demo_world)
  = Raise (Exn IndexErrorC "list index out of range").
Proof.
  pose proof (empty_entries_raise_index_error bt_formula "BrightnessTemp"
                demo_world
                (snd (cleanup_existing "/proj/BrightnessTemp.tif" demo_world))
                eq_refl) as [H _].
  now rewrite H.
Defined.

(** ** Runs of the engine *)

Lemma same_engine_calls_refl (w : world) : same_engine_calls w w.
Proof. reflexivity. Qed.

Lemma same_engine_calls_trans (w1 w2 w3 : world) :
  same_engine_calls w1 w2 -> same_engine_calls w2 w3 -> same_engine_calls w1 w3.
Proof. unfold same_engine_calls. congruence. Qed.

(** Closes [same_engine_calls w w'] for a world [w'] written out. *)
Ltac quiet_world :=
  unfold same_engine_calls;
  cbn [w_trace record add_log set_fs add_bar add_layer snd];
  rewrite ?engine_calls_app; cbn [engine_calls]; rewrite ?app_nil_r;
  reflexivity.

Lemma quiet_cleanup_existing (p : string) :
  respects same_engine_calls (cleanup_existing p).
Proof.
  intros w. destruct (w_fs w !! p) as [n|] eqn:H.
  - destruct (n_removal n) as [|e] eqn:Hr.
    + rewrite (cleanup_removable p w n H Hr). quiet_world.
    + rewrite (cleanup_refused p w n e H Hr). quiet_world.
  - rewrite (cleanup_absent p w H). quiet_world.
Qed.

Lemma quiet_validate_entry (e : QgsRasterCalculatorEntry) :
  respects same_engine_calls (validate_entry e).
Proof.
  intros w. destruct (l_data (e_raster e)) as [r|] eqn:H.
  - rewrite (validate_entry_stats e w r H).
    destruct (w_stats w r); quiet_world.
  - rewrite validate_entry_invalid by (unfold isValid; now rewrite H).
    quiet_world.
Qed.

Lemma quiet_validation (es : list QgsRasterCalculatorEntry) :
  respects same_engine_calls (for_each es validate_entry).
Proof.
  apply respects_for_each;
    [ apply same_engine_calls_refl | apply same_engine_calls_trans
    | apply quiet_validate_entry ].
Qed.

Lemma validate_output_outcome (p name : string) (w : world) :
  validate_output p name w
  = match w_fs w !! p ≫= n_raster with
    | None => (Raise (output_not_created p), record (CallOpen p name) w)
    | Some r =>
        match w_stats w r with
        | Ok st =>
            (Ok (mkLayer p name (Some r) None),
             add_log Info ("Output " ++ name ++ " - Min: " ++ minimumValue st
                             ++ ", Max: " ++ maximumValue st)
               (record (CallStatistics p) (record (CallOpen p name) w)))
        | Raise e =>
            (Raise e, record (CallStatistics p) (record (CallOpen p name) w))
        end
    end.
Proof.
  destruct (w_fs w !! p ≫= n_raster) as [r|] eqn:H;
    [| now apply validate_output_invalid].
  destruct (w_stats w r) as [st|e] eqn:Hs;
    [now apply validate_output_valid |].
  unfold validate_output, bind, QgsRasterLayer, isValid, bandStatistics.
  simpl. rewrite H. simpl. now rewrite Hs.
Qed.

Lemma quiet_validate_output (p name : string) :
  respects same_engine_calls (validate_output p name).
Proof.
  intros w. rewrite validate_output_outcome.
  destruct (w_fs w !! p ≫= n_raster) as [r|]; [| quiet_world].
  destruct (w_stats w r); quiet_world.
Qed.

Lemma validation_ok_valid (es : list QgsRasterCalculatorEntry) (w w1 : world) :
  for_each es validate_entry w = (Ok tt, w1) ->
  Forall (fun e => isValid (e_raster e) = true) es.
Proof.
  revert w. induction es as [|e es IH]; intros w H; [constructor |].
  simpl in H. apply bind_ok_inv in H as ([] & w0 & He & H).
  constructor; [| now apply (IH w0)].
  destruct (isValid (e_raster e)) eqn:Hv; [reflexivity |].
  rewrite (validate_entry_invalid e w Hv) in He. discriminate.
Qed.

(** The ways [after_cleanup] ends. *)
Lemma after_cleanup_outcome (f p name : string)
    (es : list QgsRasterCalculatorEntry) (w : world) :
  after_cleanup f es p name w
  = match for_each es validate_entry w with
    | (Raise e, w1) => (Raise e, w1)
    | (Ok _, w1) =>
        match es with
        | [] => (Raise (Exn IndexErrorC "list index out of range"), w1)
        | e0 :: _ =>
            let calc := calculator_of f p es e0 in
            let wl := add_log Info ("Executing formula: " ++ f) w1 in
            let w2 := set_fs (fun fs => file_of (snd (w_engine wl calc)) fs p)
                        (record (CallProcess calc) wl) in
            if negb (fst (w_engine wl calc) =? 0)%Z
            then (Raise (gdal_error (fst (w_engine wl calc))), w2)
            else validate_output p name w2
        end
    end.
Proof.
  unfold after_cleanup, bind at 1.
  destruct (for_each es validate_entry w) as [[[]|e] w1]; [| reflexivity].
  destruct es as [|e0 rest]; [reflexivity |].
  unfold bind. cbn [first_entry ret logMessage].
  rewrite processCalculation_run. cbn [fst snd c_output calculator_of].
  destruct (negb _); reflexivity.
Qed.

(** What [after_cleanup] does with the engine. *)
Lemma after_cleanup_engine_calls (f p name : string)
    (es : list QgsRasterCalculatorEntry) (w : world) :
  let r := after_cleanup f es p name w in
  (engine_calls (w_trace (snd r)) = engine_calls (w_trace w)
   /\ forall l, fst r <> Ok l)
  \/ exists e0,
       head es = Some e0
       /\ Forall (fun e => isValid (e_raster e) = true) es
       /\ engine_calls (w_trace (snd r))
          = (engine_calls (w_trace w) ++ [calculator_of f p es e0])%list.
Proof.
  cbn zeta. rewrite after_cleanup_outcome.
  destruct (for_each es validate_entry w) as [[[]|e] w1] eqn:Hv;
    pose proof (respects_run _ _ _ _ _ (quiet_validation es) Hv) as Hq1;
    unfold same_engine_calls in Hq1.
  2: { left. split; [exact Hq1 | discriminate]. }
  pose proof (validation_ok_valid es w w1 Hv) as Hall.
  destruct es as [|e0 rest].
  { left. split; [exact Hq1 | discriminate]. }
  right. exists e0. split; [reflexivity | split; [exact Hall |]].
  cbn zeta. destruct (negb _).
  - cbn [snd w_trace set_fs record add_log].
    rewrite engine_calls_app, Hq1. reflexivity.
  - match goal with |- context [validate_output p name ?w2] =>
      pose proof (quiet_validate_output p name w2) as Hq2
    end.
    unfold same_engine_calls in Hq2. rewrite Hq2.
    cbn [w_trace set_fs record add_log].
    rewrite engine_calls_app, Hq1. reflexivity.
Qed.

Lemma raster_calculation_engine_calls (f name : string)
    (es : list QgsRasterCalculatorEntry) (w : world) :
  let p := output_path_of (w_home w) name in
  let r := raster_calculation f es name w in
  (engine_calls (w_trace (snd r)) = engine_calls (w_trace w)
   /\ forall l, fst r <> Ok l)
  \/ exists e0,
       head es = Some e0
       /\ Forall (fun e => isValid (e_raster e) = true) es
       /\ engine_calls (w_trace (snd r))
          = (engine_calls (w_trace w) ++ [calculator_of f p es e0])%list.
Proof.
  intros p r. unfold r. rewrite raster_calculation_unfold. fold p.
  unfold bind.
  destruct (cleanup_existing p w) as [[[]|e] w0] eqn:Hc;
    pose proof (respects_run _ _ _ _ _ (quiet_cleanup_existing p) Hc) as Hq0;
    unfold same_engine_calls in Hq0.
  2: { left. split; [exact Hq0 | discriminate]. }
  destruct (after_cleanup_engine_calls f p name es w0)
    as [[H1 H2] | (e0 & Hh & Hall & H)].
  - left. split; [now rewrite H1 | exact H2].
  - right. exists e0. rewrite H, Hq0. auto.
Qed.

(** X6. One call of [raster_calculation] runs the engine at most once, and
    only after every entry has passed validation; the calculator it runs
    carries the formula, the entries and the output path it was given, the
    format GTiff and the extent and size of the first entry.  A call that
    returns a layer has run the engine exactly once. *)
Theorem engine_run_at_most_once (f name : string)
    (es : list QgsRasterCalculatorEntry) (w : world) :
  let p := output_path_of (w_home w) name in
  let r := raster_calculation f es name w in
  (engine_calls (w_trace (snd r)) = engine_calls (w_trace w)
   /\ forall l, fst r <> Ok l)
  \/ exists e0,
       head es = Some e0
       /\ Forall (fun e => isValid (e_raster e) = true) es
       /\ engine_calls (w_trace (snd r))
          = (engine_calls (w_trace w)
             ++ [mkCalculator f p "GTiff" (layer_extent (e_raster e0))
                   (layer_width (e_raster e0)) (layer_height (e_raster e0)) es])%list.
Proof. apply raster_calculation_engine_calls. Qed.

(** ** The files a run touches *)

Lemma same_file_at_refl (q : string) (w : world) : same_file_at q w w.
Proof. reflexivity. Qed.

Lemma same_file_at_trans (q : string) (w1 w2 w3 : world) :
  same_file_at q w1 w2 -> same_file_at q w2 w3 -> same_file_at q w1 w3.
Proof. unfold same_file_at. congruence. Qed.

Lemma other_file_cleanup_existing (q p : string) :
  q <> p -> respects (same_file_at q) (cleanup_existing p).
Proof.
  intros Hq w. unfold same_file_at. destruct (w_fs w !! p) as [n|] eqn:H.
  - destruct (n_removal n) as [|e] eqn:Hr.
    + rewrite (cleanup_removable p w n H Hr). cbn.
      now apply lookup_delete_ne.
    + now rewrite (cleanup_refused p w n e H Hr).
  - now rewrite (cleanup_absent p w H).
Qed.

Lemma other_file_validation (q : string) (es : list QgsRasterCalculatorEntry) :
  respects (same_file_at q) (for_each es validate_entry).
Proof.
  apply respects_for_each;
    [apply same_file_at_refl | apply same_file_at_trans |].
  intros e. apply respects_validate_entry;
    [apply same_file_at_refl | apply same_file_at_trans | reflexivity
    | reflexivity].
Qed.

Lemma other_file_validate_output (q p name : string) :
  respects (same_file_at q) (validate_output p name).
Proof.
  apply respects_validate_output;
    [apply same_file_at_refl | apply same_file_at_trans | reflexivity
    | reflexivity].
Qed.

Lemma file_of_other (out : written) (fs : gmap string node) (p q : string) :
  q <> p -> file_of out fs p !! q = fs !! q.
Proof.
  intros Hq. destruct out; simpl; [reflexivity | |];
    now apply lookup_insert_ne.
Qed.

Lemma other_file_after_cleanup (q f p name : string)
    (es : list QgsRasterCalculatorEntry) :
  q <> p -> respects (same_file_at q) (after_cleanup f es p name).
Proof.
  intros Hq w. rewrite after_cleanup_outcome.
  destruct (for_each es validate_entry w) as [[[]|e] w1] eqn:Hv;
    pose proof (respects_run _ _ _ _ _ (other_file_validation q es) Hv) as H1;
    [| exact H1].
  destruct es as [|e0 rest]; [exact H1 |]. cbn zeta.
  assert (H2 : forall out c,
             same_file_at q w
               (set_fs (fun fs => file_of out fs p)
                  (record c (add_log Info ("Executing formula: " ++ f) w1)))).
  { intros out c. unfold same_file_at in *. cbn.
    now rewrite file_of_other. }
  destruct (negb _); [apply H2 |].
  eapply same_file_at_trans; [apply H2 | apply other_file_validate_output].
Qed.

Lemma other_file_raster_calculation (q f name : string)
    (es : list QgsRasterCalculatorEntry) (w : world) :
  q <> output_path_of (w_home w) name ->
  same_file_at q w (snd (raster_calculation f es name w)).
Proof.
  intros Hq. rewrite raster_calculation_unfold.
  apply (respects_bind (same_file_at q) (same_file_at_trans q)).
  - now apply other_file_cleanup_existing.
  - intros _. now apply other_file_after_cleanup.
Qed.

(** X7. [raster_calculation] changes the file system at its output path
    only: every other file, the input rasters included, is as it was,
    whether the call returns or raises. *)
Theorem raster_calculation_touches_output_only (f name q : string)
    (es : list QgsRasterCalculatorEntry) (w : world) :
  q <> output_path_of (w_home w) name ->
  w_fs (snd (raster_calculation f es name w)) !! q = w_fs w !! q.
Proof. apply other_file_raster_calculation. Qed.

Lemma raster_calculation_touches_output_only_witness :
  w_fs (snd (raster_calculation (toa_formula ml_default al_default)
               [toa_entry demo_layer] "TOA_Radiance" demo_world))
    !! "/data/B10.tif"
  = Some (mkNode (Some demo_band10) Removable).
Proof.
  rewrite (raster_calculation_touches_output_only
             (toa_formula ml_default al_default) "TOA_Radiance"
             "/data/B10.tif" [toa_entry demo_layer] demo_world).
  - reflexivity.
  - discriminate.
Defined.

Lemma other_file_compute_styled (q path : string) (w : world) :
  q <> toa_path w -> q <> bt_path w ->
  same_file_at q w (snd (compute_styled path w)).
Proof.
  intros HT HB. rewrite compute_styled_unfold.
  destruct (w_fs w !! path ≫= n_raster) as [rin|]; [| reflexivity].
  destruct (raster_calculation (toa_formula ml_default al_default) _ _ _)
    as [[toa_l|e] wb] eqn:ET;
    match type of ET with
    | raster_calculation ?f ?es ?n ?w0 = _ =>
        pose proof (other_file_raster_calculation q f n es w0 HT) as H1
    end;
    rewrite ET in H1; [| exact H1].
  pose proof (respects_run _ _ _ _ _ (framed_raster_calculation _ _ _) ET)
    as (Hh & _).
  destruct (raster_calculation bt_formula _ _ _) as [[bt_l|e] wc] eqn:EB;
    match type of EB with
    | raster_calculation ?f ?es ?n ?w0 = _ =>
        pose proof (other_file_raster_calculation q f n es w0) as H2
    end;
    rewrite EB in H2; cbn [w_home add_log record] in H2;
    rewrite Hh in H2; specialize (H2 HB);
    unfold same_file_at in *; cbn [snd w_fs add_log record] in *; congruence.
Qed.

(** X8. A run of the pipeline changes the file system at the two output
    paths only, whether it succeeds or ends in the error handler: a band 10
    file that is not stored under one of the two output names is never
    modified or deleted. *)
Theorem pipeline_touches_outputs_only (path q : string) (w : world) :
  q <> toa_path w -> q <> bt_path w ->
  w_fs (snd (calculate_lst path w)) !! q = w_fs w !! q.
Proof.
  intros HT HB. pose proof (other_file_compute_styled q path w HT HB) as H.
  rewrite calculate_lst_outcome.
  destruct (compute_styled path w) as [[l|e] w1]; exact H.
Qed.

Lemma pipeline_touches_outputs_only_witness :
  w_fs (snd (calculate_lst "/data/B10.tif" demo_world)) !! "/data/B10.tif"
  = Some (mkNode (Some demo_band10) Removable).
Proof.
  rewrite (pipeline_touches_outputs_only "/data/B10.tif" "/data/B10.tif"
             demo_world); [reflexivity | discriminate | discriminate].
Defined.

(** ** The two stages in sequence *)

Lemma single_ok_engine_calls (f name : string) (en : QgsRasterCalculatorEntry)
    (w w' : world) (l : layer) :
  raster_calculation f [en] name w = (Ok l, w') ->
  engine_calls (w_trace w')
  = (engine_calls (w_trace w)
     ++ [calculator_of f (output_path_of (w_home w) name) [en] en])%list.
Proof.
  intros H. pose proof (raster_calculation_engine_calls f name [en] w) as Hc.
  cbn zeta in Hc. rewrite H in Hc. cbn [fst snd] in Hc.
  destruct Hc as [[_ Hno] | (e0 & [= <-] & _ & Hc)]; [| exact Hc].
  now contradiction (Hno l).
Qed.

(** What a run that reached the success message has done. *)
Lemma compute_styled_ok_inv (path : string) (w w' : world) (l : layer) :
  compute_styled path w = (Ok l, w') ->
  exists rin rT rB,
    let lin := mkLayer path "B10_RAW" (Some rin) None in
    let lT := mkLayer (toa_path w) "TOA_Radiance" (Some rT) None in
    let calcT := calculator_of (toa_formula ml_default al_default) (toa_path w)
                   [toa_entry lin] (toa_entry lin) in
    let calcB := calculator_of bt_formula (bt_path w)
                   [bt_entry lT] (bt_entry lT) in
    w_fs w !! path ≫= n_raster = Some rin
    /\ w_engine w calcT = (0%Z, Dataset rT)
    /\ w_engine w calcB = (0%Z, Dataset rB)
    /\ engine_calls (w_trace w') = (engine_calls (w_trace w) ++ [calcT; calcB])%list
    /\ l = mkLayer (bt_path w) "BrightnessTemp" (Some rB) (Some thermal_renderer)
    /\ w_fs w' !! toa_path w = Some (mkNode (Some rT) Removable)
    /\ w_fs w' !! bt_path w = Some (mkNode (Some rB) Removable).
Proof.
  intros Hc. rewrite compute_styled_unfold in Hc.
  destruct (w_fs w !! path ≫= n_raster) as [rin|] eqn:Hrin; [| discriminate].
  destruct (raster_calculation (toa_formula ml_default al_default) _ _ _)
    as [[toa_l|e] wb] eqn:HT; [| discriminate].
  destruct (raster_calculation bt_formula _ _ _)
    as [[bt_l|e] wc] eqn:HB; [| discriminate].
  injection Hc as <- <-.
  pose proof (respects_run _ _ _ _ _ (framed_raster_calculation _ _ _) HT)
    as (Hh & He & _).
  cbn [w_home w_engine add_log record] in Hh, He.
  pose proof (single_ok_engine_calls _ _ _ _ _ _ HT) as CT.
  pose proof (single_ok_engine_calls _ _ _ _ _ _ HB) as CB.
  apply raster_calculation_single_ok_inv in HT
    as (_ & _ & rT & _ & _ & _ & _ & HeT & _ & -> & HfT).
  apply raster_calculation_single_ok_inv in HB
    as (_ & _ & rB & _ & _ & _ & _ & HeB & _ & -> & HfB).
  cbn [w_home w_engine w_fs w_trace add_log record] in *.
  rewrite Hh in *. rewrite He in HeB.
  fold (toa_path w) in *. fold (bt_path w) in *.
  exists rin, rT, rB. cbn zeta.
  split; [reflexivity |]. split; [exact HeT |]. split; [exact HeB |].
  split.
  { rewrite engine_calls_app. cbn [engine_calls]. rewrite app_nil_r.
    rewrite CB, CT, engine_calls_app. cbn [engine_calls].
    rewrite app_nil_r, <- app_assoc. reflexivity. }
  split; [reflexivity |].
  rewrite HfB, HfT. split.
  - rewrite lookup_insert_ne by (apply not_eq_sym, output_paths_differ).
    rewrite lookup_delete_ne by (apply not_eq_sym, output_paths_differ).
    apply lookup_insert_eq.
  - apply lookup_insert_eq.
Qed.

(** X9. A run that succeeds has chained the two stages: the engine ran
    exactly twice, first the TOA formula on band 1 of the input layer under
    the name b10@1, then the BT formula on band 1 of the layer reloaded
    from the TOA output file under the name toa@1; both runs returned 0;
    both files are on disk; and the one layer added to the project is the
    styled layer reloaded from the BT output file. *)
Theorem successful_run_chains_stages (path : string) (w w' : world) :
  calculate_lst_body path w = (Ok tt, w') ->
  exists rin rT rB,
    let lin := mkLayer path "B10_RAW" (Some rin) None in
    let lT := mkLayer (toa_path w) "TOA_Radiance" (Some rT) None in
    let calcT := calculator_of (toa_formula ml_default al_default) (toa_path w)
                   [mkEntry "b10@1" lin 1] (mkEntry "b10@1" lin 1) in
    let calcB := calculator_of bt_formula (bt_path w)
                   [mkEntry "toa@1" lT 1] (mkEntry "toa@1" lT 1) in
    w_fs w !! path ≫= n_raster = Some rin
    /\ w_engine w calcT = (0%Z, Dataset rT)
    /\ w_engine w calcB = (0%Z, Dataset rB)
    /\ engine_calls (w_trace w') = (engine_calls (w_trace w) ++ [calcT; calcB])%list
    /\ w_layers w'
       = (w_layers w ++ [mkLayer (bt_path w) "BrightnessTemp" (Some rB)
                           (Some thermal_renderer)])%list
    /\ w_bar w' = (w_bar w ++ [success_entry])%list
    /\ w_fs w' !! toa_path w = Some (mkNode (Some rT) Removable)
    /\ w_fs w' !! bt_path w = Some (mkNode (Some rB) Removable).
Proof.
  intros Hbody. rewrite calculate_lst_body_split in Hbody.
  apply bind_ok_inv in Hbody as (l & w1 & Hc & Hend).
  injection Hend as <-.
  pose proof (respects_run _ _ _ _ _ (framed_compute_styled path) Hc)
    as (_ & _ & _ & Hl & Hb).
  apply compute_styled_ok_inv in Hc
    as (rin & rT & rB & Hrin & HeT & HeB & Hcalls & -> & HfT & HfB).
  exists rin, rT, rB. cbn zeta.
  cbn [w_trace w_layers w_bar w_fs add_bar add_layer record].
  rewrite engine_calls_app, Hl, Hb. cbn [engine_calls]. rewrite app_nil_r.
  repeat split; assumption.
Qed.

Lemma successful_run_chains_stages_witness :
  exists rin rT rB,
    w_fs demo_world !! "/data/B10.tif" ≫= n_raster = Some rin
    /\ length (engine_calls (w_trace demo_world_after_run)) = 2%nat
    /\ map l_data (w_layers demo_world_after_run) = [Some rB]
    /\ w_fs demo_world_after_run !! "/proj/TOA_Radiance.tif"
       = Some (mkNode (Some rT) Removable).
Proof.
  destruct (successful_run_chains_stages "/data/B10.tif" demo_world
              demo_world_after_run)
    as (rin & rT & rB & Hrin & _ & _ & Hcalls & Hl & _ & HfT & _).
  - vm_compute. reflexivity.
  - exists rin, rT, rB. rewrite Hcalls, Hl. repeat split; assumption.
Defined.

(** ** What a failure leaves behind *)

(** X10. When the TOA stage has returned its layer and the BT stage
    raises, the run ends in the error handler with no layer added, and the
    file the TOA stage wrote stays on disk with its raster: the pipeline
    does not remove the intermediate output of a run that failed. *)
Theorem bt_failure_keeps_toa_file (path : string) (w wb : world)
    (rin : raster) (toa_l : layer) (e : exn) :
  w_fs w !! path ≫= n_raster = Some rin ->
  calculate_toa (mkLayer path "B10_RAW" (Some rin) None) ml_default al_default
    (add_log Info "Calculating TOA..." (record (CallOpen path "B10_RAW") w))
  = (Ok toa_l, wb) ->
  fst (calculate_bt toa_l (add_log Info "Calculating BT..." wb)) = Raise e ->
  let w' := snd (calculate_lst path w) in
  w_bar w' = (w_bar w ++ [error_entry e])%list
  /\ w_layers w' = w_layers w
  /\ exists rT, l_data toa_l = Some rT
                /\ w_fs w' !! toa_path w = Some (mkNode (Some rT) Removable).
Proof.
  intros Hrin HT HB.
  change (raster_calculation (toa_formula ml_default al_default)
            [toa_entry (mkLayer path "B10_RAW" (Some rin) None)] "TOA_Radiance"
            (add_log Info "Calculating TOA..."
               (record (CallOpen path "B10_RAW") w)) = (Ok toa_l, wb)) in HT.
  change (fst (raster_calculation bt_formula [bt_entry toa_l] "BrightnessTemp"
                 (add_log Info ("BT Formula: " ++ bt_formula)
                    (add_log Info "Calculating BT..." wb))) = Raise e) in HB.
  pose proof (respects_run _ _ _ _ _ (framed_raster_calculation _ _ _) HT)
    as (Hh & _ & _ & HlT & HbT).
  cbn [w_home w_layers w_bar add_log record] in Hh, HlT, HbT.
  destruct (raster_calculation bt_formula _ _ _) as [r wc] eqn:EB.
  cbn [fst] in HB. subst r.
  pose proof (respects_run _ _ _ _ _ (framed_raster_calculation _ _ _) EB)
    as (_ & _ & _ & HlB & HbB).
  cbn [w_layers w_bar add_log record] in HlB, HbB.
  assert (HfB : w_fs wc !! toa_path w = w_fs wb !! toa_path w).
  { pose proof (other_file_raster_calculation (toa_path w) bt_formula
                  "BrightnessTemp" [bt_entry toa_l]
                  (add_log Info ("BT Formula: " ++ bt_formula)
                     (add_log Info "Calculating BT..." wb))) as H.
    rewrite EB in H. apply H. cbn [w_home add_log]. rewrite Hh.
    apply output_paths_differ. }
  pose proof (raster_calculation_single_ok_inv _ _ _ _ _ _ HT)
    as (_ & _ & rT & _ & _ & _ & _ & _ & _ & Hl & HfT).
  cbn [w_home w_fs add_log record] in HfT. fold (toa_path w) in HfT.
  cbn zeta. rewrite calculate_lst_outcome, compute_styled_unfold, Hrin, HT, EB.
  cbn [snd w_bar w_layers w_fs add_log add_bar].
  rewrite HbB, HbT, HlB, HlT, HfB, HfT, Hl.
  repeat split. exists rT. split; [reflexivity | apply lookup_insert_eq].
Qed.

Lemma bt_failure_keeps_toa_file_witness :
  let w' := snd (calculate_lst "/data/B10.tif" demo_world_bt_fails) in
  w_bar w'
  = [(Critical, "Error",
      "GDAL Error 3: Calculation error (e.g., division by zero)")]
  /\ w_layers w' = []
  /\ exists rT,
       Some demo_toa = Some rT
       /\ w_fs w' !! "/proj/TOA_Radiance.tif" = Some (mkNode (Some rT) Removable).
Proof.
  apply (bt_failure_keeps_toa_file "/data/B10.tif" demo_world_bt_fails
           (snd (calculate_toa demo_layer ml_default al_default
                   (add_log Info "Calculating TOA..."
                      (record (CallOpen "/data/B10.tif" "B10_RAW")
                         demo_world_bt_fails))))
           demo_band10
           (mkLayer "/proj/TOA_Radiance.tif" "TOA_Radiance" (Some demo_toa) None)
           (gdal_error 3)).
  - reflexivity.
  - vm_compute. reflexivity.
  - vm_compute. reflexivity.
Defined.

(** X11. [raster_calculation] deletes the previous output before it runs
    the engine and does not put it back: when the engine fails and leaves
    no file, the output path is empty afterwards although a file was there
    before the call. *)
Theorem failed_evaluation_loses_previous_output (f name : string)
    (e0 : QgsRasterCalculatorEntry) (rest : list QgsRasterCalculatorEntry)
    (sts : list QgsRasterBandStats) (w : world) (n : node) (code : Z) :
  let p := output_path_of (w_home w) name in
  w_fs w !! p = Some n -> n_removal n = Removable ->
  Forall2 (stats_known (w_stats w)) (e0 :: rest) sts ->
  w_engine w (calculator_of f p (e0 :: rest) e0) = (code, NoFile) ->
  code <> 0%Z ->
  let r := raster_calculation f (e0 :: rest) name w in
  fst r = Raise (gdal_error code) /\ w_fs (snd r) !! p = None.
Proof.
  intros p Hn Hr Hsts He Hcode.
  destruct (for_each_validate_valid (e0 :: rest) sts
              (set_fs (delete p) (record (CallRemove p) (record (CallExists p) w)))
              Hsts)
    as (w1 & Hrun & _ & _ & Hfs & (_ & Heng & _)).
  cbn [w_fs w_engine set_fs record] in Hfs, Heng.
  cbn zeta. rewrite raster_calculation_unfold. fold p. unfold bind.
  rewrite (cleanup_removable p w n Hn Hr), after_cleanup_outcome, Hrun.
  cbn zeta. cbn [w_engine add_log]. rewrite Heng, He. cbn [fst snd].
  rewrite (negb_eqb_nonzero code Hcode).
  split; [reflexivity |].
  cbn [snd w_fs set_fs record add_log file_of]. rewrite Hfs.
  apply lookup_delete_eq.
Qed.

Lemma failed_evaluation_loses_previous_output_witness :
  let w := set_fs (insert "/proj/TOA_Radiance.tif"
                     (mkNode (Some demo_toa) Removable))
             (demo_world_failing 3) in
  let r := raster_calculation (toa_formula ml_default al_default)
             [toa_entry demo_layer] "TOA_Radiance" w in
  fst r = Raise (gdal_error 3) /\ w_fs (snd r) !! "/proj/TOA_Radiance.tif" = None.
Proof.
  apply (failed_evaluation_loses_previous_output
           (toa_formula ml_default al_default) "TOA_Radiance"
           (toa_entry demo_layer) [] [mkStats "0.0" "255.0"]
           (set_fs (insert "/proj/TOA_Radiance.tif"
                      (mkNode (Some demo_toa) Removable))
              (demo_world_failing 3))
           (mkNode (Some demo_toa) Removable) 3%Z).
  - reflexivity.
  - reflexivity.
  - repeat constructor. exists demo_band10. split; reflexivity.
  - reflexivity.
  - discriminate.
Defined.

(** ** Band statistics in an evaluation *)

Lemma cleanup_deletable (p : string) (w : world) :
  deletable p w ->
  exists w0,
    cleanup_existing p w = (Ok tt, w0)
    /\ w_fs w0 = delete p (w_fs w)
    /\ same_host w w0
    /\ w_log w0 = w_log w
    /\ engine_calls (w_trace w0) = engine_calls (w_trace w).
Proof.
  intros Hdel. destruct (w_fs w !! p) as [n|] eqn:Hp.
  - rewrite (cleanup_removable p w n Hp (Hdel n Hp)). eexists.
    split; [reflexivity |]. cbn [w_fs w_log w_trace set_fs record].
    rewrite !engine_calls_app. cbn [engine_calls]. rewrite !app_nil_r.
    repeat split.
  - rewrite (cleanup_absent p w Hp). eexists.
    split; [reflexivity |]. cbn [w_fs w_log w_trace record].
    rewrite engine_calls_app. cbn [engine_calls]. rewrite app_nil_r.
    rewrite delete_id by exact Hp. repeat split.
Qed.

(** The statistics of an entry raise after the entries before it have
    been validated: the loop ends there. *)
Lemma validation_raises_at (pre post : list QgsRasterCalculatorEntry)
    (e : QgsRasterCalculatorEntry) (sts : list QgsRasterBandStats)
    (w : world) (r : raster) (ex : exn) :
  Forall2 (stats_known (w_stats w)) pre sts ->
  l_data (e_raster e) = Some r -> w_stats w r = Raise ex ->
  exists w',
    for_each (pre ++ e :: post) validate_entry w = (Raise ex, w')
    /\ engine_calls (w_trace w') = engine_calls (w_trace w)
    /\ w_fs w' = w_fs w.
Proof.
  intros Hpre Hr Hs.
  destruct (for_each_validate_valid pre sts w Hpre)
    as (w1 & Hrun & _ & Htr & Hfs & (_ & _ & Hst & _)).
  rewrite for_each_app. unfold bind at 1. rewrite Hrun.
  simpl for_each. unfold bind at 1.
  rewrite (validate_entry_stats e w1 r Hr), Hst, Hs.
  eexists. split; [reflexivity |].
  cbn [w_trace w_fs record]. rewrite Hfs, Htr, !engine_calls_app.
  rewrite engine_calls_statistics. cbn [engine_calls].
  rewrite !app_nil_r. split; reflexivity.
Qed.

Lemma stats_raise_in_validation (f name : string)
    (pre post : list QgsRasterCalculatorEntry) (e : QgsRasterCalculatorEntry)
    (sts : list QgsRasterBandStats) (w : world) (r : raster) (ex : exn) :
  deletable (output_path_of (w_home w) name) w ->
  Forall2 (stats_known (w_stats w)) pre sts ->
  l_data (e_raster e) = Some r -> w_stats w r = Raise ex ->
  exists w',
    raster_calculation f (pre ++ e :: post) name w = (Raise ex, w')
    /\ engine_calls (w_trace w') = engine_calls (w_trace w)
    /\ same_host w w'.
Proof.
  intros Hdel Hpre Hr Hs.
  destruct (cleanup_deletable _ _ Hdel) as (w0 & Hc & _ & Hh & _ & Hq).
  assert (Hst : w_stats w0 = w_stats w) by apply Hh.
  rewrite <- Hst in Hpre, Hs.
  destruct (validation_raises_at pre post e sts w0 r ex Hpre Hr Hs)
    as (w' & Hrun & Hq' & _).
  exists w'.
  assert (Hrc : raster_calculation f (pre ++ e :: post) name w = (Raise ex, w')).
  { rewrite raster_calculation_unfold. unfold bind at 1. rewrite Hc.
    unfold after_cleanup, bind at 1. now rewrite Hrun. }
  split; [exact Hrc |]. split; [congruence |].
  pose proof (respects_run _ _ _ _ _ (framed_raster_calculation _ _ _) Hrc).
  assumption.
Qed.

(** Once the entries are validated and the engine has answered 0 with a
    raster, the outcome is that of the statistics of the output. *)
Lemma evaluation_after_engine (f name : string)
    (e0 : QgsRasterCalculatorEntry) (rest : list QgsRasterCalculatorEntry)
    (sts : list QgsRasterBandStats) (w : world) (rout : raster) :
  let p := output_path_of (w_home w) name in
  deletable p w ->
  Forall2 (stats_known (w_stats w)) (e0 :: rest) sts ->
  w_engine w (calculator_of f p (e0 :: rest) e0) = (0%Z, Dataset rout) ->
  exists w2,
    w_fs w2 !! p = Some (mkNode (Some rout) Removable)
    /\ (forall q, q <> p -> w_fs w2 !! q = w_fs w !! q)
    /\ same_host w w2
    /\ w_log w2
       = (w_log w ++ map (fun '(e, st) => (Info, input_line e st))
                         (combine (e0 :: rest) sts)
                  ++ [(Info, ("Executing formula: " ++ f)%string)])%list
    /\ engine_calls (w_trace w2)
       = (engine_calls (w_trace w) ++ [calculator_of f p (e0 :: rest) e0])%list
    /\ raster_calculation f (e0 :: rest) name w
       = match w_stats w rout with
         | Ok st =>
             (Ok (mkLayer p name (Some rout) None),
              add_log Info (output_line name st)
                (record (CallStatistics p) (record (CallOpen p name) w2)))
         | Raise ex =>
             (Raise ex, record (CallStatistics p) (record (CallOpen p name) w2))
         end.
Proof.
  intros p Hdel Hsts He.
  destruct (cleanup_deletable _ _ Hdel) as (w0 & Hc & Hfs0 & Hh0 & Hl0 & Hq0).
  fold p in Hc, Hfs0.
  assert (Hst0 : w_stats w0 = w_stats w) by apply Hh0.
  rewrite <- Hst0 in Hsts.
  destruct (for_each_validate_valid (e0 :: rest) sts w0 Hsts)
    as (w1 & Hrun & Hlog & Htr & Hfs & Hh1).
  pose proof (same_host_trans _ _ _ Hh0 Hh1) as Hh.
  destruct Hh as (Hhome & Heng & Hst & Hlay & Hbar).
  exists (set_fs (fun fs => file_of (Dataset rout) fs p)
            (record (CallProcess (calculator_of f p (e0 :: rest) e0))
               (add_log Info ("Executing formula: " ++ f) w1))).
  cbn [w_fs w_log w_trace set_fs record add_log file_of].
  split; [apply lookup_insert_eq |].
  split.
  { intros q Hq. rewrite lookup_insert_ne by congruence.
    rewrite Hfs, Hfs0. now apply lookup_delete_ne. }
  split; [repeat split; assumption |].
  split; [rewrite Hlog, Hl0, <- app_assoc; reflexivity |].
  split.
  { rewrite !engine_calls_app, Htr, engine_calls_app, engine_calls_statistics.
    cbn [engine_calls]. rewrite !app_nil_r, Hq0. reflexivity. }
  rewrite raster_calculation_unfold. fold p. unfold bind at 1. rewrite Hc.
  rewrite after_cleanup_outcome, Hrun. cbn zeta.
  cbn [w_engine add_log]. rewrite Heng, He. cbn [fst snd negb Z.eqb].
  rewrite validate_output_outcome.
  cbn [w_fs w_stats set_fs record add_log file_of].
  rewrite lookup_insert_eq. cbn [mbind option_bind n_raster].
  rewrite Hst. destruct (w_stats w rout); reflexivity.
Qed.

Lemma calculate_lst_reports (path : string) (w w1 : world) (ex : exn) :
  compute_styled path w = (Raise ex, w1) ->
  fst (calculate_lst path w) = Ok tt
  /\ w_bar (snd (calculate_lst path w)) = (w_bar w ++ [error_entry ex])%list
  /\ w_layers (snd (calculate_lst path w)) = w_layers w.
Proof.
  intros Hc.
  pose proof (respects_run _ _ _ _ _ (framed_compute_styled path) Hc)
    as (_ & _ & _ & Hl & Hb).
  rewrite calculate_lst_outcome, Hc. cbn [fst snd w_bar w_layers add_log add_bar].
  rewrite Hl, Hb. repeat split.
Qed.

(** C9, as the code has it.  In [raster_calculation], statistics that are
    returned are only written to the log, whatever the two bounds are (the
    text None included): with the engine answering 0 the evaluation
    returns its layer.  A statistics computation that raises is handled
    nowhere in [raster_calculation]: raised for an input entry, at any
    place of the list, the exception leaves the evaluation before the
    engine has run; raised for the reloaded output (line 140), it leaves
    the evaluation after the engine has run and written its file.  In the
    pipeline each of them ends the run in the handler of [calculate_lst],
    which reports it: for the band 10 layer, for the TOA output and for
    the BT output. *)
Theorem statistics_logged_or_propagated :
  (forall f name e0 rest sts w rout st,
     deletable (output_path_of (w_home w) name) w ->
     Forall2 (stats_known (w_stats w)) (e0 :: rest) sts ->
     w_engine w (calculator_of f (output_path_of (w_home w) name) (e0 :: rest) e0)
     = (0%Z, Dataset rout) ->
     w_stats w rout = Ok st ->
     let res := raster_calculation f (e0 :: rest) name w in
     fst res = Ok (mkLayer (output_path_of (w_home w) name) name (Some rout) None)
     /\ w_log (snd res)
        = (w_log w ++ map (fun '(e, st) => (Info, input_line e st))
                          (combine (e0 :: rest) sts)
                   ++ [(Info, ("Executing formula: " ++ f)%string);
                       (Info, output_line name st)])%list)
  /\ (forall f name pre e post sts w r ex,
        deletable (output_path_of (w_home w) name) w ->
        Forall2 (stats_known (w_stats w)) pre sts ->
        l_data (e_raster e) = Some r -> w_stats w r = Raise ex ->
        let res := raster_calculation f (pre ++ e :: post) name w in
        fst res = Raise ex
        /\ engine_calls (w_trace (snd res)) = engine_calls (w_trace w))
  /\ (forall f name e0 rest sts w rout ex,
        let p := output_path_of (w_home w) name in
        deletable p w ->
        Forall2 (stats_known (w_stats w)) (e0 :: rest) sts ->
        w_engine w (calculator_of f p (e0 :: rest) e0) = (0%Z, Dataset rout) ->
        w_stats w rout = Raise ex ->
        let res := raster_calculation f (e0 :: rest) name w in
        fst res = Raise ex
        /\ engine_calls (w_trace (snd res))
           = (engine_calls (w_trace w) ++ [calculator_of f p (e0 :: rest) e0])%list
        /\ w_fs (snd res) !! p = Some (mkNode (Some rout) Removable))
  /\ (forall path w rin ex,
        w_fs w !! path ≫= n_raster = Some rin ->
        deletable (toa_path w) w ->
        w_stats w rin = Raise ex ->
        fst (calculate_lst path w) = Ok tt
        /\ w_bar (snd (calculate_lst path w)) = (w_bar w ++ [error_entry ex])%list
        /\ w_layers (snd (calculate_lst path w)) = w_layers w)
  /\ (forall path w rin st rT ex,
        let lin := mkLayer path "B10_RAW" (Some rin) None in
        w_fs w !! path ≫= n_raster = Some rin ->
        deletable (toa_path w) w ->
        w_stats w rin = Ok st ->
        w_engine w (calculator_of (toa_formula ml_default al_default) (toa_path w)
                      [toa_entry lin] (toa_entry lin)) = (0%Z, Dataset rT) ->
        w_stats w rT = Raise ex ->
        fst (calculate_lst path w) = Ok tt
        /\ w_bar (snd (calculate_lst path w)) = (w_bar w ++ [error_entry ex])%list
        /\ w_layers (snd (calculate_lst path w)) = w_layers w)
  /\ (forall path w rin st rT stT rB ex,
        let lin := mkLayer path "B10_RAW" (Some rin) None in
        let lT := mkLayer (toa_path w) "TOA_Radiance" (Some rT) None in
        w_fs w !! path ≫= n_raster = Some rin ->
        deletable (toa_path w) w -> deletable (bt_path w) w ->
        w_stats w rin = Ok st ->
        w_engine w (calculator_of (toa_formula ml_default al_default) (toa_path w)
                      [toa_entry lin] (toa_entry lin)) = (0%Z, Dataset rT) ->
        w_stats w rT = Ok stT ->
        w_engine w (calculator_of bt_formula (bt_path w)
                      [bt_entry lT] (bt_entry lT)) = (0%Z, Dataset rB) ->
        w_stats w rB = Raise ex ->
        fst (calculate_lst path w) = Ok tt
        /\ w_bar (snd (calculate_lst path w)) = (w_bar w ++ [error_entry ex])%list
        /\ w_layers (snd (calculate_lst path w)) = w_layers w).
Proof.
  split; [| split; [| split; [| split; [| split]]]].
  - intros f name e0 rest sts w rout st Hdel Hsts He Hs res.
    destruct (evaluation_after_engine f name e0 rest sts w rout Hdel Hsts He)
      as (w2 & _ & _ & _ & Hlog & _ & Hrc).
    unfold res. rewrite Hrc, Hs. cbn [fst snd w_log add_log record].
    split; [reflexivity |]. rewrite Hlog, <- !app_assoc. reflexivity.
  - intros f name pre e post sts w r ex Hdel Hpre Hr Hs res.
    destruct (stats_raise_in_validation f name pre post e sts w r ex
                Hdel Hpre Hr Hs) as (w' & Hrc & Hq & _).
    unfold res. rewrite Hrc. split; [reflexivity | exact Hq].
  - intros f name e0 rest sts w rout ex p Hdel Hsts He Hs res.
    destruct (evaluation_after_engine f name e0 rest sts w rout Hdel Hsts He)
      as (w2 & Hfile & _ & _ & _ & Hcalls & Hrc).
    unfold res. rewrite Hrc, Hs. cbn [fst snd w_trace w_fs record].
    split; [reflexivity |]. split; [| exact Hfile].
    rewrite !engine_calls_app. cbn [engine_calls]. rewrite !app_nil_r.
    exact Hcalls.
  - intros path w rin ex Hrin Hdel Hs.
    destruct (stats_raise_in_validation (toa_formula ml_default al_default)
                "TOA_Radiance" [] []
                (toa_entry (mkLayer path "B10_RAW" (Some rin) None)) []
                (add_log Info "Calculating TOA..."
                   (record (CallOpen path "B10_RAW") w)) rin ex)
      as (w' & Hrc & _); [exact Hdel | constructor | reflexivity | exact Hs |].
    apply (calculate_lst_reports path w w').
    rewrite compute_styled_unfold, Hrin. cbn [app] in Hrc. now rewrite Hrc.
  - intros path w rin st rT ex lin Hrin Hdel Hs He HsT.
    destruct (evaluation_after_engine (toa_formula ml_default al_default)
                "TOA_Radiance" (toa_entry lin) [] [st]
                (add_log Info "Calculating TOA..."
                   (record (CallOpen path "B10_RAW") w)) rT)
      as (w2 & _ & _ & _ & _ & _ & Hrc);
      [exact Hdel | repeat constructor; exists rin; split; [reflexivity | exact Hs]
      | exact He |].
    cbn [w_stats add_log record] in Hrc. rewrite HsT in Hrc.
    eapply (calculate_lst_reports path w).
    rewrite compute_styled_unfold, Hrin. fold lin. now rewrite Hrc.
  - intros path w rin st rT stT rB ex lin lT Hrin HdT HdB Hs HeT HsT HeB HsB.
    destruct (evaluation_after_engine (toa_formula ml_default al_default)
                "TOA_Radiance" (toa_entry lin) [] [st]
                (add_log Info "Calculating TOA..."
                   (record (CallOpen path "B10_RAW") w)) rT)
      as (w2 & _ & Hother & Hh2 & _ & _ & HrcT);
      [exact HdT | repeat constructor; exists rin; split; [reflexivity | exact Hs]
      | exact HeT |].
    cbn [w_stats w_home w_fs add_log record] in HrcT, Hother.
    rewrite HsT in HrcT. fold (toa_path w) in HrcT, Hother.
    destruct Hh2 as (Hhome & Heng & Hst & _).
    cbn [w_home w_engine w_stats add_log record] in Hhome, Heng, Hst.
    set (wb := add_log Info (output_line "TOA_Radiance" stT)
                 (record (CallStatistics (toa_path w))
                    (record (CallOpen (toa_path w) "TOA_Radiance") w2))) in *.
    set (w3 := add_log Info ("BT Formula: " ++ bt_formula)
                 (add_log Info "Calculating BT..." wb)).
    assert (Hp : output_path_of (w_home w3) "BrightnessTemp" = bt_path w).
    { unfold bt_path. cbn [w3 wb w_home add_log record]. now rewrite Hhome. }
    destruct (evaluation_after_engine bt_formula "BrightnessTemp" (bt_entry lT)
                [] [stT] w3 rB) as (w4 & _ & _ & _ & _ & _ & HrcB).
    { rewrite Hp. intros n Hn. apply (HdB n).
      cbn [w3 wb w_fs add_log record] in Hn.
      rewrite Hother in Hn by (apply not_eq_sym, output_paths_differ).
      exact Hn. }
    { repeat constructor. exists rT. split; [reflexivity |].
      cbn [w3 wb w_stats add_log record]. now rewrite Hst. }
    { rewrite Hp. cbn [w3 wb w_engine add_log record]. now rewrite Heng. }
    cbn [w3 wb w_stats add_log record] in HrcB. rewrite Hst, HsB in HrcB.
    eapply (calculate_lst_reports path w).
    rewrite compute_styled_unfold, Hrin. fold lin. rewrite HrcT.
    fold lT. fold wb. fold w3. now rewrite HrcB.
Qed.

Lemma statistics_logged_or_propagated_witness :
  let w := demo_world_with_stats (fun _ => Ok (mkStats "None" "None")) in
  let res := raster_calculation (toa_formula ml_default al_default)
               [toa_entry demo_layer] "TOA_Radiance" w in
  fst res
  = Ok (mkLayer "/proj/TOA_Radiance.tif" "TOA_Radiance" (Some demo_toa) None)
  /\ w_log (snd res)
     = [(Info, "Input b10@1 - Min: None, Max: None");
        (Info, "Executing formula: " ++ toa_formula ml_default al_default);
        (Info, "Output TOA_Radiance - Min: None, Max: None")].
Proof.
  apply (proj1 statistics_logged_or_propagated
           (toa_formula ml_default al_default) "TOA_Radiance"
           (toa_entry demo_layer) [] [mkStats "None" "None"]
           (demo_world_with_stats (fun _ => Ok (mkStats "None" "None")))
           demo_toa (mkStats "None" "None")).
  - intros n Hn. discriminate Hn.
  - repeat constructor. exists demo_band10. split; reflexivity.
  - reflexivity.
  - reflexivity.
Defined.


(** ** The formulas as functions *)

Lemma value_of_nonneg (x : pyfloat) : (0 <= value_of x)%R.
Proof.
  unfold value_of, real_lit. apply Rmult_le_pos.
  - apply IZR_le. lia.
  - left. apply Rinv_0_lt_compat, pow_lt. lra.
Qed.

Lemma value_of_pos (x : pyfloat) : (0 < mantissa x)%N -> (0 < value_of x)%R.
Proof.
  intros H. unfold value_of, real_lit. apply Rdiv_lt_0_compat.
  - apply IZR_lt. lia.
  - apply pow_lt. lra.
Qed.

Lemma bt_of_above_absolute_zero (toa : R) :
  (0 <= toa)%R -> (- (27315 / 100) < bt_of toa)%R.
Proof.
  intros H. destruct (bt_guard _ H) as (_ & _ & Hln). unfold bt_of.
  assert (0 < 132108 / 100 / ln (77489 / 100 / (toa + 1 / 1000000) + 1))%R
    by (apply Rdiv_lt_0_compat; lra).
  lra.
Qed.

Lemma bt_of_increasing (a b : R) :
  (0 <= a)%R -> (a < b)%R -> (bt_of a < bt_of b)%R.
Proof.
  intros Ha Hab.
  assert (Hb : (0 <= b)%R) by lra.
  destruct (bt_guard _ Ha) as (Hda & Hua & Hla).
  destruct (bt_guard _ Hb) as (Hdb & Hub & Hlb).
  assert (Hq : (77489 / 100 / (b + 1 / 1000000)
                < 77489 / 100 / (a + 1 / 1000000))%R).
  { unfold Rdiv at 1 3. apply Rmult_lt_compat_l; [lra |].
    apply Rinv_lt_contravar; [apply Rmult_lt_0_compat; lra | lra]. }
  assert (Hl : (ln (77489 / 100 / (b + 1 / 1000000) + 1)
                < ln (77489 / 100 / (a + 1 / 1000000) + 1))%R)
    by (apply ln_increasing; lra).
  unfold bt_of. apply Rplus_lt_compat_r.
  unfold Rdiv at 1 4. apply Rmult_lt_compat_l; [lra |].
  apply Rinv_lt_contravar; [apply Rmult_lt_0_compat; lra | exact Hl].
Qed.

(** X12. The two formulas compose, in exact arithmetic: for any two
    constants that are printed in positional notation and any pixel of
    non-negative value, the TOA formula gives a radiance of at least AL
    (so not negative), the BT formula is defined on it, and the
    temperature it gives lies above -273.15 degrees. *)
Theorem stages_compose_on_nonnegative_pixels (ml al : pyfloat) (p : pixel R) :
  py_plain ml = true -> py_plain al = true ->
  (0 <= pixel_value real_arith p)%R ->
  exists toa bt,
    eval_formula real_arith [("b10@1", p)] (toa_formula ml al) = Some toa
    /\ (value_of al <= toa)%R
    /\ eval_formula real_arith [("toa@1", FloatPixel toa)] bt_formula = Some bt
    /\ bt = bt_of (toa_of ml al (pixel_value real_arith p))
    /\ (- (27315 / 100) < bt)%R.
Proof.
  intros Hml Hpl Hp.
  assert (Hal : (value_of al <= toa_of ml al (pixel_value real_arith p))%R).
  { unfold toa_of. pose proof (value_of_nonneg ml).
    assert (0 <= value_of ml * pixel_value real_arith p)%R
      by (now apply Rmult_le_pos). lra. }
  assert (Ht : (0 <= toa_of ml al (pixel_value real_arith p))%R)
    by (pose proof (value_of_nonneg al); lra).
  exists (toa_of ml al (pixel_value real_arith p)),
         (bt_of (toa_of ml al (pixel_value real_arith p))).
  split; [now apply eval_toa_real |]. split; [exact Hal |].
  split; [now apply (eval_bt_real (FloatPixel _)) |].
  split; [reflexivity | now apply bt_of_above_absolute_zero].
Qed.

Lemma stages_compose_on_nonnegative_pixels_witness :
  exists toa bt,
    eval_formula real_arith [("b10@1", IntPixel 120)]
      (toa_formula ml_default al_default) = Some toa
    /\ (value_of al_default <= toa)%R
    /\ eval_formula real_arith [("toa@1", FloatPixel toa)] bt_formula = Some bt
    /\ bt = bt_of (toa_of ml_default al_default 120)
    /\ (- (27315 / 100) < bt)%R.
Proof.
  apply (stages_compose_on_nonnegative_pixels ml_default al_default
           (IntPixel 120)).
  - reflexivity.
  - reflexivity.
  - simpl. lra.
Defined.

(** X13. The BT formula is strictly increasing on the non-negative
    radiances: a larger radiance gives a higher temperature. *)
Theorem bt_strictly_increasing (a b : R) :
  (0 <= a)%R -> (a < b)%R ->
  exists ta tb,
    eval_formula real_arith [("toa@1", FloatPixel a)] bt_formula = Some ta
    /\ eval_formula real_arith [("toa@1", FloatPixel b)] bt_formula = Some tb
    /\ (ta < tb)%R.
Proof.
  intros Ha Hab. exists (bt_of a), (bt_of b).
  split; [now apply (eval_bt_real (FloatPixel a)) |].
  split; [apply (eval_bt_real (FloatPixel b)); simpl; lra |].
  now apply bt_of_increasing.
Qed.

Lemma bt_strictly_increasing_witness :
  exists ta tb,
    eval_formula real_arith [("toa@1", FloatPixel 0%R)] bt_formula = Some ta
    /\ eval_formula real_arith [("toa@1", FloatPixel 1%R)] bt_formula = Some tb
    /\ (ta < tb)%R.
Proof. apply (bt_strictly_increasing 0 1); lra. Defined.

(** X14. With a positive gain ML the whole computation is strictly
    increasing in the digital number, in exact arithmetic and for
    constants that are printed in positional notation: of two non-negative
    pixel values the larger one gets the higher temperature. *)
Theorem temperature_increases_with_pixel_value (ml al : pyfloat)
    (n1 n2 : Z) :
  py_plain ml = true -> py_plain al = true ->
  (0 < mantissa ml)%N -> (0 <= n1)%Z -> (n1 < n2)%Z ->
  exists r1 r2 t1 t2,
    eval_formula real_arith [("b10@1", IntPixel n1)] (toa_formula ml al) = Some r1
    /\ eval_formula real_arith [("b10@1", IntPixel n2)] (toa_formula ml al) = Some r2
    /\ (r1 < r2)%R
    /\ eval_formula real_arith [("toa@1", FloatPixel r1)] bt_formula = Some t1
    /\ eval_formula real_arith [("toa@1", FloatPixel r2)] bt_formula = Some t2
    /\ (t1 < t2)%R.
Proof.
  intros Pml Pal Hml H1 H12.
  pose proof (value_of_pos ml Hml) as Hpos.
  pose proof (value_of_nonneg al) as Hal.
  assert (Hz1 : (0 <= IZR n1)%R) by (now apply IZR_le).
  assert (Hz : (IZR n1 < IZR n2)%R) by (now apply IZR_lt).
  assert (Hr : (toa_of ml al (IZR n1) < toa_of ml al (IZR n2))%R).
  { unfold toa_of. apply Rplus_lt_compat_r. now apply Rmult_lt_compat_l. }
  assert (Hr1 : (0 <= toa_of ml al (IZR n1))%R).
  { unfold toa_of. assert (0 <= value_of ml * IZR n1)%R
      by (apply Rmult_le_pos; lra). lra. }
  exists (toa_of ml al (IZR n1)), (toa_of ml al (IZR n2)),
         (bt_of (toa_of ml al (IZR n1))), (bt_of (toa_of ml al (IZR n2))).
  split; [now apply (eval_toa_real ml al (IntPixel n1)) |].
  split; [now apply (eval_toa_real ml al (IntPixel n2)) |].
  split; [exact Hr |].
  split; [now apply (eval_bt_real (FloatPixel _)) |].
  split; [apply (eval_bt_real (FloatPixel _)); simpl; lra |].
  now apply bt_of_increasing.
Qed.

Lemma temperature_increases_with_pixel_value_witness :
  exists r1 r2 t1 t2,
    eval_formula real_arith [("b10@1", IntPixel 120)]
      (toa_formula ml_default al_default) = Some r1
    /\ eval_formula real_arith [("b10@1", IntPixel 130)]
         (toa_formula ml_default al_default) = Some r2
    /\ (r1 < r2)%R
    /\ eval_formula real_arith [("toa@1", FloatPixel r1)] bt_formula = Some t1
    /\ eval_formula real_arith [("toa@1", FloatPixel r2)] bt_formula = Some t2
    /\ (t1 < t2)%R.
Proof.
  apply (temperature_increases_with_pixel_value ml_default al_default 120 130).
  - reflexivity.
  - reflexivity.
  - reflexivity.
  - lia.
  - lia.
Defined.
(** ** Running the pipeline a second time *)

(** What a run that reached the success message has found and left. *)
Lemma first_run_inv (path : string) (w0 w1 : world) :
  calculate_lst_body path w0 = (Ok tt, w1) ->
  exists rin rT rB stin stT stB,
    let lin := mkLayer path "B10_RAW" (Some rin) None in
    let lT := mkLayer (toa_path w0) "TOA_Radiance" (Some rT) None in
    w_fs w0 !! path ≫= n_raster = Some rin
    /\ w_stats w0 rin = Ok stin /\ w_stats w0 rT = Ok stT /\ w_stats w0 rB = Ok stB
    /\ w_engine w0 (calculator_of (toa_formula ml_default al_default) (toa_path w0)
                      [toa_entry lin] (toa_entry lin)) = (0%Z, Dataset rT)
    /\ w_engine w0 (calculator_of bt_formula (bt_path w0)
                      [bt_entry lT] (bt_entry lT)) = (0%Z, Dataset rB)
    /\ w_home w1 = w_home w0
    /\ w_layers w1
       = (w_layers w0 ++ [mkLayer (bt_path w0) "BrightnessTemp" (Some rB)
                            (Some thermal_renderer)])%list
    /\ w_fs w1 !! toa_path w0 = Some (mkNode (Some rT) Removable)
    /\ w_fs w1 !! bt_path w0 = Some (mkNode (Some rB) Removable).
Proof.
  intros Hbody. rewrite calculate_lst_body_split in Hbody.
  apply bind_ok_inv in Hbody as (l & w' & Hc & Hend).
  injection Hend as <-.
  pose proof (respects_run _ _ _ _ _ (framed_compute_styled path) Hc)
    as (Hhome & _ & _ & Hlay & _).
  rewrite compute_styled_unfold in Hc.
  destruct (w_fs w0 !! path ≫= n_raster) as [rin|] eqn:Hrin; [| discriminate].
  destruct (raster_calculation (toa_formula ml_default al_default) _ _ _)
    as [[toa_l|e] wb] eqn:HT; [| discriminate].
  destruct (raster_calculation bt_formula _ _ _)
    as [[bt_l|e] wc] eqn:HB; [| discriminate].
  injection Hc as <- <-.
  pose proof (respects_run _ _ _ _ _ (framed_raster_calculation _ _ _) HT)
    as (HhT & HengT & HstT & _).
  cbn [w_home w_engine w_stats add_log record] in HhT, HengT, HstT.
  apply raster_calculation_single_ok_inv in HT
    as (rin' & stin & rT & stT & Hin & Hsin & _ & HeT & HsT & -> & HfT).
  apply raster_calculation_single_ok_inv in HB
    as (_ & _ & rB & stB & _ & _ & _ & HeB & HsB & -> & HfB).
  cbn [w_home w_engine w_stats w_fs add_log record] in *.
  rewrite HhT in *. rewrite HengT in HeB. rewrite HstT in HsB.
  fold (toa_path w0) in *. fold (bt_path w0) in *.
  cbn [l_data e_raster toa_entry create_raster_entry] in Hin.
  injection Hin as <-.
  exists rin, rT, rB, stin, stT, stB. cbn zeta.
  cbn [w_layers record] in Hlay. cbn [w_home record] in Hhome.
  cbn [w_home w_layers w_fs l_source add_bar add_layer record].
  rewrite Hlay, Hhome, HfB, HfT.
  repeat split; try assumption.
  - rewrite lookup_insert_ne by (apply not_eq_sym, output_paths_differ).
    rewrite lookup_delete_ne by (apply not_eq_sym, output_paths_differ).
    apply lookup_insert_eq.
  - apply lookup_insert_eq.
Qed.

Lemma body_other_file (path q : string) (w0 w1 : world) :
  calculate_lst_body path w0 = (Ok tt, w1) ->
  q <> toa_path w0 -> q <> bt_path w0 ->
  w_fs w1 !! q = w_fs w0 !! q.
Proof.
  intros Hbody HT HB. rewrite calculate_lst_body_split in Hbody.
  apply bind_ok_inv in Hbody as (l & w' & Hc & Hend).
  injection Hend as <-.
  pose proof (other_file_compute_styled q path w0 HT HB) as H.
  rewrite Hc in H. exact H.
Qed.

(** A stage over the file an earlier run left at its output path. *)
Lemma stage_over_stale (f name p : string) (en : QgsRasterCalculatorEntry)
    (w : world) (n : node) (rin r : raster) (stin st : QgsRasterBandStats) :
  output_path_of (w_home w) name = p ->
  l_data (e_raster en) = Some rin -> w_stats w rin = Ok stin ->
  w_fs w !! p = Some n -> n_removal n = Removable ->
  w_engine w (calculator_of f p [en] en) = (0%Z, Dataset r) ->
  w_stats w r = Ok st ->
  exists w',
    raster_calculation f [en] name w = (Ok (mkLayer p name (Some r) None), w')
    /\ w_fs w' = <[p := mkNode (Some r) Removable]> (w_fs w)
    /\ same_host w w'
    /\ exists t, w_trace w' = (w_trace w ++ CallExists p :: CallRemove p :: t)%list.
Proof.
  intros <- Hin Hsin Hp Hrm He Hst.
  destruct (raster_calculation_single_rerun f name en w n rin r stin st
              Hin Hsin Hp Hrm He Hst) as (w' & Hrun & Hfs & Hh & Ht).
  exists w'. rewrite Hfs, insert_delete_eq. auto.
Qed.

(** A stage whose output path holds a file that is in use. *)
Lemma stage_locked (f name p : string) (es : list QgsRasterCalculatorEntry)
    (w : world) (n : node) (e : exn) :
  output_path_of (w_home w) name = p ->
  w_fs w !! p = Some n -> n_removal n = Refuses e ->
  isinstance e PermissionErrorC = true ->
  raster_calculation f es name w
  = (Raise (file_in_use p), record (CallRemove p) (record (CallExists p) w)).
Proof.
  intros <- Hp Hr He. rewrite raster_calculation_unfold. unfold bind.
  now rewrite (cleanup_refused _ w n e Hp Hr), He.
Qed.

Lemma lookup_raster_some (fs : gmap string node) (p : string) (r : raster) :
  fs !! p ≫= n_raster = Some r -> exists n, fs !! p = Some n.
Proof. destruct (fs !! p) as [n|]; [eauto | discriminate]. Qed.

(** C7, as the code has it.  After a run of the pipeline that succeeded,
    take a second run on the same input, in a project with the same home
    and layers, with files that hold what the first run left, and with an
    engine and a statistics provider that answer as they did.  When the
    host lets the two output files be deleted, the second run succeeds:
    it deletes both, writes them again with the same content and adds the
    same layer.  When the deletion of an output file is refused with a
    [PermissionError] (the file is in use), the second run ends in the
    error handler with the "file in use" message for that file, adds no
    layer, and the file stays as it was. *)
Theorem pipeline_rerun_idempotent (path : string) (w0 w1 v : world) :
  calculate_lst_body path w0 = (Ok tt, w1) ->
  path <> toa_path w0 -> path <> bt_path w0 ->
  w_home v = w_home w1 -> w_layers v = w_layers w1 ->
  (forall q, w_fs v !! q ≫= n_raster = w_fs w1 !! q ≫= n_raster) ->
  (forall c, w_engine v c = w_engine w0 c) ->
  (forall r, w_stats v r = w_stats w0 r) ->
  (deletable (toa_path w0) v -> deletable (bt_path w0) v ->
     exists w2 bt t,
       calculate_lst path v = (Ok tt, w2)
       /\ w_layers w1 = (w_layers w0 ++ [bt])%list
       /\ w_layers w2 = (w_layers v ++ [bt])%list
       /\ (forall q, w_fs w2 !! q ≫= n_raster = w_fs w1 !! q ≫= n_raster)
       /\ w_trace w2 = (w_trace v ++ t)%list
       /\ In (CallRemove (toa_path w0)) t
       /\ In (CallRemove (bt_path w0)) t)
  /\ (forall n e,
        w_fs v !! toa_path w0 = Some n -> n_removal n = Refuses e ->
        isinstance e PermissionErrorC = true ->
        let w2 := snd (calculate_lst path v) in
        fst (calculate_lst path v) = Ok tt
        /\ w_bar w2 = (w_bar v ++ [error_entry (file_in_use (toa_path w0))])%list
        /\ w_layers w2 = w_layers v
        /\ w_fs w2 = w_fs v)
  /\ (forall n e,
        deletable (toa_path w0) v ->
        w_fs v !! bt_path w0 = Some n -> n_removal n = Refuses e ->
        isinstance e PermissionErrorC = true ->
        let w2 := snd (calculate_lst path v) in
        fst (calculate_lst path v) = Ok tt
        /\ w_bar w2 = (w_bar v ++ [error_entry (file_in_use (bt_path w0))])%list
        /\ w_layers w2 = w_layers v
        /\ w_fs w2 !! bt_path w0 = Some n).
Proof.
  intros Hbody HpT HpB Hhome Hlay Hcont Heng Hst.
  destruct (first_run_inv path w0 w1 Hbody)
    as (rin & rT & rB & stin & stT & stB & Hrin & Hsin & HsT & HsB & HeT & HeB
        & Hh1 & Hl1 & HfT & HfB).
  cbn zeta in HeT, HeB.
  assert (Hin : w_fs v !! path ≫= n_raster = Some rin).
  { now rewrite Hcont, (body_other_file path path w0 w1 Hbody HpT HpB). }
  assert (HcT : w_fs v !! toa_path w0 ≫= n_raster = Some rT)
    by (now rewrite Hcont, HfT).
  assert (HcB : w_fs v !! bt_path w0 ≫= n_raster = Some rB)
    by (now rewrite Hcont, HfB).
  assert (Hh : w_home v = w_home w0) by congruence.
  set (lin := mkLayer path "B10_RAW" (Some rin) None) in *.
  set (lT := mkLayer (toa_path w0) "TOA_Radiance" (Some rT) None) in *.
  set (v1 := add_log Info "Calculating TOA..." (record (CallOpen path "B10_RAW") v)).
  assert (HT1 : output_path_of (w_home v1) "TOA_Radiance" = toa_path w0)
    by (unfold toa_path; cbn [v1 w_home add_log record]; now rewrite Hh).
  (* the TOA stage of the second run, when its file can be deleted *)
  assert (Htoa : deletable (toa_path w0) v ->
            exists vb t1,
              raster_calculation (toa_formula ml_default al_default)
                [toa_entry lin] "TOA_Radiance" v1 = (Ok lT, vb)
              /\ w_fs vb = <[toa_path w0 := mkNode (Some rT) Removable]> (w_fs v)
              /\ same_host v vb
              /\ w_trace vb
                 = (w_trace v ++ CallOpen path "B10_RAW"
                      :: CallExists (toa_path w0) :: CallRemove (toa_path w0)
                      :: t1)%list).
  { intros Hdel. destruct (lookup_raster_some _ _ _ HcT) as [nT HnT].
    destruct (stage_over_stale (toa_formula ml_default al_default)
                "TOA_Radiance" (toa_path w0) (toa_entry lin) v1 nT rin rT
                stin stT HT1 eq_refl)
      as (vb & Hrc & Hfs & Hhb & t1 & Ht1).
    - cbn [v1 w_stats add_log record]. now rewrite Hst.
    - exact HnT.
    - exact (Hdel nT HnT).
    - cbn [v1 w_engine add_log record]. now rewrite Heng.
    - cbn [v1 w_stats add_log record]. now rewrite Hst.
    - exists vb, t1. split; [exact Hrc |]. split; [exact Hfs |].
      split; [exact Hhb |].
      rewrite Ht1. cbn [v1 w_trace add_log record].
      now rewrite <- app_assoc. }
  split; [| split].
  - (* both files can be deleted *)
    intros HdT HdB. destruct (Htoa HdT) as (vb & t1 & HrcT & HfsT & HhT & HtT).
    destruct HhT as (HhomeT & HengT & HstT & HlayT & HbarT).
    set (v3 := add_log Info ("BT Formula: " ++ bt_formula)
                 (add_log Info "Calculating BT..." vb)).
    assert (HB3 : output_path_of (w_home v3) "BrightnessTemp" = bt_path w0)
      by (unfold bt_path; cbn [v3 w_home add_log]; now rewrite HhomeT, Hh).
    destruct (lookup_raster_some _ _ _ HcB) as [nB HnB].
    destruct (stage_over_stale bt_formula "BrightnessTemp" (bt_path w0)
                (bt_entry lT) v3 nB rT rB stT stB HB3 eq_refl)
      as (vc & HrcB & HfsB & HhB & t2 & Ht2).
    + cbn [v3 w_stats add_log]. now rewrite HstT, Hst.
    + cbn [v3 w_fs add_log]. rewrite HfsT.
      rewrite lookup_insert_ne by apply output_paths_differ. exact HnB.
    + exact (HdB nB HnB).
    + cbn [v3 w_engine add_log]. now rewrite HengT, Heng.
    + cbn [v3 w_stats add_log]. now rewrite HstT, Hst.
    + destruct HhB as (_ & _ & _ & HlayB & HbarB).
      cbn [v3 w_layers w_bar w_fs w_trace add_log] in HlayB, HbarB, HfsB, Ht2.
      assert (Hc2 : compute_styled path v
                    = (Ok (mkLayer (bt_path w0) "BrightnessTemp" (Some rB)
                             (Some thermal_renderer)),
                       record (CallRepaint (bt_path w0)) vc)).
      { rewrite compute_styled_unfold, Hin. fold lin. fold v1. rewrite HrcT.
        fold v3. rewrite HrcB. reflexivity. }
      eexists. eexists. eexists.
      split; [rewrite calculate_lst_outcome, Hc2; reflexivity |].
      cbn [w_layers w_fs w_trace l_source add_bar add_layer record].
      split; [exact Hl1 |].
      split; [now rewrite HlayB, HlayT |].
      split.
      { intros q. rewrite HfsB, HfsT.
        destruct (decide (q = bt_path w0)) as [-> | HqB].
        { now rewrite lookup_insert_eq, HfB. }
        rewrite lookup_insert_ne by congruence.
        destruct (decide (q = toa_path w0)) as [-> | HqT].
        { now rewrite lookup_insert_eq, HfT. }
        rewrite lookup_insert_ne by congruence. apply Hcont. }
      rewrite Ht2, HtT, <- !app_assoc. cbn [app].
      split; [reflexivity |].
      split.
      * do 2 apply in_cons. apply in_eq.
      * do 3 apply in_cons. apply in_or_app. right. apply in_cons, in_eq.
  - (* the TOA file is in use *)
    intros n e Hn Hr He.
    assert (Hc2 : compute_styled path v
                  = (Raise (file_in_use (toa_path w0)),
                     record (CallRemove (toa_path w0))
                       (record (CallExists (toa_path w0)) v1))).
    { rewrite compute_styled_unfold, Hin. fold lin. fold v1.
      now rewrite (stage_locked _ _ (toa_path w0) _ v1 n e HT1 Hn Hr He). }
    cbn zeta. rewrite calculate_lst_outcome, Hc2. repeat split.
  - (* the BT file is in use *)
    intros n e HdT Hn Hr He.
    destruct (Htoa HdT) as (vb & t1 & HrcT & HfsT & HhT & HtT).
    destruct HhT as (HhomeT & HengT & HstT & HlayT & HbarT).
    set (v3 := add_log Info ("BT Formula: " ++ bt_formula)
                 (add_log Info "Calculating BT..." vb)).
    assert (HB3 : output_path_of (w_home v3) "BrightnessTemp" = bt_path w0)
      by (unfold bt_path; cbn [v3 w_home add_log]; now rewrite HhomeT, Hh).
    assert (Hn3 : w_fs v3 !! bt_path w0 = Some n).
    { cbn [v3 w_fs add_log]. rewrite HfsT.
      rewrite lookup_insert_ne by apply output_paths_differ. exact Hn. }
    assert (Hc2 : compute_styled path v
                  = (Raise (file_in_use (bt_path w0)),
                     record (CallRemove (bt_path w0))
                       (record (CallExists (bt_path w0)) v3))).
    { rewrite compute_styled_unfold, Hin. fold lin. fold v1. rewrite HrcT.
      fold v3.
      now rewrite (stage_locked _ _ (bt_path w0) _ v3 n e HB3 Hn3 Hr He). }
    cbn zeta. rewrite calculate_lst_outcome, Hc2.
    cbn [fst snd w_bar w_layers w_fs v3 add_log add_bar record].
    rewrite HbarT, HlayT. repeat split.
    rewrite HfsT, lookup_insert_ne by apply output_paths_differ. exact Hn.
Qed.

Lemma lock_loaded_contents (w : world) (q : string) :
  w_fs (lock_loaded w) !! q ≫= n_raster = w_fs w !! q ≫= n_raster.
Proof.
  unfold lock_loaded. cbn [w_fs set_fs]. rewrite map_lookup_imap.
  destruct (w_fs w !! q) as [n|]; [| reflexivity]. cbn.
  now destruct (loaded (w_layers w) q).
Qed.

Lemma pipeline_rerun_idempotent_witness :
  (exists w2 bt t,
     calculate_lst "/data/B10.tif" demo_world_after_run = (Ok tt, w2)
     /\ w_layers demo_world_after_run = (w_layers demo_world ++ [bt])%list
     /\ w_layers w2 = (w_layers demo_world_after_run ++ [bt])%list
     /\ (forall q, w_fs w2 !! q ≫= n_raster
                   = w_fs demo_world_after_run !! q ≫= n_raster)
     /\ w_trace w2 = (w_trace demo_world_after_run ++ t)%list
     /\ In (CallRemove (toa_path demo_world)) t
     /\ In (CallRemove (bt_path demo_world)) t)
  /\ (let w2 := snd (calculate_lst "/data/B10.tif"
                       (lock_loaded demo_world_after_run)) in
      fst (calculate_lst "/data/B10.tif" (lock_loaded demo_world_after_run))
      = Ok tt
      /\ w_bar w2
         = (w_bar (lock_loaded demo_world_after_run)
            ++ [error_entry (file_in_use (bt_path demo_world))])%list
      /\ w_layers w2 = w_layers (lock_loaded demo_world_after_run)
      /\ w_fs w2 !! bt_path demo_world
         = Some (mkNode (Some demo_bt)
                   (Refuses (in_use "/proj/BrightnessTemp.tif")))).
Proof.
  split.
  - apply (proj1 (pipeline_rerun_idempotent "/data/B10.tif" demo_world
                    demo_world_after_run demo_world_after_run
                    ltac:(vm_compute; reflexivity)
                    ltac:(discriminate) ltac:(discriminate) eq_refl eq_refl
                    (fun q => eq_refl)
                    ltac:(intros c; vm_compute; reflexivity)
                    ltac:(intros r; vm_compute; reflexivity))).
    + intros n Hn. vm_compute in Hn. now injection Hn as <-.
    + intros n Hn. vm_compute in Hn. now injection Hn as <-.
  - apply (proj2 (proj2 (pipeline_rerun_idempotent "/data/B10.tif" demo_world
                    demo_world_after_run (lock_loaded demo_world_after_run)
                    ltac:(vm_compute; reflexivity)
                    ltac:(discriminate) ltac:(discriminate)
                    ltac:(vm_compute; reflexivity)
                    ltac:(vm_compute; reflexivity)
                    (lock_loaded_contents demo_world_after_run)
                    ltac:(intros c; vm_compute; reflexivity)
                    ltac:(intros r; vm_compute; reflexivity)))
             (mkNode (Some demo_bt) (Refuses (in_use "/proj/BrightnessTemp.tif")))
             (in_use "/proj/BrightnessTemp.tif")).
    + intros n Hn. vm_compute in Hn. now injection Hn as <-.
    + vm_compute. reflexivity.
    + reflexivity.
    + reflexivity.
Defined.

(** The claim as the specification states it fails on a host where a
    layer of the project keeps its file from being deleted: the first run
    has added the BT layer to the project, and the second run on the same
    input ends with the "file in use" error for the BT output, with no
    second layer. *)
Lemma rerun_fails_on_locking_host :
  let v := lock_loaded demo_world_after_run in
  calculate_lst_body "/data/B10.tif" demo_world = (Ok tt, demo_world_after_run)
  /\ loaded (w_layers demo_world_after_run) "/proj/BrightnessTemp.tif" = true
  /\ w_bar (snd (calculate_lst "/data/B10.tif" v))
     = [success_entry; error_entry (file_in_use "/proj/BrightnessTemp.tif")]
  /\ exn_msg (file_in_use "/proj/BrightnessTemp.tif")
     = "File in use: /proj/BrightnessTemp.tif. Close other programs."
  /\ map l_source (w_layers (snd (calculate_lst "/data/B10.tif" v)))
     = ["/proj/BrightnessTemp.tif"].
Proof.
  cbv zeta. split; [| split; [| split; [| split]]]; vm_compute; reflexivity.
Qed.

(** ** The pipeline on sixteen-bit data, in binary64 *)

Lemma Forall2_map_l {A B C} (P : B -> C -> Prop) (g : A -> B)
    (xs : list A) (ys : list C) :
  Forall2 P (map g xs) ys -> Forall2 (fun x y => P (g x) y) xs ys.
Proof.
  revert ys. induction xs as [|x xs IH]; intros ys H; inversion H; subst;
    constructor; auto.
Qed.

Lemma Forall_map_intro {A B} (P : B -> Prop) (g : A -> B) (xs : list A) :
  Forall (fun x => P (g x)) xs -> Forall P (map g xs).
Proof. induction 1; constructor; assumption. Qed.

(** X15. On the calculator, in binary64, the whole pipeline succeeds on
    every band 10 raster of sixteen-bit digital numbers: for any logarithm
    that is zero at 1 and positive above 1, with output paths that are
    free or can be freed and statistics that are returned, [calculate_lst]
    reports success and adds one layer, styled, whose raster holds at
    every cell the BT formula of the radiance [0.0003342 * DN + 0.1] of
    the digital number at that cell.  No digital number makes the
    formulas divide by zero or leave the domain of the logarithm. *)
Theorem pipeline_computes_temperature (fln : float -> option float)
    (path : string) (w : world) (r : raster) (cells : list Z) :
  ln_sound fln -> w_engine w = raster_engine fln ->
  w_fs w !! path ≫= n_raster = Some r -> r_bands r = [IntBand cells] ->
  List.length cells = N.to_nat (r_width r * r_height r) ->
  Forall (fun n => (0 <= n < 65536)%Z) cells ->
  deletable (toa_path w) w -> deletable (bt_path w) w -> stats_total w ->
  exists ys w',
    calculate_lst path w = (Ok tt, w')
    /\ w_layers w'
       = (w_layers w
          ++ [mkLayer (bt_path w) "BrightnessTemp"
                (Some (Raster (r_extent r) (r_width r) (r_height r)
                         [FloatBand ys]))
                (Some thermal_renderer)])%list
    /\ w_bar w' = (w_bar w ++ [success_entry])%list
    /\ Forall2 (fun n y => bt_cell fln (toa_of_dn n) = Some y) cells ys.
Proof.
  intros Hln Heng Hrin Hb Hn Hcells HdT HdB Hst.
  set (lin := mkLayer path "B10_RAW" (Some r) None).
  set (v1 := add_log Info "Calculating TOA..."
               (record (CallOpen path "B10_RAW") w)).
  set (rT := toa_raster ml_default al_default r (IntBand cells)).
  destruct (Hst r) as [st Hsr]. destruct (Hst rT) as [stT HsT].
  (* the TOA stage *)
  destruct (raster_calculation_single_run (toa_formula ml_default al_default)
              "TOA_Radiance" (toa_entry lin) v1 r rT st stT)
    as (vb & HrcT & HfsT & HhT & _);
    [reflexivity | exact Hsr | exact HdT | | exact HsT |].
  { cbn [v1 w_engine add_log record]. rewrite Heng.
    apply raster_engine_toa; try reflexivity; try assumption.
    cbn [band_cells]. now rewrite length_map. }
  change (output_path_of (w_home v1) "TOA_Radiance") with (toa_path w)
    in HrcT, HfsT.
  destruct HhT as (HhomeT & HengT & HstT & HlayT & HbarT).
  cbn [v1 w_home w_engine w_stats w_layers w_bar w_fs add_log record]
    in HhomeT, HengT, HstT, HlayT, HbarT, HfsT.
  (* the BT stage *)
  set (lT := mkLayer (toa_path w) "TOA_Radiance" (Some rT) None) in *.
  destruct (raster_engine_bt fln lT rT
              (FloatBand (map (fun p => (float_of ml_default * pixel_float p
                                         + float_of al_default)%float)
                              (band_cells (IntBand cells))))
              (bt_path w) eq_refl eq_refl)
    as (ys & Hrun & H2).
  { cbn [band_cells rT toa_raster r_width r_height]. now rewrite !length_map. }
  { cbn [band_cells]. do 3 apply Forall_map_intro.
    eapply Forall_impl; [exact Hcells |]. intros n Hr.
    apply (bt_cell_defined fln _ Hln). cbn [pixel_float].
    exact (guard_on_16_bits n Hr). }
  cbn [rT toa_raster r_extent r_width r_height] in Hrun.
  set (rB := Raster (r_extent r) (r_width r) (r_height r) [FloatBand ys]) in *.
  destruct (Hst rB) as [stB HsB].
  set (v3 := add_log Info ("BT Formula: " ++ bt_formula)
               (add_log Info "Calculating BT..." vb)).
  assert (HB3 : output_path_of (w_home v3) "BrightnessTemp" = bt_path w)
    by (unfold bt_path; cbn [v3 w_home add_log]; now rewrite HhomeT).
  pose proof (raster_calculation_single_run bt_formula "BrightnessTemp"
                (bt_entry lT) v3 rT rB stT stB) as HB.
  cbn zeta in HB. rewrite HB3 in HB.
  destruct HB as (vc & HrcB & HfsB & HhB & _).
  { reflexivity. }
  { cbn [v3 w_stats add_log]. now rewrite HstT. }
  { intros n Hnode. apply (HdB n). cbn [v3 w_fs add_log] in Hnode.
    rewrite HfsT, lookup_insert_ne in Hnode by apply output_paths_differ.
    exact Hnode. }
  { cbn [v3 w_engine add_log]. rewrite HengT, Heng. exact Hrun. }
  { cbn [v3 w_stats add_log]. now rewrite HstT. }
  destruct HhB as (_ & _ & _ & HlayB & HbarB).
  cbn [v3 w_layers w_bar add_log] in HlayB, HbarB.
  (* the run *)
  exists ys. eexists.
  rewrite calculate_lst_outcome, compute_styled_unfold, Hrin.
  fold lin. fold v1. rewrite HrcT. fold lT. fold v3. rewrite HrcB.
  split; [reflexivity |].
  cbn [w_layers w_bar l_source l_name l_data add_bar add_layer record].
  rewrite HlayB, HlayT, HbarB, HbarT. repeat split.
  cbn [band_cells] in H2.
  do 3 apply Forall2_map_l in H2. exact H2.
Qed.

Lemma pipeline_computes_temperature_witness :
  exists ys w',
    calculate_lst "/data/B10.tif"
      (mkWorld (w_fs demo_world) "/proj" (raster_engine ln_sign) demo_stats
         [] [] [] [])
    = (Ok tt, w')
    /\ w_layers w'
       = [mkLayer "/proj/BrightnessTemp.tif" "BrightnessTemp"
            (Some (Raster (0, 0, 60, 30)%Z 2 1 [FloatBand ys]))
            (Some thermal_renderer)]
    /\ w_bar w' = [success_entry]
    /\ Forall2 (fun n y => bt_cell ln_sign (toa_of_dn n) = Some y)
         [120; 130]%Z ys.
Proof.
  apply (pipeline_computes_temperature ln_sign "/data/B10.tif"
           (mkWorld (w_fs demo_world) "/proj" (raster_engine ln_sign) demo_stats
              [] [] [] [])
           demo_band10 [120; 130]%Z).
  - apply ln_sign_sound.
  - reflexivity.
  - reflexivity.
  - reflexivity.
  - reflexivity.
  - repeat constructor; lia.
  - intros n Hn. discriminate Hn.
  - intros n Hn. discriminate Hn.
  - intros r. eexists. reflexivity.
Defined.
